(** * Function-boundary parsers of lizard: Go-like, Go and Java grammars

    A shallow embedding of [lizard_languages/golike.py], [lizard_languages/go.py]
    and [lizard_languages/java.py].  Every state handler of the three classes is
    a function on an explicit parser state; the token-driven engine they
    inherit from ([code_reader.CodeStateMachine]) and the [context] object
    they report to are not part of these three files and are modelled in
    [Module Ctx] and [Module Engine] below. *)

From Stdlib Require Import String Ascii List ZArith Lia Bool Arith.
Import ListNotations.

Open Scope string_scope.

(** ** Python string primitives used by the handlers *)

Module Py.

(** Characters are code points below 256.  [isspace] is Python's
    [str.isspace] on that range: U+0009..U+000D, U+001C..U+0020, U+0085 and
    U+00A0. *)
Definition isspace (c : ascii) : bool :=
  let n := nat_of_ascii c in
  (((9 <=? n) && (n <=? 13)) || ((28 <=? n) && (n <=? 32))
   || (n =? 133) || (n =? 160))%nat.

Fixpoint lstrip (s : string) : string :=
  match s with
  | EmptyString => EmptyString
  | String c r => if isspace c then lstrip r else s
  end.

Fixpoint rstrip (s : string) : string :=
  match s with
  | EmptyString => EmptyString
  | String c r =>
      match rstrip r with
      | EmptyString => if isspace c then EmptyString else String c EmptyString
      | r' => String c r'
      end
  end.

(** [s.strip()] *)
Definition strip (s : string) : string := rstrip (lstrip s).

(** [sep.join(l)] *)
Definition join (sep : string) (l : list string) : string := String.concat sep l.

(** [needle in hay] for two strings: substring test. *)
Fixpoint contains (hay needle : string) : bool :=
  prefix needle hay
  || match hay with
     | EmptyString => false
     | String _ r => contains r needle
     end.

(** [x in (a, b, ...)] for a tuple of strings. *)
Definition member (x : string) (l : list string) : bool :=
  existsb (String.eqb x) l.

(** Truth value of a string: non-empty. *)
Definition truthy (s : string) : bool := negb (s =? "").

(** [brs[i]] as a one-character string. *)
Definition index (brs : string) (i : nat) : string := substring i 1 brs.

End Py.

(** ** The context collaborator *)

Module Ctx.

(** Modelled from the spec: the function record of the [context] object
    (the class is not in the three source files).  [name], [long_name] and
    the parameter list are the fields the spec lists; [serial] stands for the
    identity of the Python object, so that two records with equal names stay
    distinguishable: serial 0 is the global sentinel and the n-th record
    created by [push_new_function] has serial n. *)
Record FunctionInfo := mkFunctionInfo
  { serial : nat;
    name : string;
    long_name : string;
    parameters : list string }.

(** The calls the handlers make on the context, in the order they are made. *)
Inductive Event :=
| EvPushNewFunction (id : nat) (n : string)
| EvSetLongName (s : string)
| EvParameter (s : string)
| EvEndOfFunction (id : nat)
| EvAddToFunctionName (s : string)
| EvAddToLongFunctionName (s : string).

(** Modelled from the spec: the [context] object.  [current_function] and
    [stacked_functions] are the two attributes the handlers read
    ([stacked_functions] with its last Python element at the head of the
    list); [function_list] collects the closed functions and [events] logs
    every call. *)
Record t := mk
  { current_function : FunctionInfo;
    stacked_functions : list FunctionInfo;
    function_list : list FunctionInfo;
    created : nat;
    events : list Event }.

Definition global_pseudo_function : FunctionInfo :=
  mkFunctionInfo 0 "*global*" "*global*" [].

Definition init : t := mk global_pseudo_function [] [] 0 [].

Definition log (e : Event) (c : t) : t :=
  mk (current_function c) (stacked_functions c) (function_list c) (created c)
     (events c ++ [e]).

Definition with_current (f : FunctionInfo) (c : t) : t :=
  mk f (stacked_functions c) (function_list c) (created c) (events c).

(** Modelled from the spec: [openFunction(name)] creates and pushes a
    function record, which becomes the current function; the function that
    was current moves onto [stacked_functions]. *)
Definition push_new_function (n : string) (c : t) : t :=
  let id := S (created c) in
  mk (mkFunctionInfo id n n [])
     (current_function c :: stacked_functions c)
     (function_list c) id
     (events c ++ [EvPushNewFunction id n]).

(** The assignment [context.current_function.long_name = s]
    (the spec's [setQualifiedName]). *)
Definition set_long_name (s : string) (c : t) : t :=
  let f := current_function c in
  log (EvSetLongName s)
      (with_current (mkFunctionInfo (serial f) (name f) s (parameters f)) c).

(** Modelled from the spec: the parameter list after one more token.  The
    tokens of one formal parameter make one entry of the list, as scenario A
    of section 8 counts them (the tokens [a int] are one parameter): the
    first token opens an entry, a [,] opens the next one, and any other
    token is added, after a space, to the entry at the end. *)
Definition add_parameter (tok : string) (l : list string) : list string :=
  match l with
  | [] => [tok]
  | _ :: _ =>
      if tok =? "," then l ++ [""]
      else removelast l ++ [last l "" ++ " " ++ tok]
  end.

(** Modelled from the spec: [addParameter(token)] appends one formal
    parameter token to the current function. *)
Definition parameter (tok : string) (c : t) : t :=
  let f := current_function c in
  log (EvParameter tok)
      (with_current
         (mkFunctionInfo (serial f) (name f) (long_name f)
            (add_parameter tok (parameters f))) c).

(** Modelled from the spec: [closeFunction()] finalizes and pops the current
    function.  With nothing stacked below it the current function stays. *)
Definition end_of_function (c : t) : t :=
  let f := current_function c in
  match stacked_functions c with
  | [] => log (EvEndOfFunction (serial f)) c
  | g :: rest =>
      mk g rest (function_list c ++ [f]) (created c)
         (events c ++ [EvEndOfFunction (serial f)])
  end.

(** Modelled from the spec: [add_to_function_name] (used by golike.py only)
    extends the name, and the long name with it, of the current function. *)
Definition add_to_function_name (tok : string) (c : t) : t :=
  let f := current_function c in
  log (EvAddToFunctionName tok)
      (with_current
         (mkFunctionInfo (serial f) (name f ++ tok) (long_name f ++ tok) (parameters f)) c).

(** Modelled from the spec: [add_to_long_function_name] (used by golike.py
    only) appends to the long name of the current function. *)
Definition add_to_long_function_name (tok : string) (c : t) : t :=
  let f := current_function c in
  log (EvAddToLongFunctionName tok)
      (with_current
         (mkFunctionInfo (serial f) (name f) (long_name f ++ tok) (parameters f)) c).

(** The test of golike.py, lines 66-67:
    [len(stacked_functions) > 0 and stacked_functions[-1].name != '*global*']. *)
Definition enclosing_is_function (c : t) : bool :=
  match stacked_functions c with
  | [] => false
  | f :: _ => negb (name f =? "*global*")
  end.

End Ctx.

(** ** States: the method names of the three Go classes *)

Module State.

Inductive t :=
(* golike.py *)
| _state_global | _type_definition | _after_type_name | _struct_definition
| _interface_definition | _function_name | _expect_function_dec | _generalize
| _member_function | _function_dec | _expect_function_impl | _function_impl
(* go.py *)
| _after_func | _collect_receiver_or_parameters | _after_receiver_or_parameters
| _check_for_parameters | _after_parameters | _read_type_parameters
| _multi_return_type | _read_return_type | _interface_return_type
| _function_type | _array_return_type.

Definition eqb (a b : t) : bool :=
  match a, b with
  | _state_global, _state_global | _type_definition, _type_definition
  | _after_type_name, _after_type_name | _struct_definition, _struct_definition
  | _interface_definition, _interface_definition | _function_name, _function_name
  | _expect_function_dec, _expect_function_dec | _generalize, _generalize
  | _member_function, _member_function | _function_dec, _function_dec
  | _expect_function_impl, _expect_function_impl | _function_impl, _function_impl
  | _after_func, _after_func
  | _collect_receiver_or_parameters, _collect_receiver_or_parameters
  | _after_receiver_or_parameters, _after_receiver_or_parameters
  | _check_for_parameters, _check_for_parameters
  | _after_parameters, _after_parameters
  | _read_type_parameters, _read_type_parameters
  | _multi_return_type, _multi_return_type | _read_return_type, _read_return_type
  | _interface_return_type, _interface_return_type
  | _function_type, _function_type | _array_return_type, _array_return_type => true
  | _, _ => false
  end.

End State.

(** ** The engine *)

Module Engine.

(** The completion callbacks the grammars hand to [sub_state]: none, or the
    local function [callback] of [_function_impl] in golike.py (lines
    120-122) and in go.py (lines 236-238). *)
Inductive Callback :=
| no_callback
| GoLikeStates_callback
| GoStates_callback.

(** Modelled from the spec: what the engine keeps on every instance for the
    nesting of machines (section 4.1): the request to leave that
    [statemachine_return] files, and the state and the completion callback
    that [sub_state] stores for the moment the sub-machine leaves. *)
Record Exit := mkExit
  { to_exit : bool;
    saved_state : State.t;
    callback : Callback }.

(** The attributes of a new instance: no request, the initial state saved,
    no callback. *)
Definition no_exit : Exit := mkExit false State._state_global no_callback.

(** [self.saved_state = s; self.callback = cb] *)
Definition saved (s : State.t) (cb : Callback) (x : Exit) : Exit :=
  mkExit (to_exit x) s cb.

(** One machine instance: the current state and the local buffers.
    [_collected_tokens] and [_possible_function_name] are the two attributes
    [GoStates.__init__] adds (go.py, lines 35-36). *)
Record Machine := mkMachine
  { _state : State.t;
    br_count : Z;
    _collected_tokens : list string;
    _possible_function_name : option string;
    exit : Exit }.

(** Modelled from the spec: the machine stack of section 4.1.  [current] is
    the top of the stack, the only machine that receives tokens;
    [suspended] lists the machines below it, nearest first, each waiting
    for the machine above it to leave.  [last_token] is the attribute
    golike.py reads at line 113: the token delivered before the present
    one. *)
Record Parser := mkParser
  { current : Machine;
    suspended : list Machine;
    last_token : option string;
    context : Ctx.t }.

(** A method of a grammar class that returns nothing. *)
Definition Handler := string -> Parser -> Parser.

(** A method that hands a value back to the engine. *)
Definition Returning := string -> Parser -> Parser * bool.

(** A fresh instance ([statemachine_clone]) starts in the initial state. *)
Definition fresh : Machine := mkMachine State._state_global 0 [] None no_exit.

Definition init : Parser := mkParser fresh [] None Ctx.init.

Definition with_current (m : Machine) (p : Parser) : Parser :=
  mkParser m (suspended p) (last_token p) (context p).

(** [self._state = s] *)
Definition set_state (s : State.t) (p : Parser) : Parser :=
  let m := current p in
  with_current
    (mkMachine s (br_count m) (_collected_tokens m) (_possible_function_name m) (exit m)) p.

Definition set_br_count (n : Z) (p : Parser) : Parser :=
  let m := current p in
  with_current
    (mkMachine (_state m) n (_collected_tokens m) (_possible_function_name m) (exit m)) p.

Definition set_collected_tokens (l : list string) (p : Parser) : Parser :=
  let m := current p in
  with_current (mkMachine (_state m) (br_count m) l (_possible_function_name m) (exit m)) p.

Definition set_possible_function_name (n : option string) (p : Parser) : Parser :=
  let m := current p in
  with_current (mkMachine (_state m) (br_count m) (_collected_tokens m) n (exit m)) p.

Definition set_exit (x : Exit) (p : Parser) : Parser :=
  let m := current p in
  with_current
    (mkMachine (_state m) (br_count m) (_collected_tokens m) (_possible_function_name m) x) p.

Definition set_last_token (tok : option string) (p : Parser) : Parser :=
  mkParser (current p) (suspended p) tok (context p).

(** Lift a call on the context to the parser. *)
Definition on_context (f : Ctx.t -> Ctx.t) (p : Parser) : Parser :=
  mkParser (current p) (suspended p) (last_token p) (f (context p)).

(** Modelled from the spec: [next(state, token)] moves the machine to
    [state] and delivers [token] to it at once; [h] is the handler the name
    [state] resolves to on the instance. *)
Definition next (h : Handler) (s : State.t) : Handler :=
  fun token p => h token (set_state s p).

(** The bodies of the two [callback] closures. *)
Definition run_callback (cb : Callback) (p : Parser) : Parser :=
  match cb with
  | no_callback => p
  | GoLikeStates_callback =>
      on_context Ctx.end_of_function (set_state State._state_global p)
  | GoStates_callback =>
      set_state State._state_global (on_context Ctx.end_of_function p)
  end.

(** What the machine on top stores when it enters a sub-machine: the state
    it is in and the callback. *)
Definition set_saved (s : State.t) (cb : Callback) (p : Parser) : Parser :=
  set_exit (saved s cb (exit (current p))) p.

(** Modelled from the spec: [enterNested(completionCallback)], in the
    source [sub_state(statemachine_clone(), callback)]: the machine stores
    its state and the callback, and a fresh instance is pushed and receives
    all following tokens. *)
Definition sub_state (cb : Callback) (p : Parser) : Parser :=
  let q := set_saved (_state (current p)) cb p in
  mkParser fresh (current q :: suspended q) (last_token q) (context q).

(** Modelled from the spec: what the engine does with the machine on top
    when the sub-machine above it has left, or when the method of its state
    has returned a true value: the machine goes to its saved state and its
    callback, if any, is invoked. *)
Definition resume (p : Parser) : Parser :=
  run_callback (callback (exit (current p)))
    (set_state (saved_state (exit (current p))) p).

(** Modelled from the spec: [leaveNested()], in the source
    [statemachine_return()]: the machine asks to leave.  A sub-machine is
    popped at once and the machine below resumes.  The base machine always
    stays (stack depth at least 1): it keeps the request. *)
Definition statemachine_return (p : Parser) : Parser :=
  match suspended p with
  | [] => set_exit (mkExit true (saved_state (exit (current p)))
                      (callback (exit (current p)))) p
  | m :: rest => resume (mkParser m rest (last_token p) (context p))
  end.

(** The parser with its [k] topmost machines set aside. *)
Fixpoint unwind (k : nat) (q : Parser) : Parser :=
  match k, suspended q with
  | S k', m :: rest => unwind k' (mkParser m rest (last_token q) (context q))
  | _, _ => q
  end.

(** The later parser [q] as the machine that was on top in [p] has it: the
    sub-machines entered since then hang from its [_state] attribute and
    are gone as soon as that attribute is assigned. *)
Definition self (p q : Parser) : Parser :=
  unwind (length (suspended q) - length (suspended p)) q.

(** Modelled from the spec: the value of [next(state, token)], for a
    method that passes it on with [return]: the request to leave of the
    machine, as it stands once the token has been delivered. *)
Definition next_value (h : Handler) (s : State.t) : Returning :=
  fun token p =>
    let q := next h s token p in
    (q, to_exit (exit (current (self p q)))).

(** Modelled from the spec: how the engine takes the value that the method
    of the current state returns.  A true value is a request to leave the
    state: the machine resumes as it does after a sub-machine.  The methods
    written without [return] give no value and stand in the method tables
    as they are; one that returns a value stands there under [called]. *)
Definition called (m : Returning) : Handler :=
  fun token p =>
    let (q, r) := m token p in
    if r then resume (self p q) else q.

(** What a token adds to the depth counter of the bracket pair [brs]. *)
Definition bracket_delta (brs token : string) : Z :=
  if token =? Py.index brs 0 then 1%Z
  else if token =? Py.index brs 1 then (-1)%Z
  else 0%Z.

(** Modelled from the spec: [consumeBalanced], in the source the decorator
    [read_inside_brackets_then(brs, end_state)].  The depth counter goes up
    on the opening and down on the closing bracket; at depth zero the
    machine moves to [end_state]; the decorated body [func] is run on every
    token, the brackets included.  The closing token is not delivered
    again (the decorator takes no such argument). *)
Definition read_inside_brackets_then (brs : string) (end_state : State.t)
    (func : Handler) : Handler :=
  fun token p =>
    let p1 := set_br_count (br_count (current p) + bracket_delta brs token) p in
    let p2 := if (br_count (current p1) =? 0)%Z then set_state end_state p1 else p1 in
    func token p2.

(** Modelled from the spec: [advance(token)] delivers one token to the
    handler of the current state of the top machine; [dispatch] is the
    method table of the grammar class. *)
Definition advance (dispatch : State.t -> Handler) (token : string) (p : Parser) : Parser :=
  set_last_token (Some token) (dispatch (_state (current p)) token p).

(** Feeding a token sequence. *)
Definition run (dispatch : State.t -> Handler) (tokens : list string) (p : Parser) : Parser :=
  fold_left (fun q tok => advance dispatch tok q) tokens p.

Definition depth (p : Parser) : nat := S (length (suspended p)).

End Engine.

(** ** golike.py: [GoLikeStates] *)

Module GoLikeStates.
Import Engine.

Definition FUNC_KEYWORD : string := "func".

(** Lines 116-123. *)
Definition _function_impl : Handler :=
  fun _ p => sub_state GoLikeStates_callback p.

(** Lines 109-114. *)
Definition _expect_function_impl : Handler :=
  fun token p =>
    if (token =? "{")
       && negb (match last_token p with Some t => t =? "interface" | None => false end)
    then next _function_impl State._function_impl token p
    else p.

(** Lines 101-107. *)
Definition _function_dec : Handler :=
  read_inside_brackets_then "()" State._expect_function_impl
    (fun token p =>
       if negb (Py.contains "()" token)
       then on_context (Ctx.parameter token) p
       else p).

(** Lines 94-99. *)
Definition _member_function : Handler :=
  read_inside_brackets_then "()" State._function_name
    (fun tokens p => on_context (Ctx.add_to_long_function_name tokens) p).

(** Lines 87-92. *)
Definition _generalize : Handler :=
  read_inside_brackets_then "<>" State._expect_function_dec (fun _ p => p).

(** Lines 76-85. *)
Definition _expect_function_dec : Handler :=
  fun token p =>
    if token =? "(" then next _function_dec State._function_dec token p
    else if token =? "<" then next _generalize State._generalize token p
    else set_state State._state_global p.

Section Inherited.

(** [self._function_dec] and [self._expect_function_impl] as the class of
    the instance resolves them: a subclass that overrides the two methods
    inherits [_function_name] with its own versions plugged in. *)
Variables self_function_dec self_expect_function_impl : Handler.

(** Lines 60-74.  The three branches that end in [return self.next(...)]
    give the engine the value of [next]; the two others give none. *)
Definition _function_name_of : Returning :=
  fun token p =>
    if negb (token =? "`") then
      if token =? "(" then
        if Ctx.enclosing_is_function (context p)
        then next_value self_function_dec State._function_dec token p
        else next_value _member_function State._member_function token p
      else if token =? "{" then
        next_value self_expect_function_impl State._expect_function_impl token p
      else
        (set_state State._expect_function_dec
           (on_context (Ctx.add_to_function_name token) p), false)
    else (p, false).

End Inherited.

Definition _function_name : Returning :=
  _function_name_of _function_dec _expect_function_impl.

(** Lines 53-58. *)
Definition _interface_definition : Handler :=
  read_inside_brackets_then "{}" State._state_global (fun _ p => p).

(** Lines 46-51. *)
Definition _struct_definition : Handler :=
  read_inside_brackets_then "{}" State._state_global (fun _ p => p).

(** Lines 35-44. *)
Definition _after_type_name : Handler :=
  fun token p =>
    if token =? "struct" then set_state State._struct_definition p
    else if token =? "interface" then set_state State._interface_definition p
    else set_state State._state_global p.

(** Lines 29-33. *)
Definition _type_definition : Handler :=
  fun _ p => set_state State._after_type_name p.

(** Lines 15-27. *)
Definition _state_global : Handler :=
  fun token p =>
    if token =? FUNC_KEYWORD then
      on_context (Ctx.push_new_function "") (set_state State._function_name p)
    else if token =? "type" then set_state State._type_definition p
    else if token =? "{" then sub_state no_callback p
    else if token =? "}" then statemachine_return p
    else p.

(** The method table of the class.  The states that only [GoStates] defines
    have no method here; a [GoLikeStates] machine never enters them. *)
Definition dispatch (s : State.t) : Handler :=
  match s with
  | State._state_global => _state_global
  | State._type_definition => _type_definition
  | State._after_type_name => _after_type_name
  | State._struct_definition => _struct_definition
  | State._interface_definition => _interface_definition
  | State._function_name => called _function_name
  | State._expect_function_dec => _expect_function_dec
  | State._generalize => _generalize
  | State._member_function => _member_function
  | State._function_dec => _function_dec
  | State._expect_function_impl => _expect_function_impl
  | State._function_impl => _function_impl
  | _ => fun _ p => p
  end.

Definition feed : list string -> Parser -> Parser := run dispatch.

End GoLikeStates.

(** ** go.py: [GoStates] *)

Module GoStates.
Import Engine.

Definition FUNC_KEYWORD : string := GoLikeStates.FUNC_KEYWORD.

(** Lines 232-239. *)
Definition _function_impl : Handler :=
  fun _ p => sub_state GoStates_callback p.

(** Lines 199-204. *)
Definition _interface_return_type : Handler :=
  read_inside_brackets_then "{}" State._expect_function_impl (fun _ p => p).

(** Lines 206-211. *)
Definition _function_type : Handler :=
  read_inside_brackets_then "()" State._expect_function_impl (fun _ p => p).

(** Lines 172-177. *)
Definition _multi_return_type : Handler :=
  read_inside_brackets_then "()" State._expect_function_impl (fun _ p => p).

(** Lines 213-218. *)
Definition _array_return_type : Handler :=
  read_inside_brackets_then "[]" State._read_return_type (fun _ p => p).

(** Lines 165-170. *)
Definition _read_type_parameters : Handler :=
  read_inside_brackets_then "<>" State._after_parameters (fun _ p => p).

(** Lines 220-230. *)
Definition _expect_function_impl : Handler :=
  fun token p =>
    if token =? "interface" then set_state State._interface_return_type p
    else if token =? "{" then next _function_impl State._function_impl token p
    else set_state State._expect_function_impl p.

(** Lines 179-197. *)
Definition _read_return_type : Handler :=
  fun token p =>
    if token =? "{" then next _function_impl State._function_impl token p
    else if token =? "(" then
      next _multi_return_type State._multi_return_type token
        (set_state State._multi_return_type p)
    else if token =? "interface" then set_state State._interface_return_type p
    else if token =? "func" then set_state State._function_type p
    else if token =? "[" then
      next _array_return_type State._array_return_type token
        (set_state State._array_return_type p)
    else set_state State._read_return_type p.

(** Lines 144-163. *)
Definition _after_parameters : Handler :=
  fun token p =>
    if token =? "<" then set_state State._read_type_parameters p
    else if token =? "(" then
      next _multi_return_type State._multi_return_type token
        (set_state State._multi_return_type p)
    else if token =? "{" then
      next _function_impl State._function_impl token
        (set_state State._function_impl p)
    else if negb (token =? "") then
      next _read_return_type State._read_return_type token
        (set_state State._read_return_type p)
    else set_state State._expect_function_impl p.

(** Lines 136-142. *)
Definition _function_dec : Handler :=
  read_inside_brackets_then "()" State._after_parameters
    (fun token p =>
       if negb (Py.contains "()" token)
       then on_context (Ctx.parameter token) p
       else p).

(** Lines 125-134. *)
Definition _expect_function_dec : Handler :=
  fun token p =>
    if token =? "(" then next _function_dec State._function_dec token p
    else
      next _after_parameters State._after_parameters token
        (set_state State._after_parameters p).

(** [self._possible_function_name] where the source uses it as a string.
    The attribute is [None] only before line 89 has run, and line 90 is the
    one entry to the state that reads it. *)
Definition possible_function_name (p : Parser) : string :=
  match _possible_function_name (current p) with
  | Some n => n
  | None => "None"
  end.

(** Lines 100-123. *)
Definition _check_for_parameters : Handler :=
  fun token p =>
    if token =? "(" then
      let p1 := on_context (Ctx.push_new_function (possible_function_name p)) p in
      let receiver := Py.strip (Py.join " " (_collected_tokens (current p1))) in
      let long_name :=
        if negb (receiver =? "")
        then "(" ++ receiver ++ ")" ++ possible_function_name p1
        else possible_function_name p1 in
      let p2 := on_context (Ctx.set_long_name long_name) p1 in
      next _function_dec State._function_dec token
        (set_state State._function_dec p2)
    else
      let p1 := on_context (Ctx.push_new_function "(anonymous)") p in
      let p2 := on_context (Ctx.set_long_name "(anonymous)") p1 in
      let params := Py.strip (Py.join "" (_collected_tokens (current p2))) in
      let p3 := if Py.truthy params then on_context (Ctx.parameter params) p2 else p2 in
      let p4 := set_collected_tokens [] p3 in
      next _after_parameters State._after_parameters token
        (set_state State._after_parameters p4).

(** Lines 83-98. *)
Definition _after_receiver_or_parameters : Handler :=
  fun token p =>
    if negb (token =? "`") then
      if negb (Py.member token ["{"; "("; ")"; FUNC_KEYWORD]) then
        set_state State._check_for_parameters
          (set_possible_function_name (Some token) p)
      else
        let p1 := on_context (Ctx.push_new_function "(anonymous)") p in
        let params := Py.strip (Py.join " " (_collected_tokens (current p1))) in
        let p2 := if Py.truthy params then on_context (Ctx.parameter params) p1 else p1 in
        next _after_parameters State._after_parameters token
          (set_state State._after_parameters p2)
    else p.

(** Lines 73-81. *)
Definition _collect_receiver_or_parameters : Handler :=
  fun token p =>
    if token =? ")" then set_state State._after_receiver_or_parameters p
    else set_collected_tokens (_collected_tokens (current p) ++ [token]) p.

(** Lines 53-71. *)
Definition _after_func : Handler :=
  fun token p =>
    if token =? "(" then
      set_state State._collect_receiver_or_parameters (set_collected_tokens [] p)
    else if negb (Py.member token ["{"; "("; ""]) then
      let p1 := on_context (Ctx.push_new_function token) p in
      let p2 := on_context (Ctx.set_long_name token) p1 in
      set_state State._expect_function_dec p2
    else
      let p1 := on_context (Ctx.push_new_function "(anonymous)") p in
      let p2 := on_context (Ctx.set_long_name "(anonymous)") p1 in
      next _after_parameters State._after_parameters token
        (set_state State._after_parameters p2).

(** Lines 38-51. *)
Definition _state_global : Handler :=
  fun token p =>
    if token =? FUNC_KEYWORD then set_state State._after_func p
    else if token =? "type" then set_state State._type_definition p
    else if token =? "{" then sub_state no_callback p
    else if token =? "}" then statemachine_return p
    else GoLikeStates._state_global token p.

(** The method table of the class: the methods of go.py, and for the
    remaining names the ones inherited from [GoLikeStates]. *)
Definition dispatch (s : State.t) : Handler :=
  match s with
  | State._state_global => _state_global
  | State._type_definition => GoLikeStates._type_definition
  | State._after_type_name => GoLikeStates._after_type_name
  | State._struct_definition => GoLikeStates._struct_definition
  | State._interface_definition => GoLikeStates._interface_definition
  | State._function_name =>
      called (GoLikeStates._function_name_of _function_dec _expect_function_impl)
  | State._expect_function_dec => _expect_function_dec
  | State._generalize => GoLikeStates._generalize
  | State._member_function => GoLikeStates._member_function
  | State._function_dec => _function_dec
  | State._expect_function_impl => _expect_function_impl
  | State._function_impl => _function_impl
  | State._after_func => _after_func
  | State._collect_receiver_or_parameters => _collect_receiver_or_parameters
  | State._after_receiver_or_parameters => _after_receiver_or_parameters
  | State._check_for_parameters => _check_for_parameters
  | State._after_parameters => _after_parameters
  | State._read_type_parameters => _read_type_parameters
  | State._multi_return_type => _multi_return_type
  | State._read_return_type => _read_return_type
  | State._interface_return_type => _interface_return_type
  | State._function_type => _function_type
  | State._array_return_type => _array_return_type
  end.

(** Feeding tokens to a [GoStates] machine. *)
Definition feed : list string -> Parser -> Parser := run dispatch.

End GoStates.

(** ** java.py: [JavaStates] *)

Module JavaState.

(** The states java.py defines or overrides, and [inherited] for every
    other state of the base class [CLikeStates]. *)
Inductive t (BaseState : Type) :=
| _state_global
| _state_decorator
| _state_post_decorator
| _state_old_c_params
| inherited (s : BaseState).

Arguments _state_global {BaseState}.
Arguments _state_decorator {BaseState}.
Arguments _state_post_decorator {BaseState}.
Arguments _state_old_c_params {BaseState}.
Arguments inherited {BaseState} s.

End JavaState.

Module JavaStates.

Section OverCLikeStates.

(** [CLikeStates] (clike.py) is not among the source files: its states, the
    data it keeps (buffers, nested machines, the context) and the three of
    its methods java.py refers to are taken as given. *)
Variable BaseState : Type.
Variable Base : Type.

Record Machine := mkMachine
  { _state : JavaState.t BaseState;
    last_token : option string;
    base : Base }.

Definition Handler := string -> Machine -> Machine.

Variable CLikeStates_state_global : Handler.
Variable CLikeStates_state_dec_to_imp : Handler.
Variable CLikeStates_dispatch : BaseState -> Handler.

Definition set_state (s : JavaState.t BaseState) (m : Machine) : Machine :=
  mkMachine s (last_token m) (base m).

Definition set_last_token (tok : option string) (m : Machine) : Machine :=
  mkMachine (_state m) tok (base m).

(** Lines 20-22. *)
Definition _state_old_c_params : Handler :=
  fun token m =>
    if token =? "{" then CLikeStates_state_dec_to_imp token m else m.

(** Lines 24-28. *)
Definition _state_global : Handler :=
  fun token m =>
    if token =? "@" then set_state JavaState._state_decorator m
    else CLikeStates_state_global token m.

(** Lines 30-31. *)
Definition _state_decorator : Handler :=
  fun _ m => set_state JavaState._state_post_decorator m.

(** Lines 33-38: the last line calls the handler of the global state
    directly, on the token at hand. *)
Definition _state_post_decorator : Handler :=
  fun token m =>
    if token =? "." then set_state JavaState._state_decorator m
    else _state_global token (set_state JavaState._state_global m).

Definition dispatch (s : JavaState.t BaseState) : Handler :=
  match s with
  | JavaState._state_global => _state_global
  | JavaState._state_decorator => _state_decorator
  | JavaState._state_post_decorator => _state_post_decorator
  | JavaState._state_old_c_params => _state_old_c_params
  | JavaState.inherited s' => CLikeStates_dispatch s'
  end.

(** The engine's delivery of one token, as in [Engine.advance]. *)
Definition advance (token : string) (m : Machine) : Machine :=
  set_last_token (Some token) (dispatch (_state m) token m).

Definition feed (tokens : list string) (m : Machine) : Machine :=
  fold_left (fun q tok => advance tok q) tokens m.

End OverCLikeStates.

Arguments mkMachine {BaseState Base} _ _ _.
Arguments _state {BaseState Base} _.
Arguments last_token {BaseState Base} _.
Arguments base {BaseState Base} _.
Arguments set_state {BaseState Base} _ _.
Arguments set_last_token {BaseState Base} _ _.
Arguments _state_old_c_params {BaseState Base} _ _ _.
Arguments _state_global {BaseState Base} _ _ _.
Arguments _state_decorator {BaseState Base} _ _.
Arguments _state_post_decorator {BaseState Base} _ _ _.
Arguments dispatch {BaseState Base} _ _ _ _.
Arguments advance {BaseState Base} _ _ _ _ _.
Arguments feed {BaseState Base} _ _ _ _ _.

(** A stand-in for the base grammar: it keeps the list of the tokens its
    global state has been handed. *)
Definition logging_global : Handler unit (list string) :=
  fun token m => mkMachine (_state m) (last_token m) (base m ++ [token])%list.

(** The tokens of an annotation name: identifier parts separated by dots. *)
Fixpoint dotted (first : string) (more : list string) : list string :=
  match more with
  | [] => [first]
  | x :: r => first :: "." :: dotted x r
  end.

End JavaStates.

(** ** Vocabulary of the properties *)

Module Trace.
Import Ctx.

Definition Event_eq_dec (a b : Event) : {a = b} + {a <> b}.
Proof.
  decide equality; (apply string_dec || apply Nat.eq_dec).
Defined.

(** Strict LIFO order of the open and close events of a trace:
    - a record is created once, and never with the sentinel's serial;
    - every close event closes a function opened earlier in the trace, and
      no function is closed twice;
    - when [i] is opened, then [j], and later [i] is closed, [j] has been
      closed in between. *)
Definition strict_lifo (tr : list Event) : Prop :=
  (forall l1 k n l2, tr = (l1 ++ EvPushNewFunction k n :: l2)%list ->
     k <> 0 /\ forall n', ~ In (EvPushNewFunction k n') l1)
  /\ (forall l1 k l2, tr = (l1 ++ EvEndOfFunction k :: l2)%list ->
        (exists n, In (EvPushNewFunction k n) l1) /\ ~ In (EvEndOfFunction k) l1)
  /\ (forall l1 i ni l2 j nj l3 l4,
        tr = (l1 ++ EvPushNewFunction i ni :: l2 ++ EvPushNewFunction j nj :: l3
                ++ EvEndOfFunction i :: l4)%list ->
        In (EvEndOfFunction j) l3).

(** Replaying a trace on a stack of serials: [n] records have been created
    and [open] lists the ones not closed yet, the latest first.  The replay
    fails when a close event does not close the latest open function. *)
Fixpoint replay (n : nat) (open : list nat) (tr : list Event) : option (nat * list nat) :=
  match tr with
  | [] => Some (n, open)
  | EvPushNewFunction k _ :: r =>
      if (k =? S n)%nat then replay (S n) (k :: open) r else None
  | EvEndOfFunction k :: r =>
      match open with
      | k' :: open' => if (k =? k')%nat then replay n open' r else None
      | [] => None
      end
  | _ :: r => replay n open r
  end.

(** Open serials strictly decreasing from the top and bounded by [n]. *)
Fixpoint stack_wf (n : nat) (open : list nat) : Prop :=
  match open with
  | [] => True
  | k :: r => 0 < k /\ k <= n /\ stack_wf (pred k) r
  end.

(** The context agrees with the replay of its own log: the functions on
    its stack, the sentinel at the bottom apart, are the open ones. *)
Definition consistent (c : Ctx.t) : Prop :=
  exists ids,
    map serial (current_function c :: stacked_functions c) = (ids ++ [0])%list
    /\ replay 0 [] (events c) = Some (created c, ids).

End Trace.

Module GoInvariant.
Import Engine.

(** States in which the machine has opened a function whose body has not
    been entered yet. *)
Definition pending (s : State.t) : bool :=
  match s with
  | State._expect_function_dec | State._function_dec | State._after_parameters
  | State._read_type_parameters | State._multi_return_type
  | State._read_return_type | State._interface_return_type
  | State._function_type | State._array_return_type
  | State._expect_function_impl | State._function_impl => true
  | _ => false
  end.

(** The states a [GoStates] machine enters: all but the three that only the
    base class's own [_state_global] leads to. *)
Definition go_state (s : State.t) : bool :=
  match s with
  | State._function_name | State._generalize | State._member_function => false
  | _ => true
  end.

(** A suspended machine that closes a function when the machine above
    it leaves. *)
Definition awaiting (m : Machine) : bool :=
  match callback (exit m) with
  | no_callback => false
  | _ => true
  end.

Definition frame_ok (m : Machine) : Prop :=
  callback (exit m) = GoStates_callback
  \/ (callback (exit m) = no_callback
      /\ saved_state (exit m) = State._state_global).

(** The context holds [n] open functions above the sentinel. *)
Definition balanced (n : nat) (c : Ctx.t) : Prop :=
  Trace.consistent c /\ length (Ctx.stacked_functions c) = n.

(** The suspended machines are in order and the context holds one open
    function for each of them that awaits a callback, and [k] more. *)
Definition Holding (k : nat) (p : Parser) : Prop :=
  Forall frame_ok (suspended p)
  /\ balanced (k + length (filter awaiting (suspended p))) (context p).

(** The invariant of a [GoStates] parser. *)
Definition Inv (p : Parser) : Prop :=
  go_state (_state (current p)) = true
  /\ Holding (if pending (_state (current p)) then 1 else 0) p.

(** The machine on top has a function open and the body still to come. *)
Definition Open1 (p : Parser) : Prop :=
  pending (_state (current p)) = true /\ Holding 1 p.

End GoInvariant.

(** Further vocabulary: bracketed regions, the token sequences of the
    scenarios, and the observations made on a run. *)
Module Region.
Import Engine.

(** [ts] lies strictly inside a bracket pair [brs] entered at depth [d]:
    the depth counter never returns to zero on the way and is back at 1
    after the last token, so that the next closing bracket is the matching
    one. *)
Fixpoint enclosed (brs : string) (d : Z) (ts : list string) : bool :=
  match ts with
  | [] => (d =? 1)%Z
  | t :: r =>
      let d' := (d + bracket_delta brs t)%Z in
      (1 <=? d')%Z && enclosed brs d' r
  end.

(** The position in [ts] of the closing parenthesis that matches an
    opening one read just before [ts], found with a depth counter that
    starts at [d]: the reading of the region that counts nested
    parentheses. *)
Fixpoint matching_close (d : Z) (ts : list string) : option nat :=
  match ts with
  | [] => None
  | t :: r =>
      let d' := (d + bracket_delta "()" t)%Z in
      if (d' =? 0)%Z then Some 0 else option_map S (matching_close d' r)
  end.

(** The position of the first closing parenthesis of [ts]. *)
Fixpoint first_close (ts : list string) : option nat :=
  match ts with
  | [] => None
  | t :: r => if t =? ")" then Some 0 else option_map S (first_close r)
  end.

(** The position in [ts] of the token on which a [GoStates] parser that is
    in state [s] leaves that state. *)
Fixpoint leaves_at (s : State.t) (ts : list string) (p : Parser) : option nat :=
  match ts with
  | [] => None
  | t :: r =>
      let q := advance GoStates.dispatch t p in
      if State.eqb (_state (current q)) s
      then option_map S (leaves_at s r q)
      else Some 0
  end.

Definition nospace (s : string) : bool :=
  forallb (fun c => negb (Py.isspace c)) (list_ascii_of_string s).

(** The characters of a string that are not whitespace, in order. *)
Definition solid (s : string) : list ascii :=
  filter (fun c => negb (Py.isspace c)) (list_ascii_of_string s).

(** A token as the lexer delivers it: not empty and free of whitespace. *)
Definition clean (t : string) : bool := negb (t =? "") && nospace t.

(** The parameter event sent for a joined buffer, if any. *)
Definition parameter_events (params : string) : list Ctx.Event :=
  if Py.truthy params then [Ctx.EvParameter params] else [].

(** Lines 95-96 and 119-120 of go.py: the joined buffer is recorded as one
    parameter unless it is empty. *)
Definition record_parameters (params : string) (c : Ctx.t) : Ctx.t :=
  if Py.truthy params then Ctx.parameter params c else c.

(** The body of [_function_dec] as a function on the context (golike.py,
    lines 106-107; go.py, lines 141-142). *)
Definition record_parameter (t : string) (c : Ctx.t) : Ctx.t :=
  if negb (Py.contains "()" t) then Ctx.parameter t c else c.

(** States between the end of the parameter list and the body. *)
Definition after_signature (s : State.t) : bool :=
  match s with
  | State._after_parameters | State._read_type_parameters
  | State._multi_return_type | State._read_return_type
  | State._interface_return_type | State._function_type
  | State._array_return_type | State._expect_function_impl => true
  | _ => false
  end.

End Region.

Module Scenario.

Definition A : list string := ["func"; "Foo"; "("; "a"; "int"; ")"; "{"; "}"].
Definition B : list string :=
  ["func"; "("; "r"; "*T"; ")"; "Bar"; "("; ")"; "{"; "}"].
Definition C : list string := ["type"; "Foo"; "struct"; "{"; "X"; "int"; "}"].
Definition D : list string :=
  ["func"; "("; "x"; "int"; ")"; "{"; "func"; "("; "y"; "int"; ")"; "{"; "}"; "}"].

End Scenario.

(** ** Shapes of declarations *)

Module Shape.
Import Engine.

(** The parser with its top machine written out. *)
Definition parser (s : State.t) (br : Z) (ct : list string) (pn : option string)
    (x : Exit) (susp : list Machine) (lt : option string) (c : Ctx.t) : Parser :=
  mkParser (mkMachine s br ct pn x) susp lt c.

(** The last token noted by the engine after [ts] has been delivered. *)
Definition last_delivered (ts : list string) (lt : option string) : option string :=
  fold_left (fun _ t => Some t) ts lt.

(** A token that neither grammar takes for the start of a declaration. *)
Definition neutral (t : string) : bool :=
  negb (t =? "func") && negb (t =? "type").

(** A token that [_read_return_type] of go.py passes over (its last
    branch), and that [_after_parameters] hands to it. *)
Definition plain (t : string) : bool :=
  negb (Py.member t ["{"; "("; "interface"; "func"; "["; "<"; ""]).

(** A token that [_expect_function_impl] of go.py passes over. *)
Definition skipped (t : string) : bool :=
  negb (t =? "{") && negb (t =? "interface").

(** The return types go.py reads between the parameter list and the body:
    plain tokens, array markers [[ ... ]] in front of a further return
    type, and one of the three bracketed forms followed by tokens that the
    wait for the body skips. *)
Inductive return_type : list string -> Prop :=
| rt_nil : return_type []
| rt_plain t ts :
    plain t = true -> return_type ts -> return_type (t :: ts)
| rt_array inner ts :
    Region.enclosed "[]" 1 inner = true -> return_type ts ->
    return_type ("[" :: inner ++ "]" :: ts)
| rt_multi inner rest :
    Region.enclosed "()" 1 inner = true -> forallb skipped rest = true ->
    return_type ("(" :: inner ++ ")" :: rest)
| rt_interface inner rest :
    Region.enclosed "{}" 1 inner = true -> forallb skipped rest = true ->
    return_type ("interface" :: "{" :: inner ++ "}" :: rest)
| rt_function inner rest :
    Region.enclosed "()" 1 inner = true -> forallb skipped rest = true ->
    return_type ("func" :: "(" :: inner ++ ")" :: rest).

(** The states whose handler is wrapped by [read_inside_brackets_then]. *)
Definition bracket_state (s : State.t) : bool :=
  match s with
  | State._struct_definition | State._interface_definition
  | State._generalize | State._member_function | State._function_dec
  | State._read_type_parameters | State._multi_return_type
  | State._interface_return_type | State._function_type
  | State._array_return_type => true
  | _ => false
  end.

(** The record at the bottom of the function stack. *)
Definition bottom (c : Ctx.t) : Ctx.FunctionInfo :=
  last (Ctx.stacked_functions c) (Ctx.current_function c).

(** The tokens of a run of annotations, each a dotted name after an [@]. *)
Fixpoint annotations (names : list (string * list string)) : list string :=
  match names with
  | [] => []
  | (first, more) :: r => "@" :: JavaStates.dotted first more ++ annotations r
  end.

(** The last token of a run of annotations. *)
Fixpoint last_annotation_token (names : list (string * list string))
    (lt : option string) : option string :=
  match names with
  | [] => lt
  | (first, more) :: r => last_annotation_token r (Some (last more first))
  end.

(** The first token of what follows the signature, the opening brace of
    the body when no return type is written. *)
Definition leading (ret : list string) : string := hd "{" ret.

(** Type parameters between the name and the parameter list: any number
    of balanced [< ... >] groups. *)
Inductive type_parameters : list string -> Prop :=
| tp_nil : type_parameters []
| tp_group inner rest :
    Region.enclosed "<>" 1 inner = true -> type_parameters rest ->
    type_parameters ("<" :: inner ++ ">" :: rest).

End Shape.

(** ** Invariants of the reachable parsers *)

Module Reach.
Import Engine Shape GoInvariant.

(** Every record created is closed or still on the stack, and the record
    at the bottom of the stack is the untouched sentinel. *)
Definition Sound (c : Ctx.t) : Prop :=
  bottom c = Ctx.global_pseudo_function
  /\ Ctx.created c
     = length (Ctx.function_list c) + length (Ctx.stacked_functions c).

(** Outside the bracket readers the depth counter is zero, on every machine
    of the stack. *)
Definition Zero (p : Parser) : Prop :=
  (bracket_state (_state (current p)) = false -> br_count (current p) = 0%Z)
  /\ Forall (fun m => br_count m = 0%Z) (suspended p).

(** States of the base grammar in which the machine has opened a function
    and not yet entered its body. *)
Definition pending_golike (s : State.t) : bool :=
  match s with
  | State._function_name | State._expect_function_dec | State._generalize
  | State._member_function | State._function_dec
  | State._expect_function_impl | State._function_impl => true
  | _ => false
  end.

Definition frame_ok_golike (m : Machine) : Prop :=
  callback (exit m) = GoLikeStates_callback
  \/ (callback (exit m) = no_callback
      /\ saved_state (exit m) = State._state_global).

(** The context agrees with its log and holds at least [k] open functions. *)
Definition Bal (k : nat) (c : Ctx.t) : Prop :=
  Trace.consistent c /\ k <= length (Ctx.stacked_functions c).

(** The invariant of a [GoLikeStates] parser: a function given up stays
    open, so the context may hold more functions than the stack awaits.
    The machine on top is listed with the suspended ones: what it last
    stored is what the engine falls back on when [_function_name] returns
    a true value. *)
Definition InvL (p : Parser) : Prop :=
  Forall frame_ok_golike (current p :: suspended p)
  /\ Bal ((if pending_golike (_state (current p)) then 1 else 0)
          + length (filter awaiting (suspended p)))
       (context p).

(** The machine on top holds a function whose body has not been entered,
    whatever its state. *)
Definition Open (p : Parser) : Prop :=
  Forall frame_ok_golike (current p :: suspended p)
  /\ Bal (1 + length (filter awaiting (suspended p))) (context p).

End Reach.

(** ** Nested declarations *)

Module Nesting.
Import Engine Region Shape.

(** What a body is made of: tokens that start nothing, blocks, and the
    three kinds of function declarations with bodies of their own, each
    followed by the rest of the body. *)
Inductive body :=
| Done
| Tok (t : string) (rest : body)
| Block (inner rest : body)
| Func (name : string) (params ret : list string) (inner rest : body)
| Method (recv : list string) (name : string) (params ret : list string)
    (inner rest : body)
| Lit (params ret : list string) (inner rest : body).

Definition named_header (name : string) (params ret : list string) : list string :=
  "func" :: name :: "(" :: params ++ [")"] ++ ret ++ ["{"].

Definition method_header (recv : list string) (name : string)
    (params ret : list string) : list string :=
  "func" :: "(" :: recv ++ [")"; name; "("] ++ params ++ [")"] ++ ret ++ ["{"].

Definition literal_header (params ret : list string) : list string :=
  "func" :: "(" :: params ++ [")"] ++ ret ++ ["{"].

Fixpoint tokens (b : body) : list string :=
  match b with
  | Done => []
  | Tok t rest => t :: tokens rest
  | Block inner rest => "{" :: tokens inner ++ "}" :: tokens rest
  | Func name params ret inner rest =>
      named_header name params ret ++ tokens inner ++ "}" :: tokens rest
  | Method recv name params ret inner rest =>
      method_header recv name params ret ++ tokens inner ++ "}" :: tokens rest
  | Lit params ret inner rest =>
      literal_header params ret ++ tokens inner ++ "}" :: tokens rest
  end.






End Nesting.


(** * Properties *)

(** ** Traces that replay on a stack are in strict LIFO order *)

Module TraceFacts.
Import Ctx Trace.

Lemma replay_app n o a b :
  replay n o (a ++ b)%list =
  match replay n o a with
  | Some (n', o') => replay n' o' b
  | None => None
  end.
Proof.
  revert n o.
  induction a as [|e a IH]; intros n o; simpl; [reflexivity|].
  destruct e; auto.
  - destruct (id =? S n)%nat; auto.
  - destruct o as [|k' o']; auto.
    destruct (id =? k')%nat; auto.
Qed.

Lemma stack_wf_weaken n m o : n <= m -> stack_wf n o -> stack_wf m o.
Proof.
  destruct o as [|k r]; simpl; [tauto|].
  intros Hle (H0 & Hk & Hr). repeat split; auto; lia.
Qed.

Lemma stack_wf_bound n o k : stack_wf n o -> In k o -> 0 < k <= n.
Proof.
  revert n. induction o as [|a r IH]; intros n; simpl; [tauto|].
  intros (H0 & Ha & Hr) [->|Hin]; [lia|].
  specialize (IH _ Hr Hin). lia.
Qed.

Lemma replay_wf tr : forall n o n' o',
  stack_wf n o -> replay n o tr = Some (n', o') -> stack_wf n' o' /\ n <= n'.
Proof.
  induction tr as [|e tr IH]; intros n o n' o' Hwf Hr; simpl in Hr.
  - injection Hr as <- <-. auto.
  - destruct e; try (eapply IH; eassumption).
    + destruct (Nat.eqb_spec id (S n)) as [->|]; [|discriminate].
      apply IH in Hr.
      * split; [tauto|lia].
      * simpl. repeat split; try lia. exact Hwf.
    + destruct o as [|k' r]; [discriminate|].
      destruct (Nat.eqb_spec id k') as [->|]; [|discriminate].
      simpl in Hwf. destruct Hwf as (H0 & Hk & Hrest).
      eapply IH; [|eassumption].
      eapply stack_wf_weaken; [|eassumption]. lia.
Qed.

(** A function stays open until its close event. *)
Lemma replay_keeps tr : forall n o n' o' j,
  replay n o tr = Some (n', o') -> In j o -> ~ In (EvEndOfFunction j) tr -> In j o'.
Proof.
  induction tr as [|e tr IH]; intros n o n' o' j Hr Hin Hno; simpl in Hr.
  - injection Hr as <- <-. exact Hin.
  - assert (Hno' : ~ In (EvEndOfFunction j) tr) by (intro; apply Hno; right; assumption).
    destruct e; try (eapply IH; eassumption).
    + destruct (id =? S n)%nat; [|discriminate].
      eapply IH; [eassumption| right; exact Hin | exact Hno'].
    + destruct o as [|k' r]; [discriminate|].
      destruct (Nat.eqb_spec id k') as [->|]; [|discriminate].
      eapply IH; [eassumption| | exact Hno'].
      destruct Hin as [->|Hin]; [|exact Hin].
      exfalso. apply Hno. left. reflexivity.
Qed.

(** A close event closes a function that was open or is created later. *)
Lemma replay_closes tr : forall n o n' o' k,
  replay n o tr = Some (n', o') -> In (EvEndOfFunction k) tr -> In k o \/ n < k.
Proof.
  induction tr as [|e tr IH]; intros n o n' o' k Hr Hin; simpl in Hr, Hin; [tauto|].
  destruct e; try (destruct Hin as [Heq|Hin]; [discriminate|]; eapply IH; eassumption).
  - destruct Hin as [Heq|Hin]; [discriminate|].
    destruct (Nat.eqb_spec id (S n)) as [->|]; [|discriminate].
    destruct (IH _ _ _ _ _ Hr Hin) as [[<-|H]|H]; auto; right; lia.
  - destruct o as [|k' r]; [discriminate|].
    destruct (Nat.eqb_spec id k') as [->|]; [|discriminate].
    destruct Hin as [Heq|Hin].
    + injection Heq as ->. left. left. reflexivity.
    + destruct (IH _ _ _ _ _ Hr Hin) as [H|H]; auto. left. right. exact H.
Qed.

(** Whatever is open at the end was open at the start or has been created. *)
Lemma replay_opened tr : forall n o n' o' k,
  replay n o tr = Some (n', o') -> In k o' ->
  In k o \/ exists nm, In (EvPushNewFunction k nm) tr.
Proof.
  induction tr as [|e tr IH]; intros n o n' o' k Hr Hin; simpl in Hr.
  - injection Hr as <- <-. auto.
  - destruct e;
      try (destruct (IH _ _ _ _ _ Hr Hin) as [H|[nm H]];
           [left; exact H | right; exists nm; right; exact H]).
    + destruct (Nat.eqb_spec id (S n)) as [->|]; [|discriminate].
      destruct (IH _ _ _ _ _ Hr Hin) as [[<-|H]|[nm H]].
      * right. exists n0. left. reflexivity.
      * left. exact H.
      * right. exists nm. right. exact H.
    + destruct o as [|k' r]; [discriminate|].
      destruct (Nat.eqb_spec id k') as [->|]; [|discriminate].
      destruct (IH _ _ _ _ _ Hr Hin) as [H|[nm H]].
      * left. right. exact H.
      * right. exists nm. right. exact H.
Qed.

Lemma replay_mono tr : forall n o n' o',
  replay n o tr = Some (n', o') -> n <= n'.
Proof.
  induction tr as [|e tr IH]; intros n o n' o' Hr; simpl in Hr.
  - injection Hr as <- <-. lia.
  - destruct e; try (eapply IH; eassumption).
    + destruct (id =? S n)%nat; [|discriminate]. apply IH in Hr. lia.
    + destruct o as [|k' r]; [discriminate|].
      destruct (id =? k')%nat; [|discriminate]. eapply IH; eassumption.
Qed.

(** Serials are handed out in increasing order. *)
Lemma replay_pushes tr : forall n o n' o' k nm,
  replay n o tr = Some (n', o') -> In (EvPushNewFunction k nm) tr -> n < k <= n'.
Proof.
  induction tr as [|e tr IH]; intros n o n' o' k nm Hr Hin; simpl in Hr, Hin; [tauto|].
  destruct e; try (destruct Hin as [Heq|Hin]; [discriminate|]; eapply IH; eassumption).
  - destruct (Nat.eqb_spec id (S n)) as [->|]; [|discriminate].
    destruct Hin as [Heq|Hin].
    + injection Heq as <- <-. apply replay_mono in Hr. lia.
    + specialize (IH _ _ _ _ _ _ Hr Hin). lia.
  - destruct Hin as [Heq|Hin]; [discriminate|].
    destruct o as [|k' r]; [discriminate|].
    destruct (id =? k')%nat; [|discriminate]. eapply IH; eassumption.
Qed.

Lemma replay_strict_lifo tr n o :
  replay 0 [] tr = Some (n, o) -> strict_lifo tr.
Proof.
  intros Hr. repeat split.
  - (* a fresh serial is not the sentinel's *)
    subst. rewrite replay_app in Hr.
    destruct (replay 0 [] l1) as [[n1 o1]|] eqn:H1; [|discriminate].
    simpl in Hr. destruct (Nat.eqb_spec k (S n1)); [lia|discriminate].
  - (* ... and has not been handed out before *)
    intros n' Hin. subst. rewrite replay_app in Hr.
    destruct (replay 0 [] l1) as [[n1 o1]|] eqn:H1; [|discriminate].
    simpl in Hr. destruct (Nat.eqb_spec k (S n1)); [|discriminate].
    pose proof (replay_pushes _ _ _ _ _ _ _ H1 Hin). lia.
  - (* a close event closes an opened function *)
    subst. rewrite replay_app in Hr.
    destruct (replay 0 [] l1) as [[n1 o1]|] eqn:H1; [|discriminate].
    simpl in Hr. destruct o1 as [|k' r]; [discriminate|].
    destruct (Nat.eqb_spec k k') as [->|]; [|discriminate].
    destruct (replay_opened _ _ _ _ _ k' H1 (in_eq _ _)) as [[]|H]. exact H.
  - (* ... once *)
    intros Hin. subst.
    apply in_split in Hin. destruct Hin as (a & b & ->).
    rewrite <- app_assoc in Hr. simpl in Hr. rewrite replay_app in Hr.
    destruct (replay 0 [] a) as [[n1 o1]|] eqn:H1; [|discriminate].
    simpl in Hr. destruct o1 as [|k' r]; [discriminate|].
    destruct (Nat.eqb_spec k k') as [->|]; [|discriminate].
    destruct (replay_wf _ 0 [] _ _ I H1) as [Hwf _].
    simpl in Hwf. destruct Hwf as (H0 & Hk & Hrest).
    rewrite replay_app in Hr.
    destruct (replay n1 r b) as [[n2 o2]|] eqn:H2; [|discriminate].
    simpl in Hr. destruct o2 as [|k2 r2]; [discriminate|].
    destruct (Nat.eqb_spec k' k2) as [<-|]; [|discriminate].
    destruct (replay_opened _ _ _ _ _ k' H2 (in_eq _ _)) as [Hin|[nm Hin]].
    + pose proof (stack_wf_bound _ _ _ Hrest Hin). lia.
    + pose proof (replay_pushes _ _ _ _ _ _ _ H2 Hin). lia.
  - (* nesting *)
    intros l1 i ni l2 j nj l3 l4 ->.
    destruct (in_dec Event_eq_dec (EvEndOfFunction j) l3) as [Hin|Hno]; [exact Hin|].
    exfalso.
    rewrite replay_app in Hr.
    destruct (replay 0 [] l1) as [[n1 o1]|] eqn:H1; [|discriminate].
    destruct (replay_wf _ 0 [] _ _ I H1) as [Hwf1 _].
    cbn [replay] in Hr. destruct (Nat.eqb_spec i (S n1)) as [->|]; [|discriminate].
    rewrite replay_app in Hr.
    destruct (replay (S n1) (S n1 :: o1) l2) as [[n2 o2]|] eqn:H2; [|discriminate].
    assert (Hwf1' : stack_wf (S n1) (S n1 :: o1)) by (simpl; repeat split; try lia; exact Hwf1).
    destruct (replay_wf _ _ _ _ _ Hwf1' H2) as [Hwf2 Hle2].
    cbn [replay] in Hr. destruct (Nat.eqb_spec j (S n2)) as [->|]; [|discriminate].
    rewrite replay_app in Hr.
    destruct (replay (S n2) (S n2 :: o2) l3) as [[n3 o3]|] eqn:H3; [|discriminate].
    assert (Hwf2' : stack_wf (S n2) (S n2 :: o2)) by (simpl; repeat split; try lia; exact Hwf2).
    destruct (replay_wf _ _ _ _ _ Hwf2' H3) as [Hwf3 Hle3].
    cbn [replay] in Hr. destruct o3 as [|k3 r3]; [discriminate|].
    destruct (Nat.eqb_spec (S n1) k3) as [<-|]; [|discriminate].
    pose proof (replay_keeps _ _ _ _ _ (S n2) H3 (in_eq _ _) Hno) as Hj.
    destruct Hj as [Hj|Hj]; [lia|].
    simpl in Hwf3. destruct Hwf3 as (_ & _ & Hrest).
    pose proof (stack_wf_bound _ _ _ Hrest Hj). simpl in *. lia.
Qed.

End TraceFacts.

(** ** The invariant of the Go parser *)

Module GoInvariantFacts.
Import Engine GoInvariant TraceFacts.

Lemma balanced_parameter n t c : balanced n c -> balanced n (Ctx.parameter t c).
Proof.
  intros [(ids & Hs & Hr) Hl]. split; [|exact Hl].
  exists ids. split; [exact Hs|].
  simpl. rewrite replay_app, Hr. reflexivity.
Qed.

Lemma balanced_set_long_name n s c : balanced n c -> balanced n (Ctx.set_long_name s c).
Proof.
  intros [(ids & Hs & Hr) Hl]. split; [|exact Hl].
  exists ids. split; [exact Hs|].
  simpl. rewrite replay_app, Hr. reflexivity.
Qed.

Lemma balanced_push n s c : balanced n c -> balanced (S n) (Ctx.push_new_function s c).
Proof.
  intros [(ids & Hs & Hr) Hl]. split; [|simpl; rewrite Hl; reflexivity].
  exists (S (Ctx.created c) :: ids). split.
  - simpl. simpl in Hs. rewrite Hs. reflexivity.
  - simpl. rewrite replay_app, Hr. simpl. rewrite Nat.eqb_refl. reflexivity.
Qed.

Lemma balanced_end n c : balanced (S n) c -> balanced n (Ctx.end_of_function c).
Proof.
  intros [(ids & Hs & Hr) Hl]. unfold Ctx.end_of_function.
  destruct (Ctx.stacked_functions c) as [|g rest] eqn:Hst; [discriminate|].
  destruct ids as [|a ids']; [destruct rest; discriminate|].
  simpl in Hs. injection Hs as Ha Hs.
  split; [|simpl; simpl in Hl; lia].
  exists ids'. split; [exact Hs|].
  simpl. rewrite replay_app, Hr. simpl. rewrite Ha, Nat.eqb_refl. reflexivity.
Qed.


Create HintDb go.

Lemma Open1_Inv p : Open1 p -> Inv p.
Proof.
  intros (Hp & Hh). unfold Inv. rewrite Hp. split; [|exact Hh].
  destruct (_state (current p)); (reflexivity || discriminate).
Qed.

Lemma Inv_pending p : Inv p -> pending (_state (current p)) = true -> Open1 p.
Proof. intros (Hg & Hh) Hp. rewrite Hp in Hh. split; assumption. Qed.

Lemma Inv_idle p : Inv p -> pending (_state (current p)) = false -> Holding 0 p.
Proof. intros (Hg & Hh) Hp. rewrite Hp in Hh. exact Hh. Qed.

Lemma Holding_set_state k s p : Holding k p -> Holding k (set_state s p).
Proof. intros H. exact H. Qed.

Lemma Holding_set_br_count k n p : Holding k p -> Holding k (set_br_count n p).
Proof. intros H. exact H. Qed.

Lemma Holding_set_collected_tokens k l p :
  Holding k p -> Holding k (set_collected_tokens l p).
Proof. intros H. exact H. Qed.

Lemma Holding_set_possible_function_name k n p :
  Holding k p -> Holding k (set_possible_function_name n p).
Proof. intros H. exact H. Qed.

Lemma Holding_set_last_token k t p : Holding k p -> Holding k (set_last_token t p).
Proof. intros H. exact H. Qed.

Lemma Holding_parameter k t p : Holding k p -> Holding k (on_context (Ctx.parameter t) p).
Proof. intros [Hf Hb]. split; [exact Hf|]. apply balanced_parameter. exact Hb. Qed.

Lemma Holding_set_long_name k t p :
  Holding k p -> Holding k (on_context (Ctx.set_long_name t) p).
Proof. intros [Hf Hb]. split; [exact Hf|]. apply balanced_set_long_name. exact Hb. Qed.

Lemma Holding_push n p :
  Holding 0 p -> Holding 1 (on_context (Ctx.push_new_function n) p).
Proof. intros [Hf Hb]. split; [exact Hf|]. apply balanced_push. exact Hb. Qed.

Lemma Holding_Open1 s p : pending s = true -> Holding 1 p -> Open1 (set_state s p).
Proof. intros Hs Hh. split; [exact Hs | exact Hh]. Qed.

Lemma Holding_Inv s p :
  go_state s = true -> pending s = false -> Holding 0 p -> Inv (set_state s p).
Proof. intros Hg Hs Hh. unfold Inv. simpl. rewrite Hs. split; [exact Hg | exact Hh]. Qed.

Lemma Open1_set_state s p : pending s = true -> Open1 p -> Open1 (set_state s p).
Proof. intros Hs (Hp & Hh). split; [exact Hs | exact Hh]. Qed.

Lemma Open1_set_br_count n p : Open1 p -> Open1 (set_br_count n p).
Proof. intros H. exact H. Qed.

Lemma Open1_parameter t p : Open1 p -> Open1 (on_context (Ctx.parameter t) p).
Proof. intros (Hp & Hh). split; [exact Hp|]. apply Holding_parameter. exact Hh. Qed.

Lemma Inv_set_br_count n p : Inv p -> Inv (set_br_count n p).
Proof. intros H. exact H. Qed.

Lemma Inv_set_collected_tokens l p : Inv p -> Inv (set_collected_tokens l p).
Proof. intros H. exact H. Qed.

Lemma Inv_set_last_token t p : Inv p -> Inv (set_last_token t p).
Proof. intros H. exact H. Qed.

Lemma Open1_function_impl tok p : Open1 p -> Inv (GoStates._function_impl tok p).
Proof.
  intros (Hp & Hf & Hb). unfold GoStates._function_impl, sub_state, Inv, Holding.
  simpl. repeat split; try apply Hb.
  constructor; [left; reflexivity | exact Hf].
Qed.

Lemma Open1_read_inside_brackets brs e func :
  pending e = true ->
  (forall t q, Open1 q -> Open1 (func t q)) ->
  forall tok p, Open1 p -> Open1 (read_inside_brackets_then brs e func tok p).
Proof.
  intros He Hfunc tok p Hp. unfold read_inside_brackets_then.
  apply Hfunc.
  destruct (_ =? _)%Z.
  - apply Open1_set_state; [exact He|]. apply Open1_set_br_count. exact Hp.
  - apply Open1_set_br_count. exact Hp.
Qed.

Lemma Open1_pass : forall (t : string) q, Open1 q -> Open1 ((fun _ p => p) t q).
Proof. auto. Qed.

Lemma Open1_record_parameter : forall t q, Open1 q ->
  Open1 ((fun token p =>
            if negb (Py.contains "()" token)
            then on_context (Ctx.parameter token) p else p) t q).
Proof.
  intros t q Hq. simpl. destruct (negb _); [apply Open1_parameter|]; exact Hq.
Qed.

#[local] Hint Resolve Open1_Inv Open1_set_state Open1_set_br_count Open1_parameter
  Open1_function_impl Open1_read_inside_brackets Open1_pass Open1_record_parameter
  Holding_set_state Holding_set_br_count Holding_set_collected_tokens
  Holding_set_possible_function_name Holding_parameter Holding_set_long_name
  Holding_push Holding_Open1 Holding_Inv Inv_set_br_count Inv_set_collected_tokens : go.

Ltac split_ifs :=
  repeat match goal with
    | |- context [if ?b then _ else _] => destruct b
    end.

Ltac pending_case := split_ifs; unfold next; auto 8 with go.

Lemma Open1_multi_return_type tok p : Open1 p -> Open1 (GoStates._multi_return_type tok p).
Proof. unfold GoStates._multi_return_type. auto with go. Qed.

Lemma Open1_array_return_type tok p : Open1 p -> Open1 (GoStates._array_return_type tok p).
Proof. unfold GoStates._array_return_type. auto with go. Qed.

Lemma Open1_function_dec tok p : Open1 p -> Open1 (GoStates._function_dec tok p).
Proof. unfold GoStates._function_dec. auto with go. Qed.

#[local] Hint Resolve Open1_multi_return_type Open1_array_return_type Open1_function_dec : go.

Lemma Open1_expect_function_impl tok p :
  Open1 p -> Inv (GoStates._expect_function_impl tok p).
Proof. intros Hp. unfold GoStates._expect_function_impl. pending_case. Qed.

Lemma Open1_read_return_type tok p : Open1 p -> Inv (GoStates._read_return_type tok p).
Proof. intros Hp. unfold GoStates._read_return_type. pending_case. Qed.

#[local] Hint Resolve Open1_expect_function_impl Open1_read_return_type : go.

Lemma Open1_after_parameters tok p : Open1 p -> Inv (GoStates._after_parameters tok p).
Proof. intros Hp. unfold GoStates._after_parameters. pending_case. Qed.

#[local] Hint Resolve Open1_after_parameters : go.

Lemma Open1_expect_function_dec tok p :
  Open1 p -> Inv (GoStates._expect_function_dec tok p).
Proof. intros Hp. unfold GoStates._expect_function_dec. pending_case. Qed.

(** *** Handlers of the states with no function open *)

Lemma idle_read_inside_brackets brs tok p :
  Inv p -> pending (_state (current p)) = false ->
  Inv (read_inside_brackets_then brs State._state_global (fun _ q => q) tok p).
Proof.
  intros Hi Hp. unfold read_inside_brackets_then.
  destruct (_ =? _)%Z.
  - apply Holding_Inv; try reflexivity. apply Holding_set_br_count.
    apply Inv_idle; assumption.
  - apply Inv_set_br_count. exact Hi.
Qed.

Lemma idle_check_for_parameters tok p :
  Holding 0 p -> Inv (GoStates._check_for_parameters tok p).
Proof. intros Hh. unfold GoStates._check_for_parameters. cbv zeta. pending_case. Qed.

Lemma idle_after_receiver_or_parameters tok p :
  Inv p -> pending (_state (current p)) = false ->
  Inv (GoStates._after_receiver_or_parameters tok p).
Proof.
  intros Hi Hp. pose proof (Inv_idle _ Hi Hp) as Hh.
  unfold GoStates._after_receiver_or_parameters. cbv zeta. pending_case.
Qed.

Lemma idle_collect_receiver_or_parameters tok p :
  Inv p -> pending (_state (current p)) = false ->
  Inv (GoStates._collect_receiver_or_parameters tok p).
Proof.
  intros Hi Hp. pose proof (Inv_idle _ Hi Hp) as Hh.
  unfold GoStates._collect_receiver_or_parameters. pending_case.
Qed.

Lemma idle_after_func tok p : Holding 0 p -> Inv (GoStates._after_func tok p).
Proof. intros Hh. unfold GoStates._after_func. cbv zeta. pending_case. Qed.

Lemma idle_after_type_name tok p : Holding 0 p -> Inv (GoLikeStates._after_type_name tok p).
Proof. intros Hh. unfold GoLikeStates._after_type_name. pending_case. Qed.

Lemma global_sub_state p :
  _state (current p) = State._state_global -> Holding 0 p -> Inv (sub_state no_callback p).
Proof.
  intros Hs [Hf Hb]. unfold Inv, Holding, sub_state. simpl.
  repeat split; try apply Hb.
  constructor; [right; split; [reflexivity|exact Hs] | exact Hf].
Qed.

Lemma global_statemachine_return p :
  _state (current p) = State._state_global -> Holding 0 p -> Inv (statemachine_return p).
Proof.
  intros Hs [Hf Hb]. unfold statemachine_return.
  destruct (suspended p) as [|m rest] eqn:Hsusp.
  - unfold Inv, Holding.
    cbn [set_exit with_current current _state suspended context].
    rewrite Hs, Hsusp. simpl. repeat split; try apply Hb. exact Hf.
  - inversion Hf as [|? ? Hm Hrest]; subst.
    unfold resume. cbn [current _state exit].
    cbn [filter] in Hb. unfold awaiting at 1 in Hb.
    destruct Hm as [Hcb|[Hcb Hm]]; rewrite Hcb in *.
    + simpl. unfold Inv, Holding. simpl. 
      repeat split; [exact Hrest|..]; apply (balanced_end _ _ Hb).
    + simpl. unfold Inv, Holding. simpl in *. rewrite Hm. simpl.
      repeat split; [exact Hrest|..]; apply Hb.
Qed.

Lemma idle_state_global tok p :
  _state (current p) = State._state_global -> Inv p -> Inv (GoStates._state_global tok p).
Proof.
  intros Hs Hi. assert (Hh : Holding 0 p) by (apply Inv_idle; [exact Hi | rewrite Hs; reflexivity]).
  unfold GoStates._state_global, GoLikeStates._state_global,
    GoStates.FUNC_KEYWORD, GoLikeStates.FUNC_KEYWORD.
  split_ifs; auto using global_sub_state, global_statemachine_return with go.
Qed.

Lemma Inv_advance tok p : Inv p -> Inv (advance GoStates.dispatch tok p).
Proof.
  intros Hi. unfold advance. apply Inv_set_last_token.
  pose proof Hi as (Hg & _).
  destruct (_state (current p)) eqn:Hs; try discriminate Hg; simpl;
    try solve
      [ assert (Ho : Open1 p) by (apply Inv_pending; [exact Hi | rewrite Hs; reflexivity]);
        first
          [ solve [auto using Open1_expect_function_dec with go]
          | apply Open1_Inv;
            unfold GoStates._read_type_parameters, GoStates._interface_return_type,
              GoStates._function_type;
            solve [auto with go] ] ];
    try solve
      [ assert (Hh : Holding 0 p) by (apply Inv_idle; [exact Hi | rewrite Hs; reflexivity]);
        unfold GoLikeStates._type_definition;
        solve [auto using idle_state_global, idle_after_type_name, idle_after_func,
                 idle_check_for_parameters with go] ].
  - apply idle_read_inside_brackets; [exact Hi | rewrite Hs; reflexivity].
  - apply idle_read_inside_brackets; [exact Hi | rewrite Hs; reflexivity].
  - apply idle_collect_receiver_or_parameters; [exact Hi | rewrite Hs; reflexivity].
  - apply idle_after_receiver_or_parameters; [exact Hi | rewrite Hs; reflexivity].
Qed.

Lemma Inv_init : Inv init.
Proof.
  unfold Inv, Holding, balanced, Trace.consistent. simpl.
  repeat split; [constructor|].
  exists []. split; reflexivity.
Qed.

Lemma Inv_feed tokens : forall p, Inv p -> Inv (GoStates.feed tokens p).
Proof.
  induction tokens as [|tok r IH]; intros p Hp; [exact Hp|].
  apply IH. apply Inv_advance. exact Hp.
Qed.

End GoInvariantFacts.

(** ** Python string facts *)

Module PyFacts.

Import Region.

Lemma append_empty_r a b : a ++ b = "" -> b = "".
Proof. destruct a; simpl; [auto | discriminate]. Qed.

Lemma append_assoc (a b c : string) : (a ++ b) ++ c = a ++ (b ++ c).
Proof. induction a as [|x a IH]; simpl; [reflexivity | rewrite IH; reflexivity]. Qed.

Lemma rstrip_nospace s : nospace s = true -> Py.rstrip s = s.
Proof.
  induction s as [|c r IH]; [reflexivity|].
  unfold nospace. simpl. intros H. apply andb_true_iff in H. destruct H as [Hc Hr].
  rewrite (IH Hr). destruct r; [|reflexivity].
  apply negb_true_iff in Hc. rewrite Hc. reflexivity.
Qed.

Lemma rstrip_append a b :
  b <> "" -> nospace b = true -> Py.rstrip (a ++ b) = a ++ b.
Proof.
  intros Hb Hn. induction a as [|c a IH]; simpl.
  - apply rstrip_nospace. exact Hn.
  - rewrite IH. destruct (a ++ b) eqn:E; [|reflexivity].
    apply append_empty_r in E. contradiction.
Qed.

Lemma clean_inv t :
  Region.clean t = true -> t <> "" /\ nospace t = true.
Proof.
  unfold Region.clean. intros H. apply andb_true_iff in H. destruct H as [H1 H2].
  split; [|exact H2]. intros ->. discriminate H1.
Qed.

(** A join of clean tokens ends with a clean token. *)
Lemma join_clean_last sep r : forall t,
  Forall (fun x => Region.clean x = true) (t :: r) ->
  exists a b, Py.join sep (t :: r) = a ++ b /\ b <> "" /\ nospace b = true.
Proof.
  induction r as [|t2 r IH]; intros t H.
  - exists "", t. inversion H; subst. destruct (clean_inv _ H2). auto.
  - inversion H as [|? ? Ht Hr]; subst.
    destruct (IH t2 Hr) as (a & b & E & Hb & Hn).
    exists (t ++ sep ++ a), b. split; [|auto].
    change (Py.join sep (t :: t2 :: r)) with (t ++ sep ++ Py.join sep (t2 :: r)).
    rewrite E, !append_assoc. reflexivity.
Qed.

(** ... and begins with a character that is not whitespace. *)
Lemma join_clean_first sep t r :
  Region.clean t = true ->
  exists c s, Py.join sep (t :: r) = String c s /\ Py.isspace c = false.
Proof.
  intros H. destruct (clean_inv _ H) as [Hne Hn].
  destruct t as [|c t']; [congruence|].
  unfold nospace in Hn. simpl in Hn. apply andb_true_iff in Hn. destruct Hn as [Hc _].
  apply negb_true_iff in Hc.
  destruct r as [|t2 r].
  - exists c, t'. auto.
  - exists c, (t' ++ sep ++ Py.join sep (t2 :: r)). auto.
Qed.

Lemma strip_join_clean sep toks :
  Forall (fun x => Region.clean x = true) toks ->
  Py.strip (Py.join sep toks) = Py.join sep toks.
Proof.
  intros H. destruct toks as [|t r]; [reflexivity|].
  unfold Py.strip.
  destruct (join_clean_first sep t r) as (c & s & E & Hc); [inversion H; assumption|].
  destruct (join_clean_last sep r t H) as (a & b & E' & Hb & Hn).
  rewrite E. simpl. rewrite Hc. rewrite <- E, E'.
  apply rstrip_append; assumption.
Qed.

Lemma solid_append a b : solid (a ++ b) = (solid a ++ solid b)%list.
Proof.
  induction a as [|c a IH]; [reflexivity|].
  unfold solid in *. simpl. destruct (negb (Py.isspace c)); simpl; rewrite IH; reflexivity.
Qed.

Lemma solid_lstrip s : solid (Py.lstrip s) = solid s.
Proof.
  induction s as [|c r IH]; [reflexivity|].
  simpl. destruct (Py.isspace c) eqn:E; [|reflexivity].
  rewrite IH. unfold solid. simpl. rewrite E. reflexivity.
Qed.

Lemma solid_rstrip s : solid (Py.rstrip s) = solid s.
Proof.
  induction s as [|c r IH]; [reflexivity|].
  cbn [Py.rstrip]. destruct (Py.rstrip r) as [|c' r'] eqn:E.
  - unfold solid in *. cbn [list_ascii_of_string filter] in *. rewrite <- IH.
    destruct (Py.isspace c) eqn:Ec; cbn [list_ascii_of_string filter negb];
      rewrite ?Ec; reflexivity.
  - unfold solid in *. cbn [list_ascii_of_string filter] in *. rewrite <- IH.
    reflexivity.
Qed.

(** [strip] takes away whitespace only. *)
Lemma solid_strip s : solid (Py.strip s) = solid s.
Proof. unfold Py.strip. rewrite solid_rstrip. apply solid_lstrip. Qed.

(** A join spells its tokens in order when the separator is blank. *)
Lemma solid_join sep toks :
  solid sep = [] -> solid (Py.join sep toks) = concat (map solid toks).
Proof.
  intros Hsep. induction toks as [|t r IH]; [reflexivity|].
  destruct r as [|t2 r].
  - simpl. rewrite app_nil_r. reflexivity.
  - change (Py.join sep (t :: t2 :: r)) with (t ++ sep ++ Py.join sep (t2 :: r)).
    rewrite !solid_append, Hsep, IH. reflexivity.
Qed.

End PyFacts.

(** ** The Go grammar: scenarios, LIFO order, struct declarations *)

Module GoClaims.
Import Engine.

Lemma feed_app a b p : GoStates.feed (a ++ b) p = GoStates.feed b (GoStates.feed a p).
Proof. unfold GoStates.feed, run. apply fold_left_app. Qed.

(** C4.  Whatever tokens a fresh Go parser is fed, the open and close events it
    sends are in strict LIFO order: every close event closes the function
    opened last among those still open, none closes the sentinel and no
    function is closed twice.  On scenario D the inner anonymous function,
    opened second, is closed first. *)
Theorem function_events_strict_lifo :
  (forall tokens,
     Trace.strict_lifo (Ctx.events (context (GoStates.feed tokens init))))
  /\ Ctx.events (context (GoStates.feed Scenario.D init)) =
       [Ctx.EvPushNewFunction 1 "(anonymous)"; Ctx.EvParameter "x int";
        Ctx.EvPushNewFunction 2 "(anonymous)"; Ctx.EvParameter "y int";
        Ctx.EvEndOfFunction 2; Ctx.EvEndOfFunction 1].
Proof.
  split; [|reflexivity].
  intros tokens.
  destruct (GoInvariantFacts.Inv_feed tokens init GoInvariantFacts.Inv_init)
    as (_ & _ & (ids & _ & Hr) & _).
  exact (TraceFacts.replay_strict_lifo _ _ _ Hr).
Qed.

(** C3.  Scenario B opens one function, named [Bar] with long name
    [(r *T)Bar], records no parameter for it and then closes it. *)
Theorem scenario_B_method_with_receiver :
  let p := GoStates.feed Scenario.B init in
  Ctx.events (context p) =
    [Ctx.EvPushNewFunction 1 "Bar"; Ctx.EvSetLongName "(r *T)Bar";
     Ctx.EvEndOfFunction 1]
  /\ Ctx.function_list (context p) = [Ctx.mkFunctionInfo 1 "Bar" "(r *T)Bar" []]
  /\ Ctx.current_function (context p) = Ctx.global_pseudo_function
  /\ Ctx.stacked_functions (context p) = []
  /\ _state (current p) = State._state_global
  /\ suspended p = [].
Proof. vm_compute. repeat split. Qed.

(** C5.  Scenario A opens one function named [Foo]; the two tokens between
    the parentheses, [a] and [int], are handed to the context one after the
    other and make one recorded parameter; the function is then closed.
    The parser is back in the global state with no machine suspended, no
    function open and nothing in its buffers: of the declaration the
    machine keeps only what it stored on entering the body. *)
Theorem scenario_A_named_function :
  let p := GoStates.feed Scenario.A init in
  Ctx.events (context p) =
    [Ctx.EvPushNewFunction 1 "Foo"; Ctx.EvSetLongName "Foo";
     Ctx.EvParameter "a"; Ctx.EvParameter "int"; Ctx.EvEndOfFunction 1]
  /\ Ctx.function_list (context p) = [Ctx.mkFunctionInfo 1 "Foo" "Foo" ["a int"]]
  /\ map (fun f => length (Ctx.parameters f)) (Ctx.function_list (context p)) = [1]
  /\ Ctx.current_function (context p) = Ctx.global_pseudo_function
  /\ Ctx.stacked_functions (context p) = []
  /\ current p
     = mkMachine State._state_global 0 [] None
         (saved State._function_impl GoStates_callback no_exit)
  /\ suspended p = [].
Proof. vm_compute. repeat split. Qed.

(** No handler of the Go parser reads the last token. *)
Lemma dispatch_set_last_token s t x p :
  GoInvariant.go_state s = true ->
  GoStates.dispatch s t (set_last_token x p)
  = set_last_token x (GoStates.dispatch s t p).
Proof.
  intros Hg. destruct p as [[st br ct pn ex] susp lt c].
  destruct s; try discriminate Hg;
    cbv - [String.eqb Z.eqb Z.add Py.strip Py.join Py.contains
           Ctx.push_new_function Ctx.parameter Ctx.set_long_name
           Ctx.end_of_function Ctx.add_to_function_name
           Ctx.add_to_long_function_name Ctx.enclosing_is_function];
    repeat (match goal with
      | |- context [String.eqb ?a ?b] => destruct (String.eqb a b)
      end; cbv beta iota);
    repeat (match goal with
      | |- context [Z.eqb ?a ?b] => destruct (Z.eqb a b)
      | |- context [match ?l with [] => _ | _ :: _ => _ end] =>
          destruct l as [|[? ? ? ? [? ? []]] ?]
      | |- context [if ?b then _ else _] => destruct b
      end; cbv beta iota); reflexivity.
Qed.

Lemma advance_set_last_token t x p :
  GoInvariant.go_state (_state (current p)) = true ->
  advance GoStates.dispatch t (set_last_token x p) = advance GoStates.dispatch t p.
Proof.
  intros Hg. unfold advance. simpl. rewrite (dispatch_set_last_token _ _ _ _ Hg).
  reflexivity.
Qed.

Lemma feed_set_last_token rest x p :
  GoInvariant.go_state (_state (current p)) = true ->
  rest <> [] -> GoStates.feed rest (set_last_token x p) = GoStates.feed rest p.
Proof.
  intros Hg. destruct rest as [|t r]; [congruence|]. intros _.
  unfold GoStates.feed, run. simpl. rewrite (advance_set_last_token _ _ _ Hg).
  reflexivity.
Qed.

(** C10.  A backtick delivered in the function-name state of the base
    grammar, or in the after-receiver-or-parameters state of the Go grammar,
    is discarded: the handler returns the parser as it was (and, in the
    base grammar, no value), and after the delivery the state, the buffers,
    the stack and the context are unchanged (the engine notes the backtick
    as the last token). *)
Theorem backtick_is_discarded p q :
  _state (current p) = State._function_name ->
  _state (current q) = State._after_receiver_or_parameters ->
  GoLikeStates._function_name "`" p = (p, false)
  /\ GoStates._after_receiver_or_parameters "`" q = q
  /\ GoLikeStates.feed ["`"] p = set_last_token (Some "`") p
  /\ GoStates.feed ["`"] q = set_last_token (Some "`") q.
Proof.
  intros Hp Hq. repeat split.
  - unfold GoLikeStates.feed, run, advance. simpl. rewrite Hp. reflexivity.
  - unfold GoStates.feed, run, advance. simpl. rewrite Hq. reflexivity.
Qed.

Lemma backtick_is_discarded_witness :
  let p := GoLikeStates.feed ["func"] init in
  let q := GoStates.feed ["func"; "("; "r"; "*T"; ")"] init in
  GoLikeStates._function_name "`" p = (p, false)
  /\ GoStates._after_receiver_or_parameters "`" q = q
  /\ GoLikeStates.feed ["`"] p = set_last_token (Some "`") p
  /\ GoStates.feed ["`"] q = set_last_token (Some "`") q.
Proof.
  apply (backtick_is_discarded
           (GoLikeStates.feed ["func"] init)
           (GoStates.feed ["func"; "("; "r"; "*T"; ")"] init));
    reflexivity.
Defined.

(** C2, where the code stops early.  On the anonymous function
    [func ( f func ( int ) ) { }] the collection that starts after [func (]
    ends at the first closing parenthesis, position 4 of what follows,
    although the parenthesis that matches the opening one is at position 5.
    The buffer then holds [f func ( int]; the matching parenthesis is taken
    for the token after the list, and the function is recorded with the
    parameter [f func ( int].  The reader of the parameter list of a named
    function, [_function_dec], keeps a depth counter: on the same tokens
    after [func g (] it reads up to position 5. *)
Theorem nested_parenthesis_cuts_the_parameter :
  let p := GoStates.feed ["func"; "("] init in
  let ts := ["f"; "func"; "("; "int"; ")"; ")"; "{"; "}"] in
  _state (current p) = State._collect_receiver_or_parameters
  /\ Region.matching_close 1 ts = Some 5
  /\ Region.leaves_at State._collect_receiver_or_parameters ts p = Some 4
  /\ _state (current (GoStates.feed (firstn 5 ts) p))
     = State._after_receiver_or_parameters
  /\ _collected_tokens (current (GoStates.feed (firstn 5 ts) p))
     = ["f"; "func"; "("; "int"]
  /\ Ctx.events (context (GoStates.feed ts p))
     = [Ctx.EvPushNewFunction 1 "(anonymous)"; Ctx.EvParameter "f func ( int";
        Ctx.EvEndOfFunction 1]
  /\ Region.leaves_at State._function_dec ts (GoStates.feed ["func"; "g"; "("] init)
     = Some 5.
Proof. vm_compute. repeat split. Qed.

End GoClaims.

(** ** The Go grammar: after the first parenthesis *)

Module ReceiverClaims.
Import Engine Region.

Ltac split_on_token :=
  repeat (match goal with
    | |- context [String.eqb ?a ?b] => destruct (String.eqb a b)
    end; cbv beta iota);
  repeat (match goal with
    | |- context [Z.eqb ?a ?b] => destruct (Z.eqb a b)
    end; cbv beta iota).

(** The handlers that read the return type send nothing to the context. *)
Lemma after_parameters_context u q :
  context (GoStates._after_parameters u q) = context q.
Proof.
  destruct q as [[st br ct pn ex] susp lt c].
  cbv - [String.eqb Z.eqb Z.add]. split_on_token; reflexivity.
Qed.

Lemma after_parameters_state u q :
  let r := GoStates._after_parameters u q in
  (after_signature (_state (current r)) = true /\ suspended r = suspended q)
  \/ (current r = fresh
      /\ exists m, suspended r = m :: suspended q
                   /\ callback (exit m) = GoStates_callback).
Proof.
  destruct q as [[st br ct pn ex] susp lt c].
  cbv - [String.eqb Z.eqb Z.add]. split_on_token; eauto.
Qed.

(** Between the parameter list and the body nothing is sent to the context
    as long as no opening brace is read. *)
Lemma after_signature_advance t p :
  after_signature (_state (current p)) = true -> t <> "{" ->
  let q := advance GoStates.dispatch t p in
  context q = context p /\ after_signature (_state (current q)) = true.
Proof.
  intros Hs Ht. apply String.eqb_neq in Ht.
  destruct p as [[st br ct pn ex] susp lt c]. simpl in Hs.
  destruct st; try discriminate Hs;
    cbv - [String.eqb Z.eqb Z.add]; rewrite ?Ht; cbv beta iota;
    split_on_token; split; reflexivity.
Qed.

Lemma after_signature_feed more : forall p,
  after_signature (_state (current p)) = true ->
  Forall (fun x => x <> "{") more ->
  context (GoStates.feed more p) = context p.
Proof.
  induction more as [|t r IH]; intros p Hs Hm; [reflexivity|].
  inversion Hm as [|? ? Ht Hr]; subst.
  destruct (after_signature_advance t p Hs Ht) as [Hc Hs'].
  change (GoStates.feed (t :: r) p)
    with (GoStates.feed r (advance GoStates.dispatch t p)).
  rewrite IH; assumption.
Qed.


Lemma member_not_backtick t :
  Py.member t ["{"; "("; ")"; GoStates.FUNC_KEYWORD] = true -> (t =? "`") = false.
Proof.
  intros H. destruct (t =? "`") eqn:E; [|reflexivity].
  apply String.eqb_eq in E. subst. discriminate H.
Qed.

Lemma direct_anonymous_context t p :
  Py.member t ["{"; "("; ")"; GoStates.FUNC_KEYWORD] = true ->
  context (GoStates._after_receiver_or_parameters t p)
  = record_parameters (Py.strip (Py.join " " (_collected_tokens (current p))))
      (Ctx.push_new_function "(anonymous)" (context p)).
Proof.
  intros H. unfold GoStates._after_receiver_or_parameters.
  rewrite (member_not_backtick t H), H. cbv zeta. cbn [negb].
  unfold next. rewrite after_parameters_context. unfold record_parameters.
  cbn [on_context current context set_state with_current].
  destruct (Py.truthy _); reflexivity.
Qed.

Lemma fallback_anonymous_context u p :
  u <> "(" ->
  context (GoStates._check_for_parameters u p)
  = record_parameters (Py.strip (Py.join "" (_collected_tokens (current p))))
      (Ctx.set_long_name "(anonymous)"
         (Ctx.push_new_function "(anonymous)" (context p))).
Proof.
  intros H. apply String.eqb_neq in H. unfold GoStates._check_for_parameters.
  rewrite H. cbv zeta. unfold next. rewrite after_parameters_context.
  unfold record_parameters.
  cbn [on_context current context set_state with_current set_collected_tokens].
  destruct (Py.truthy _); reflexivity.
Qed.

Lemma record_parameters_events s c :
  Ctx.events (record_parameters s c) = (Ctx.events c ++ parameter_events s)%list.
Proof.
  unfold record_parameters, parameter_events.
  destruct (Py.truthy s); simpl; [reflexivity | rewrite app_nil_r; reflexivity].
Qed.

(** C9.  When the buffered tokens are taken for the parameters of an
    anonymous function, directly (a token among [{ ( ) func] follows the
    closing parenthesis) or as the fallback (the token after the tentative
    name is not an opening parenthesis), the function is opened and at most
    one parameter event follows: its payload is the buffer joined with
    single spaces in the direct path and concatenated in the fallback, with
    blank ends trimmed, which changes nothing for tokens as the lexer
    delivers them; no parameter event is sent for an empty buffer; the
    fallback does not depend on the tentative name; and until the body's
    opening brace is read nothing more is sent to the context. *)
Theorem anonymous_function_parameters p t u n toks' r more :
  Py.member t ["{"; "("; ")"; GoStates.FUNC_KEYWORD] = true ->
  u <> "(" ->
  Forall (fun x => clean x = true) toks' ->
  after_signature (_state (current r)) = true ->
  Forall (fun x => x <> "{") more ->
  let toks := _collected_tokens (current p) in
  let id := S (Ctx.created (context p)) in
  let direct := GoStates._after_receiver_or_parameters t p in
  let fallback := GoStates._check_for_parameters u p in
  Ctx.events (context direct)
  = (Ctx.events (context p)
       ++ Ctx.EvPushNewFunction id "(anonymous)"
       :: parameter_events (Py.strip (Py.join " " toks)))%list
  /\ Ctx.events (context fallback)
     = (Ctx.events (context p)
          ++ Ctx.EvPushNewFunction id "(anonymous)"
          :: Ctx.EvSetLongName "(anonymous)"
          :: parameter_events (Py.strip (Py.join "" toks)))%list
  /\ (forall s, length (parameter_events s) <= 1)
  /\ parameter_events (Py.strip (Py.join " " [])) = []
  /\ parameter_events (Py.strip (Py.join "" [])) = []
  /\ Py.strip (Py.join " " toks') = Py.join " " toks'
  /\ Py.strip (Py.join "" toks') = Py.join "" toks'
  /\ context (GoStates._check_for_parameters u (set_possible_function_name n p))
     = context fallback
  /\ (after_signature (_state (current direct)) = true \/ current direct = fresh)
  /\ (after_signature (_state (current fallback)) = true \/ current fallback = fresh)
  /\ context (GoStates.feed more r) = context r.
Proof.
  intros Ht Hu Hclean Hr Hmore toks id direct fallback.
  repeat match goal with |- _ /\ _ => split end.
  - unfold direct. rewrite (direct_anonymous_context t p Ht), record_parameters_events.
    simpl. rewrite <- app_assoc. reflexivity.
  - unfold fallback. rewrite (fallback_anonymous_context u p Hu), record_parameters_events.
    simpl. rewrite <- !app_assoc. reflexivity.
  - intros s. unfold parameter_events. destruct (Py.truthy s); simpl; lia.
  - reflexivity.
  - reflexivity.
  - apply PyFacts.strip_join_clean. exact Hclean.
  - apply PyFacts.strip_join_clean. exact Hclean.
  - unfold fallback. rewrite !(fallback_anonymous_context u _ Hu). reflexivity.
  - unfold direct, GoStates._after_receiver_or_parameters.
    rewrite (member_not_backtick t Ht), Ht. cbv zeta. cbn [negb]. unfold next.
    match goal with
    | |- context [GoStates._after_parameters ?a ?b] =>
        destruct (after_parameters_state a b) as [[H _]|[H _]]; auto
    end.
  - apply String.eqb_neq in Hu. unfold fallback, GoStates._check_for_parameters.
    rewrite Hu. cbv zeta. unfold next.
    match goal with
    | |- context [GoStates._after_parameters ?a ?b] =>
        destruct (after_parameters_state a b) as [[H _]|[H _]]; auto
    end.
  - apply after_signature_feed; assumption.
Qed.

Lemma anonymous_function_parameters_witness :
  let p := GoStates.feed ["func"; "("; "x"; "int"; ")"] init in
  Ctx.events (context (GoStates._after_receiver_or_parameters "{" p))
  = [Ctx.EvPushNewFunction 1 "(anonymous)"; Ctx.EvParameter "x int"]
  /\ Ctx.events (context (GoStates._check_for_parameters "{" p))
     = [Ctx.EvPushNewFunction 1 "(anonymous)"; Ctx.EvSetLongName "(anonymous)";
        Ctx.EvParameter "xint"].
Proof.
  pose proof (anonymous_function_parameters
                (GoStates.feed ["func"; "("; "x"; "int"; ")"] init)
                "{" "{" (Some "Bar") ["x"; "int"]
                (GoStates.feed ["func"; "f"; "("; ")"] init) ["int"]) as H.
  cbv zeta in H.
  destruct H as (H1 & H2 & _).
  - reflexivity.
  - discriminate.
  - repeat constructor.
  - reflexivity.
  - repeat constructor. discriminate.
  - split; [exact H1 | exact H2].
Defined.


Lemma feed_one s t p :
  _state (current p) = s ->
  GoStates.feed [t] p = set_last_token (Some t) (GoStates.dispatch s t p).
Proof. intros <-. reflexivity. Qed.

Lemma feed_two t u p :
  GoStates.feed [t; u] p = GoStates.feed [u] (GoStates.feed [t] p).
Proof. reflexivity. Qed.

(** C1 as stated fails: a closing parenthesis after the closing parenthesis
    is not among [( { func], yet it is not taken for a method name; the
    anonymous function is opened at once. *)
Lemma second_closing_parenthesis_opens_anonymous :
  let p := GoStates.feed ["func"; "("; "a"; ")"] init in
  _state (current p) = State._after_receiver_or_parameters
  /\ Py.member ")" ["("; "{"; GoStates.FUNC_KEYWORD] = false
  /\ _state (current (GoStates.feed [")"] p)) <> State._check_for_parameters
  /\ _possible_function_name (current (GoStates.feed [")"] p)) = None
  /\ Ctx.events (context (GoStates.feed [")"] p))
     = [Ctx.EvPushNewFunction 1 "(anonymous)"; Ctx.EvParameter "a"].
Proof. vm_compute. repeat split. discriminate. Qed.

(** C1, as the code has it.  After the closing parenthesis of the buffered
    tokens the next token decides.  A backtick is discarded.  One of
    [{ ( ) func] opens an anonymous function at once, with the buffer,
    joined by spaces, as its parameter.  Any other token [t2] is kept as a
    tentative method name and nothing is sent yet; if the token after it is
    an opening parenthesis, a function named [t2] is opened, with long name
    [(receiver)t2] when the buffer joined by spaces is not empty and [t2]
    alone when it is, and its parameter list begins; if it is any other
    token, an anonymous function is opened with the buffered tokens as its
    parameter: the parameter spells the tokens of the buffer in order (how
    they are set apart in it is left open), and none is recorded when
    nothing is left of them. *)
Theorem token_after_closing_parenthesis_decides p t1 t2 u :
  _state (current p) = State._after_receiver_or_parameters ->
  br_count (current p) = 0%Z ->
  Py.member t1 ["{"; "("; ")"; GoStates.FUNC_KEYWORD] = true ->
  t2 <> "`" ->
  Py.member t2 ["{"; "("; ")"; GoStates.FUNC_KEYWORD] = false ->
  u <> "(" ->
  let toks := _collected_tokens (current p) in
  let receiver := Py.strip (Py.join " " toks) in
  GoStates.feed ["`"] p = set_last_token (Some "`") p
  /\ context (GoStates.feed [t1] p)
     = record_parameters receiver (Ctx.push_new_function "(anonymous)" (context p))
  /\ (let q := GoStates.feed [t2] p in
      _state (current q) = State._check_for_parameters
      /\ _possible_function_name (current q) = Some t2
      /\ _collected_tokens (current q) = toks
      /\ context q = context p
      /\ suspended q = suspended p)
  /\ (let q := GoStates.feed [t2; "("] p in
      _state (current q) = State._function_dec
      /\ br_count (current q) = 1%Z
      /\ suspended q = suspended p
      /\ context q
         = Ctx.set_long_name
             (if receiver =? "" then t2 else "(" ++ receiver ++ ")" ++ t2)
             (Ctx.push_new_function t2 (context p)))
  /\ (exists params,
        solid params = concat (map solid toks)
        /\ context (GoStates.feed [t2; u] p)
           = record_parameters params
               (Ctx.set_long_name "(anonymous)"
                  (Ctx.push_new_function "(anonymous)" (context p)))).
Proof.
  intros Hs Hbr Ht1 Hb Ht2 Hu toks receiver.
  apply String.eqb_neq in Hb.
  assert (Hq : GoStates.feed [t2] p
               = set_last_token (Some t2)
                   (set_state State._check_for_parameters
                      (set_possible_function_name (Some t2) p))).
  { rewrite (feed_one _ t2 p Hs). cbn [GoStates.dispatch].
    unfold GoStates._after_receiver_or_parameters. rewrite Hb, Ht2. reflexivity. }
  cbv zeta.
  repeat match goal with |- _ /\ _ => split end.
  - rewrite (feed_one _ "`" p Hs). reflexivity.
  - rewrite (feed_one _ t1 p Hs). cbn [GoStates.dispatch].
    exact (direct_anonymous_context t1 p Ht1).
  - rewrite Hq. reflexivity.
  - rewrite Hq. reflexivity.
  - rewrite Hq. reflexivity.
  - rewrite Hq. reflexivity.
  - rewrite Hq. reflexivity.
  - rewrite feed_two, Hq. destruct p as [[st br ct pn ex] susp lt c].
    simpl in Hbr. subst br. reflexivity.
  - rewrite feed_two, Hq. destruct p as [[st br ct pn ex] susp lt c].
    simpl in Hbr. subst br. reflexivity.
  - rewrite feed_two, Hq. destruct p as [[st br ct pn ex] susp lt c].
    simpl in Hbr. subst br. reflexivity.
  - rewrite feed_two, Hq. destruct p as [[st br ct pn ex] susp lt c].
    simpl in Hbr. subst br. unfold receiver, toks.
    cbv - [String.eqb Py.strip Py.join String.append Ctx.set_long_name
           Ctx.push_new_function].
    destruct (Py.strip (Py.join " " ct) =? ""); reflexivity.
  - exists (Py.strip (Py.join "" toks)). split.
    + rewrite PyFacts.solid_strip. apply PyFacts.solid_join. reflexivity.
    + rewrite feed_two, Hq.
      match goal with
      | |- context [GoStates.feed [u] ?x] =>
          change (GoStates.feed [u] x)
            with (set_last_token (Some u) (GoStates._check_for_parameters u x))
      end.
      cbn [context set_last_token].
      rewrite (fallback_anonymous_context u _ Hu). reflexivity.
Qed.

Lemma token_after_closing_parenthesis_decides_witness :
  let p := GoStates.feed ["func"; "("; "r"; "*T"; ")"] init in
  Ctx.events (context (GoStates.feed ["{"] p))
  = [Ctx.EvPushNewFunction 1 "(anonymous)"; Ctx.EvParameter "r *T"]
  /\ Ctx.events (context (GoStates.feed ["Bar"] p)) = []
  /\ Ctx.events (context (GoStates.feed ["Bar"; "("] p))
     = [Ctx.EvPushNewFunction 1 "Bar"; Ctx.EvSetLongName "(r *T)Bar"]
  /\ (exists params,
        solid params = concat (map solid ["r"; "*T"])
        /\ Ctx.events (context (GoStates.feed ["Bar"; "{"] p))
           = ([Ctx.EvPushNewFunction 1 "(anonymous)";
               Ctx.EvSetLongName "(anonymous)"] ++ parameter_events params)%list).
Proof.
  pose proof (token_after_closing_parenthesis_decides
                (GoStates.feed ["func"; "("; "r"; "*T"; ")"] init)
                "{" "Bar" "{") as H.
  cbv zeta in H.
  destruct H as (_ & H1 & (_ & _ & _ & H2 & _) & (_ & _ & _ & H3) & (params & H4 & H5));
    try reflexivity; try discriminate.
  cbv zeta. rewrite H1, H2, H3. repeat split.
  exists params. split; [exact H4|].
  rewrite H5, record_parameters_events. reflexivity.
Defined.

End ReceiverClaims.

(** ** The base grammar: the parenthesis after the function keyword *)

Module GoLikeClaims.
Import Engine Region.

Section Brackets.

(** A state [s] of the base grammar whose handler reads a parenthesised
    region, applies [g] to the context on every token and ends in [e]. *)
Variables (s e : State.t) (g : string -> Ctx.t -> Ctx.t).
Hypothesis dispatch_s : forall t q,
  GoLikeStates.dispatch s t q
  = read_inside_brackets_then "()" e (fun tok r => on_context (g tok) r) t q.

Lemma advance_in_brackets t p :
  _state (current p) = s ->
  advance GoLikeStates.dispatch t p
  = set_last_token (Some t)
      (read_inside_brackets_then "()" e (fun tok r => on_context (g tok) r) t p).
Proof. intros Hs. unfold advance. rewrite Hs, dispatch_s. reflexivity. Qed.

Lemma feed_enclosed inner : forall p d,
  _state (current p) = s ->
  br_count (current p) = d ->
  enclosed "()" d inner = true ->
  let q := GoLikeStates.feed inner p in
  _state (current q) = s
  /\ br_count (current q) = 1%Z
  /\ suspended q = suspended p
  /\ context q = fold_left (fun c t => g t c) inner (context p).
Proof.
  induction inner as [|t r IH]; intros p d Hs Hd He.
  - simpl in He. apply Z.eqb_eq in He. subst d. simpl. auto.
  - cbn [enclosed] in He. apply andb_true_iff in He. destruct He as [H1 H2].
    apply Z.leb_le in H1.
    change (GoLikeStates.feed (t :: r) p)
      with (GoLikeStates.feed r (advance GoLikeStates.dispatch t p)).
    rewrite (advance_in_brackets t p Hs).
    unfold read_inside_brackets_then. rewrite Hd.
    cbn [current set_br_count with_current br_count].
    destruct (Z.eqb_spec (d + bracket_delta "()" t) 0) as [E|_]; [lia|].
    match goal with |- context [GoLikeStates.feed r ?x] => set (p1 := x) end.
    destruct (IH p1 (d + bracket_delta "()" t)%Z Hs eq_refl H2) as (A & B & C & D).
    cbv zeta. rewrite A, B, C, D. auto.
Qed.

(** The whole region, from the opening parenthesis delivered through
    [next] to the matching closing one. *)
Lemma feed_region inner p :
  br_count (current p) = 0%Z ->
  enclosed "()" 1 inner = true ->
  let q := GoLikeStates.feed (inner ++ [")"])
             (set_last_token (Some "(")
                (next (GoLikeStates.dispatch s) s "(" p)) in
  _state (current q) = e
  /\ br_count (current q) = 0%Z
  /\ suspended q = suspended p
  /\ context q = fold_left (fun c t => g t c) ("(" :: inner ++ [")"]) (context p).
Proof.
  intros Hbr He. unfold next. rewrite dispatch_s.
  unfold read_inside_brackets_then.
  cbn [current set_state set_br_count with_current br_count].
  rewrite Hbr. change (0 + bracket_delta "()" "(")%Z with 1%Z. cbv beta iota zeta.
  change (1 =? 0)%Z with false. cbv iota.
  match goal with |- context [GoLikeStates.feed _ ?x] => set (p1 := x) end.
  unfold GoLikeStates.feed, run. rewrite fold_left_app.
  fold (run GoLikeStates.dispatch inner p1). fold (GoLikeStates.feed inner p1).
  destruct (feed_enclosed inner p1 1%Z eq_refl eq_refl He) as (A & B & C & D).
  set (p2 := GoLikeStates.feed inner p1) in *.
  cbn [fold_left]. rewrite (advance_in_brackets ")" p2 A).
  unfold read_inside_brackets_then. rewrite B.
  change (1 + bracket_delta "()" ")")%Z with 0%Z.
  cbn [current set_state set_br_count with_current br_count _state suspended
       set_last_token on_context context Z.eqb].
  rewrite C, D. repeat split.
  rewrite fold_left_app. reflexivity.
Qed.

End Brackets.

Lemma dispatch_function_dec t q :
  GoLikeStates.dispatch State._function_dec t q
  = read_inside_brackets_then "()" State._expect_function_impl
      (fun tok r => on_context (record_parameter tok) r) t q.
Proof.
  destruct q as [[st br ct pn ex] susp lt c].
  cbn [GoLikeStates.dispatch]. unfold GoLikeStates._function_dec,
    read_inside_brackets_then, record_parameter.
  cbn [current set_state set_br_count with_current br_count].
  destruct (negb (Py.contains "()" t)); destruct (_ =? 0)%Z; reflexivity.
Qed.

Lemma dispatch_member_function t q :
  GoLikeStates.dispatch State._member_function t q
  = read_inside_brackets_then "()" State._function_name
      (fun tok r => on_context (Ctx.add_to_long_function_name tok) r) t q.
Proof. reflexivity. Qed.

Lemma fold_record_parameter l : forall c,
  fold_left (fun c t => record_parameter t c) l c
  = fold_left (fun c t => Ctx.parameter t c)
      (filter (fun t => negb (Py.contains "()" t)) l) c.
Proof.
  induction l as [|t r IH]; intros c; [reflexivity|].
  cbn [fold_left filter]. unfold record_parameter at 2.
  destruct (negb (Py.contains "()" t)); cbn [fold_left]; apply IH.
Qed.


(** The machine that was on top is still on top when no machine has been
    pushed or popped. *)
Lemma self_same p q : suspended q = suspended p -> self p q = q.
Proof. intros H. unfold self. rewrite H, Nat.sub_diag. reflexivity. Qed.

(** The machine that was on top, after it has entered a sub-machine. *)
Lemma self_pushed p q m :
  suspended q = m :: suspended p ->
  self p q = mkParser m (suspended p) (last_token q) (context q).
Proof.
  intros H. unfold self. rewrite H. cbn [length].
  replace (S (length (suspended p)) - length (suspended p)) with 1 by lia.
  cbn [unwind]. rewrite H. reflexivity.
Qed.

(** A bracket reader keeps the stack and the engine's attributes of the
    machine. *)
Lemma reader_keeps brs e g t p :
  let q := read_inside_brackets_then brs e
             (fun tok r => on_context (g tok) r) t p in
  suspended q = suspended p /\ exit (current q) = exit (current p).
Proof.
  unfold read_inside_brackets_then. cbv zeta.
  destruct (_ =? 0)%Z; split; reflexivity.
Qed.

(** A method that returns the value of [next] on a bracket reader is, for
    a machine that has not been asked to leave, a plain [next]. *)
Lemma called_next_reader h s brs e g t p :
  (forall tok r, h tok r
     = read_inside_brackets_then brs e (fun tok r => on_context (g tok) r) tok r) ->
  to_exit (exit (current p)) = false ->
  (let (q, r) := next_value h s t p in if r then resume (self p q) else q)
  = next h s t p.
Proof.
  intros Hh Hex. unfold next_value.
  assert (K : suspended (next h s t p) = suspended p
              /\ exit (current (next h s t p)) = exit (current p)).
  { unfold next. rewrite Hh. apply (reader_keeps brs e g t (set_state s p)). }
  destruct K as [K1 K2].
  rewrite (self_same p _ K1), K2, Hex. reflexivity.
Qed.

Lemma function_name_parenthesis p :
  to_exit (exit (current p)) = false ->
  GoLikeStates.dispatch State._function_name "(" p
  = if Ctx.enclosing_is_function (context p)
    then next GoLikeStates._function_dec State._function_dec "(" p
    else next GoLikeStates._member_function State._member_function "(" p.
Proof.
  intros Hex. cbn [GoLikeStates.dispatch].
  unfold called, GoLikeStates._function_name, GoLikeStates._function_name_of.
  cbn [String.eqb Ascii.eqb Bool.eqb negb].
  destruct (Ctx.enclosing_is_function (context p)).
  - apply (called_next_reader _ _ "()" State._expect_function_impl record_parameter);
      [|exact Hex].
    intros tok r. exact (dispatch_function_dec tok r).
  - apply (called_next_reader _ _ "()" State._function_name
             Ctx.add_to_long_function_name); [|exact Hex].
    intros tok r. reflexivity.
Qed.

(** A name after the function keyword: the method returns no value. *)
Lemma function_name_token name p :
  Py.member name ["`"; "("; "{"] = false ->
  GoLikeStates.dispatch State._function_name name p
  = set_state State._expect_function_dec
      (on_context (Ctx.add_to_function_name name) p).
Proof.
  intros Hname. cbn [Py.member existsb] in Hname.
  apply orb_false_iff in Hname. destruct Hname as [N1 Hname].
  apply orb_false_iff in Hname. destruct Hname as [N2 Hname].
  apply orb_false_iff in Hname. destruct Hname as [N3 _].
  cbn [GoLikeStates.dispatch].
  unfold called, GoLikeStates._function_name, GoLikeStates._function_name_of.
  rewrite N1, N2, N3. reflexivity.
Qed.

(** C6, where the code gives up.  A closing brace that reaches the base
    machine in its global state asks the machine to leave, and
    [_function_name] hands that request to the engine with the value of
    [next]: on [} func ( r *T ) Bar ( ) { }] the receiver is abandoned at
    its first token.  The function stack is the one of the declaration
    read without the brace in front (the sentinel alone), yet only the
    opening parenthesis is appended to the long name; the machine is back
    in the global state, the rest of the declaration is passed over there,
    and the function is neither named nor closed.  Without the brace the
    same declaration is read as a receiver, a name and a body. *)
Theorem closing_brace_abandons_the_receiver :
  let p := GoLikeStates.feed ["}"; "func"] init in
  let p0 := GoLikeStates.feed ["func"] init in
  let decl := ["("; "r"; "*T"; ")"; "Bar"; "("; ")"; "{"; "}"] in
  _state (current p) = State._function_name
  /\ br_count (current p) = 0%Z
  /\ context p = context p0
  /\ Ctx.stacked_functions (context p) = [Ctx.global_pseudo_function]
  /\ enclosed "()" 1 ["r"; "*T"] = true
  /\ to_exit (exit (current p0)) = false
  /\ to_exit (exit (current p)) = true
  /\ _state (current (GoLikeStates.feed ["("] p)) = State._state_global
  /\ _state (current (GoLikeStates.feed ["("; "r"; "*T"; ")"] p))
     = State._state_global
  /\ Ctx.events (context (GoLikeStates.feed ["("; "r"; "*T"; ")"] p))
     = [Ctx.EvPushNewFunction 1 ""; Ctx.EvAddToLongFunctionName "("]
  /\ Ctx.events (context (GoLikeStates.feed decl p))
     = [Ctx.EvPushNewFunction 1 ""; Ctx.EvAddToLongFunctionName "("]
  /\ Ctx.function_list (context (GoLikeStates.feed decl p)) = []
  /\ _state (current (GoLikeStates.feed ["("; "r"; "*T"; ")"] p0))
     = State._function_name
  /\ Ctx.events (context (GoLikeStates.feed decl p0))
     = [Ctx.EvPushNewFunction 1 ""; Ctx.EvAddToLongFunctionName "(";
        Ctx.EvAddToLongFunctionName "r"; Ctx.EvAddToLongFunctionName "*T";
        Ctx.EvAddToLongFunctionName ")"; Ctx.EvAddToFunctionName "Bar";
        Ctx.EvEndOfFunction 1]
  /\ Ctx.function_list (context (GoLikeStates.feed decl p0))
     = [Ctx.mkFunctionInfo 1 "Bar" "(r*T)Bar" []].
Proof. vm_compute. repeat split. Qed.

(** X17.  In the function-name state of the base grammar an opening
    parenthesis is read according to the function on top of the stacked
    functions, as long as the machine has not been asked to leave.  When
    that function is not named as the global sentinel is, the region up to
    the matching closing parenthesis is a parameter list: every token in
    it but the parentheses is recorded as a parameter and the machine then
    expects the body.  When it is the sentinel, the region is a receiver:
    every token of it, the parentheses included, is appended to the long
    name and the machine is back in the function-name state. *)
Theorem parenthesis_after_func_keyword p p' f fs fs' inner :
  _state (current p) = State._function_name ->
  br_count (current p) = 0%Z ->
  to_exit (exit (current p)) = false ->
  Ctx.stacked_functions (context p) = f :: fs ->
  Ctx.name f <> "*global*" ->
  _state (current p') = State._function_name ->
  br_count (current p') = 0%Z ->
  to_exit (exit (current p')) = false ->
  Ctx.stacked_functions (context p') = Ctx.global_pseudo_function :: fs' ->
  enclosed "()" 1 inner = true ->
  (let q1 := GoLikeStates.feed ["("] p in
   let q := GoLikeStates.feed ("(" :: inner ++ [")"]) p in
   _state (current q1) = State._function_dec
   /\ _state (current q) = State._expect_function_impl
   /\ br_count (current q) = 0%Z
   /\ suspended q = suspended p
   /\ context q
      = fold_left (fun c t => Ctx.parameter t c)
          (filter (fun t => negb (Py.contains "()" t)) inner) (context p))
  /\ (let q1 := GoLikeStates.feed ["("] p' in
      let q := GoLikeStates.feed ("(" :: inner ++ [")"]) p' in
      _state (current q1) = State._member_function
      /\ _state (current q) = State._function_name
      /\ br_count (current q) = 0%Z
      /\ suspended q = suspended p'
      /\ context q
         = fold_left (fun c t => Ctx.add_to_long_function_name t c)
             ("(" :: inner ++ [")"]) (context p')).
Proof.
  intros Hs Hbr Hex Hst Hf Hs' Hbr' Hex' Hst' He.
  assert (Hen : Ctx.enclosing_is_function (context p) = true).
  { unfold Ctx.enclosing_is_function. rewrite Hst.
    apply negb_true_iff, String.eqb_neq. exact Hf. }
  assert (Hen' : Ctx.enclosing_is_function (context p') = false).
  { unfold Ctx.enclosing_is_function. rewrite Hst'. reflexivity. }
  split; cbv zeta.
  - assert (Hq1 : GoLikeStates.feed ["("] p
                  = set_last_token (Some "(")
                      (next (GoLikeStates.dispatch State._function_dec)
                         State._function_dec "(" p)).
    { unfold GoLikeStates.feed, run, advance. cbn [fold_left]. rewrite Hs.
      rewrite (function_name_parenthesis p Hex), Hen. reflexivity. }
    change (GoLikeStates.feed ("(" :: inner ++ [")"]) p)
      with (GoLikeStates.feed (inner ++ [")"]) (GoLikeStates.feed ["("] p)).
    rewrite Hq1.
    destruct (feed_region State._function_dec State._expect_function_impl
                record_parameter dispatch_function_dec inner p Hbr He)
      as (A & B & C & D).
    rewrite A, B, C, D. repeat split.
    + unfold next. rewrite dispatch_function_dec. unfold read_inside_brackets_then.
      cbn [current set_state set_br_count with_current br_count]. rewrite Hbr.
      reflexivity.
    + rewrite fold_record_parameter.
      cbn [filter]. rewrite filter_app. cbn [filter].
      change (negb (Py.contains "()" "(")) with false.
      change (negb (Py.contains "()" ")")) with false.
      cbv iota. rewrite app_nil_r. reflexivity.
  - assert (Hq1 : GoLikeStates.feed ["("] p'
                  = set_last_token (Some "(")
                      (next (GoLikeStates.dispatch State._member_function)
                         State._member_function "(" p')).
    { unfold GoLikeStates.feed, run, advance. cbn [fold_left]. rewrite Hs'.
      rewrite (function_name_parenthesis p' Hex'), Hen'. reflexivity. }
    change (GoLikeStates.feed ("(" :: inner ++ [")"]) p')
      with (GoLikeStates.feed (inner ++ [")"]) (GoLikeStates.feed ["("] p')).
    rewrite Hq1.
    destruct (feed_region State._member_function State._function_name
                Ctx.add_to_long_function_name dispatch_member_function inner p' Hbr' He)
      as (A & B & C & D).
    rewrite A, B, C, D. repeat split.
    unfold next. rewrite dispatch_member_function. unfold read_inside_brackets_then.
    cbn [current set_state set_br_count with_current br_count]. rewrite Hbr'.
    reflexivity.
Qed.

Lemma parenthesis_after_func_keyword_witness :
  (let q1 := GoLikeStates.feed ["("]
               (GoLikeStates.feed ["func"; "f"; "("; ")"; "{"; "func"] init) in
   let q := GoLikeStates.feed ("(" :: ["x"; "("; "y"; ")"] ++ [")"])
              (GoLikeStates.feed ["func"; "f"; "("; ")"; "{"; "func"] init) in
   _state (current q1) = State._function_dec
   /\ _state (current q) = State._expect_function_impl
   /\ br_count (current q) = 0%Z
   /\ suspended q
      = suspended (GoLikeStates.feed ["func"; "f"; "("; ")"; "{"; "func"] init)
   /\ context q
      = fold_left (fun c t => Ctx.parameter t c)
          (filter (fun t => negb (Py.contains "()" t)) ["x"; "("; "y"; ")"])
          (context (GoLikeStates.feed ["func"; "f"; "("; ")"; "{"; "func"] init)))
  /\ (let q1 := GoLikeStates.feed ["("] (GoLikeStates.feed ["func"] init) in
      let q := GoLikeStates.feed ("(" :: ["x"; "("; "y"; ")"] ++ [")"])
                 (GoLikeStates.feed ["func"] init) in
      _state (current q1) = State._member_function
      /\ _state (current q) = State._function_name
      /\ br_count (current q) = 0%Z
      /\ suspended q = suspended (GoLikeStates.feed ["func"] init)
      /\ context q
         = fold_left (fun c t => Ctx.add_to_long_function_name t c)
             ("(" :: ["x"; "("; "y"; ")"] ++ [")"])
             (context (GoLikeStates.feed ["func"] init))).
Proof.
  apply (parenthesis_after_func_keyword
           (GoLikeStates.feed ["func"; "f"; "("; ")"; "{"; "func"] init)
           (GoLikeStates.feed ["func"] init)
           (Ctx.mkFunctionInfo 1 "f" "f" []) [Ctx.global_pseudo_function] []
           ["x"; "("; "y"; ")"]);
    try (vm_compute; reflexivity).
  vm_compute. discriminate.
Defined.

End GoLikeClaims.

(** ** The Java grammar: annotations *)

Module JavaClaims.
Import JavaStates.

Section OverCLikeStates.

Variables (BaseState Base : Type).
Variables (g d2i : Handler BaseState Base).
Variable disp : BaseState -> Handler BaseState Base.

Lemma last_cons (r : list string) : forall x d, last (x :: r) d = last r x.
Proof.
  induction r as [|y r IH]; intros x d; [reflexivity|].
  change (last (x :: y :: r) d) with (last (y :: r) d).
  rewrite !IH. reflexivity.
Qed.

(** A dotted name read from the decorator state leaves the machine in the
    post-decorator state; only the last token has changed. *)
Lemma feed_dotted more : forall first (m : Machine BaseState Base),
  _state m = JavaState._state_decorator ->
  feed g d2i disp (dotted first more) m
  = mkMachine JavaState._state_post_decorator (Some (last more first)) (base m).
Proof.
  induction more as [|x r IH]; intros first m Hm.
  - unfold feed, advance. simpl. rewrite Hm. reflexivity.
  - assert (H : advance g d2i disp "." (advance g d2i disp first m)
                = mkMachine JavaState._state_decorator (Some ".") (base m)).
    { unfold advance at 2. rewrite Hm. reflexivity. }
    change (feed g d2i disp (dotted first (x :: r)) m)
      with (feed g d2i disp (dotted x r)
              (advance g d2i disp "." (advance g d2i disp first m))).
    rewrite H, IH by reflexivity.
    rewrite (last_cons r x first). reflexivity.
Qed.

Lemma java_feed_app a b (m : Machine BaseState Base) :
  feed g d2i disp (a ++ b) m = feed g d2i disp b (feed g d2i disp a m).
Proof. unfold feed. apply fold_left_app. Qed.


End OverCLikeStates.


End JavaClaims.

(** ** Bracketed regions and blocks, for any method table *)

Module BracketFacts.
Import Engine Region Shape.

Lemma run_cons D t ts p : run D (t :: ts) p = run D ts (advance D t p).
Proof. reflexivity. Qed.

Lemma run_app D a b p : run D (a ++ b) p = run D b (run D a p).
Proof. unfold run. apply fold_left_app. Qed.

Lemma last_delivered_app a b lt :
  last_delivered (a ++ b) lt = last_delivered b (last_delivered a lt).
Proof. unfold last_delivered. apply fold_left_app. Qed.

Lemma last_delivered_bracketed o inner cl lt :
  last_delivered (o :: inner ++ [cl]) lt = Some cl.
Proof.
  unfold last_delivered. cbn [fold_left]. rewrite fold_left_app. reflexivity.
Qed.

Lemma parser_eta p :
  p = parser (_state (current p)) (br_count (current p))
        (_collected_tokens (current p)) (_possible_function_name (current p))
        (exit (current p)) (suspended p) (last_token p) (context p).
Proof. destruct p as [[? ? ? ? ?] ? ? ?]. reflexivity. Qed.

(** A handler whose body does nothing is a reader that applies the identity
    to the context. *)
Lemma pass_body brs e t q :
  read_inside_brackets_then brs e (fun _ p => p) t q
  = read_inside_brackets_then brs e
      (fun tok r => on_context ((fun _ c => c) tok) r) t q.
Proof.
  destruct q as [[st br ct pn ex] susp lt c]. unfold read_inside_brackets_then.
  cbn [current set_state set_br_count with_current br_count].
  destruct (_ =? 0)%Z; reflexivity.
Qed.

Lemma fold_pass (l : list string) (c : Ctx.t) :
  fold_left (fun c t => (fun _ c => c) t c) l c = c.
Proof. induction l; simpl; auto. Qed.

Section Reading.

(** A state [s] of a grammar with method table [D] whose handler reads the
    bracket pair [brs], applies [g] to the context on every token and ends
    in state [e]. *)
Variable D : State.t -> Handler.
Variables (s e : State.t) (brs : string) (g : string -> Ctx.t -> Ctx.t).
Hypothesis D_s : forall t q,
  D s t q
  = read_inside_brackets_then brs e (fun tok r => on_context (g tok) r) t q.

Lemma advance_reading t d ct pn ex susp lt c :
  advance D t (parser s d ct pn ex susp lt c)
  = parser (if (d + bracket_delta brs t =? 0)%Z then e else s)
      (d + bracket_delta brs t) ct pn ex susp (Some t) (g t c).
Proof.
  unfold advance, parser. cbn [current _state]. rewrite D_s.
  unfold read_inside_brackets_then.
  cbn [current set_br_count with_current br_count].
  destruct (_ =? 0)%Z; reflexivity.
Qed.

Lemma run_enclosed inner : forall d ct pn ex susp lt c,
  enclosed brs d inner = true ->
  run D inner (parser s d ct pn ex susp lt c)
  = parser s 1 ct pn ex susp (last_delivered inner lt)
      (fold_left (fun c t => g t c) inner c).
Proof.
  induction inner as [|t r IH]; intros d ct pn ex susp lt c He.
  - cbn [enclosed] in He. apply Z.eqb_eq in He. subst d. reflexivity.
  - cbn [enclosed] in He. apply andb_true_iff in He. destruct He as [H1 H2].
    apply Z.leb_le in H1.
    rewrite run_cons, advance_reading.
    destruct (Z.eqb_spec (d + bracket_delta brs t) 0) as [E|_]; [lia|].
    rewrite (IH _ _ _ _ _ _ _ H2). reflexivity.
Qed.

(** From the opening bracket to the matching closing one. *)
Lemma run_bracketed o cl inner ct pn ex susp lt c :
  bracket_delta brs o = 1%Z ->
  bracket_delta brs cl = (-1)%Z ->
  enclosed brs 1 inner = true ->
  run D (o :: inner ++ [cl]) (parser s 0 ct pn ex susp lt c)
  = parser e 0 ct pn ex susp (Some cl)
      (fold_left (fun c t => g t c) (o :: inner ++ [cl]) c).
Proof.
  intros Ho Hc He.
  rewrite run_cons, advance_reading, Ho. cbn [Z.add Z.eqb].
  rewrite run_app, (run_enclosed inner _ _ _ _ _ _ _ He).
  rewrite run_cons, advance_reading, Hc. cbn [Z.add Z.eqb Z.pos_sub].
  cbn [fold_left]. rewrite fold_left_app. reflexivity.
Qed.

End Reading.

Section Blocks.

(** A grammar whose global state pushes a machine on an opening brace, pops
    on a closing one and passes over every other neutral token. *)
Variable D : State.t -> Handler.
Hypothesis D_global : forall t p,
  neutral t = true ->
  D State._state_global t p
  = if t =? "{" then sub_state no_callback p
    else if t =? "}" then statemachine_return p
    else p.

Lemma run_block body : forall k susp lt c,
  enclosed "{}" (Z.of_nat (S k)) body = true ->
  forallb neutral body = true ->
  run D body (mkParser fresh (repeat fresh k ++ susp) lt c)
  = mkParser fresh susp (last_delivered body lt) c.
Proof.
  induction body as [|t r IH]; intros k susp lt c He Hn.
  - cbn [enclosed] in He. apply Z.eqb_eq in He.
    assert (k = 0) by lia. subst k. reflexivity.
  - cbn [enclosed] in He. apply andb_true_iff in He. destruct He as [H1 H2].
    apply Z.leb_le in H1.
    cbn [forallb] in Hn. apply andb_true_iff in Hn. destruct Hn as [Ht Hr].
    rewrite run_cons. unfold advance. cbn [current _state fresh].
    rewrite (D_global t _ Ht).
    unfold bracket_delta in H1, H2.
    change (Py.index "{}" 0) with "{" in H1, H2.
    change (Py.index "{}" 1) with "}" in H1, H2.
    destruct (t =? "{") eqn:E1.
    + replace (Z.of_nat (S k) + 1)%Z with (Z.of_nat (S (S k))) in H2 by lia.
      exact (IH (S k) susp (Some t) c H2 Hr).
    + destruct (t =? "}") eqn:E2.
      * destruct k as [|k']; [lia|].
        replace (Z.of_nat (S (S k')) + -1)%Z with (Z.of_nat (S k')) in H2 by lia.
        exact (IH k' susp (Some t) c H2 Hr).
      * replace (Z.of_nat (S k) + 0)%Z with (Z.of_nat (S k)) in H2 by lia.
        exact (IH k susp (Some t) c H2 Hr).
Qed.

End Blocks.

Lemma go_global_neutral t p :
  neutral t = true ->
  GoStates.dispatch State._state_global t p
  = if t =? "{" then sub_state no_callback p
    else if t =? "}" then statemachine_return p
    else p.
Proof.
  unfold neutral. intros H. apply andb_true_iff in H. destruct H as [H1 H2].
  apply negb_true_iff in H1, H2.
  cbn [GoStates.dispatch].
  unfold GoStates._state_global, GoLikeStates._state_global,
    GoStates.FUNC_KEYWORD, GoLikeStates.FUNC_KEYWORD.
  rewrite H1, H2. destruct (t =? "{"); [reflexivity|].
  destruct (t =? "}"); reflexivity.
Qed.

Lemma golike_global_neutral t p :
  neutral t = true ->
  GoLikeStates.dispatch State._state_global t p
  = if t =? "{" then sub_state no_callback p
    else if t =? "}" then statemachine_return p
    else p.
Proof.
  unfold neutral. intros H. apply andb_true_iff in H. destruct H as [H1 H2].
  apply negb_true_iff in H1, H2.
  cbn [GoLikeStates.dispatch].
  unfold GoLikeStates._state_global, GoLikeStates.FUNC_KEYWORD.
  rewrite H1, H2. reflexivity.
Qed.

End BracketFacts.

(** ** The Go grammar: return types *)

Module GoShapeFacts.
Import Engine Region Shape BracketFacts.

Lemma feed_is_run ts p : GoStates.feed ts p = run GoStates.dispatch ts p.
Proof. reflexivity. Qed.

(** The readers of go.py whose body is [pass]. *)
Lemma go_multi_return_type t q :
  GoStates.dispatch State._multi_return_type t q
  = read_inside_brackets_then "()" State._expect_function_impl
      (fun tok r => on_context ((fun _ c => c) tok) r) t q.
Proof. apply pass_body. Qed.

Lemma go_function_type t q :
  GoStates.dispatch State._function_type t q
  = read_inside_brackets_then "()" State._expect_function_impl
      (fun tok r => on_context ((fun _ c => c) tok) r) t q.
Proof. apply pass_body. Qed.

Lemma go_interface_return_type t q :
  GoStates.dispatch State._interface_return_type t q
  = read_inside_brackets_then "{}" State._expect_function_impl
      (fun tok r => on_context ((fun _ c => c) tok) r) t q.
Proof. apply pass_body. Qed.

Lemma go_array_return_type t q :
  GoStates.dispatch State._array_return_type t q
  = read_inside_brackets_then "[]" State._read_return_type
      (fun tok r => on_context ((fun _ c => c) tok) r) t q.
Proof. apply pass_body. Qed.

Lemma go_struct_definition t q :
  GoStates.dispatch State._struct_definition t q
  = read_inside_brackets_then "{}" State._state_global
      (fun tok r => on_context ((fun _ c => c) tok) r) t q.
Proof. apply pass_body. Qed.

Lemma go_interface_definition t q :
  GoStates.dispatch State._interface_definition t q
  = read_inside_brackets_then "{}" State._state_global
      (fun tok r => on_context ((fun _ c => c) tok) r) t q.
Proof. apply pass_body. Qed.

Lemma go_function_dec t q :
  GoStates.dispatch State._function_dec t q
  = read_inside_brackets_then "()" State._after_parameters
      (fun tok r => on_context (record_parameter tok) r) t q.
Proof.
  destruct q as [[st br ct pn ex] susp lt c].
  cbn [GoStates.dispatch]. unfold GoStates._function_dec,
    read_inside_brackets_then, record_parameter.
  cbn [current set_state set_br_count with_current br_count].
  destruct (negb (Py.contains "()" t)); destruct (_ =? 0)%Z; reflexivity.
Qed.

(** A bracketed region read by a [pass] reader of the Go grammar. *)
Lemma go_skip_bracketed s e brs o cl inner ct pn ex susp lt c :
  (forall t q, GoStates.dispatch s t q
     = read_inside_brackets_then brs e
         (fun tok r => on_context ((fun _ c => c) tok) r) t q) ->
  bracket_delta brs o = 1%Z ->
  bracket_delta brs cl = (-1)%Z ->
  enclosed brs 1 inner = true ->
  GoStates.feed (o :: inner ++ [cl]) (parser s 0 ct pn ex susp lt c)
  = parser e 0 ct pn ex susp (Some cl) c.
Proof.
  intros Hs Ho Hc He. rewrite feed_is_run.
  rewrite (run_bracketed GoStates.dispatch s e brs (fun _ c => c) Hs
             o cl inner ct pn ex susp lt c Ho Hc He).
  rewrite fold_pass. reflexivity.
Qed.

Lemma go_skip_enclosed s e brs inner ct pn ex susp lt c :
  (forall t q, GoStates.dispatch s t q
     = read_inside_brackets_then brs e
         (fun tok r => on_context ((fun _ c => c) tok) r) t q) ->
  enclosed brs 1 inner = true ->
  GoStates.feed inner (parser s 1 ct pn ex susp lt c)
  = parser s 1 ct pn ex susp (last_delivered inner lt) c.
Proof.
  intros Hs He. rewrite feed_is_run.
  rewrite (run_enclosed GoStates.dispatch s e brs (fun _ c => c) Hs
             inner 1 ct pn ex susp lt c He).
  rewrite fold_pass. reflexivity.
Qed.

Ltac token_facts H :=
  unfold plain, skipped, neutral in H; cbn [Py.member existsb] in H;
  repeat rewrite ?negb_true_iff, ?orb_false_iff, ?andb_true_iff in H;
  repeat match type of H with _ /\ _ =>
    let H1 := fresh "Htok" in destruct H as [H1 H] end.

(** The wait for the body passes over the tokens it skips. *)
Lemma go_run_skipped rest : forall ct pn ex susp lt c,
  forallb skipped rest = true ->
  GoStates.feed rest (parser State._expect_function_impl 0 ct pn ex susp lt c)
  = parser State._expect_function_impl 0 ct pn ex susp (last_delivered rest lt) c.
Proof.
  induction rest as [|t r IH]; intros ct pn ex susp lt c H; [reflexivity|].
  cbn [forallb] in H. apply andb_true_iff in H. destruct H as [Ht Hr].
  token_facts Ht.
  change (GoStates.feed (t :: r) ?p)
    with (GoStates.feed r (advance GoStates.dispatch t p)).
  unfold advance, parser. cbn [current _state GoStates.dispatch].
  unfold GoStates._expect_function_impl. rewrite Ht, Htok.
  exact (IH ct pn ex susp (Some t) c Hr).
Qed.

Lemma go_plain_token t s ct pn ex susp lt c :
  plain t = true ->
  s = State._after_parameters \/ s = State._read_return_type ->
  advance GoStates.dispatch t (parser s 0 ct pn ex susp lt c)
  = parser State._read_return_type 0 ct pn ex susp (Some t) c.
Proof.
  intros Ht Hs. token_facts Ht.
  destruct Hs as [-> | ->]; unfold advance, parser;
    cbn [current _state GoStates.dispatch];
    unfold GoStates._after_parameters, next, GoStates._read_return_type;
    rewrite ?Htok, ?Htok0, ?Htok1, ?Htok2, ?Htok3, ?Htok4, ?Htok5;
    cbn [negb]; rewrite ?Htok, ?Htok0, ?Htok1, ?Htok2, ?Htok3, ?Htok4, ?Htok5;
    reflexivity.
Qed.

(** Reading a return type: the machine ends in a state in which an opening
    brace starts the body, and nothing else has changed. *)
Lemma go_run_return_type ret :
  return_type ret ->
  forall s ct pn ex susp lt c,
    s = State._after_parameters \/ s = State._read_return_type ->
    exists s',
      (s' = State._after_parameters \/ s' = State._read_return_type
       \/ s' = State._expect_function_impl)
      /\ GoStates.feed ret (parser s 0 ct pn ex susp lt c)
         = parser s' 0 ct pn ex susp (last_delivered ret lt) c.
Proof.
  induction 1 as [|t ts Ht _ IH|inner ts He _ IH|inner rest He Hr
                 |inner rest He Hr|inner rest He Hr];
    intros s ct pn ex susp lt c Hs.
  - exists s. split; [tauto | reflexivity].
  - destruct (IH State._read_return_type ct pn ex susp (Some t) c (or_intror eq_refl))
      as (s' & Hs' & E).
    exists s'. split; [exact Hs'|].
    change (GoStates.feed (t :: ts) ?p)
      with (GoStates.feed ts (advance GoStates.dispatch t p)).
    rewrite (go_plain_token t s ct pn ex susp lt c Ht Hs). exact E.
  - destruct (IH State._read_return_type ct pn ex susp (Some "]") c (or_intror eq_refl))
      as (s' & Hs' & E).
    exists s'. split; [exact Hs'|].
    change ("[" :: inner ++ "]" :: ts)%list with (["["] ++ inner ++ ["]"] ++ ts)%list.
    rewrite !GoClaims.feed_app, !last_delivered_app.
    assert (H1 : GoStates.feed ["["] (parser s 0 ct pn ex susp lt c)
                 = parser State._array_return_type 1 ct pn ex susp (Some "[") c)
      by (destruct Hs as [-> | ->]; reflexivity).
    rewrite H1, (go_skip_enclosed _ _ _ inner _ _ _ _ _ _ go_array_return_type He).
    exact E.
  - exists State._expect_function_impl. split; [tauto|].
    change ("(" :: inner ++ ")" :: rest)%list with (["("] ++ inner ++ [")"] ++ rest)%list.
    rewrite !GoClaims.feed_app, !last_delivered_app.
    assert (H1 : GoStates.feed ["("] (parser s 0 ct pn ex susp lt c)
                 = parser State._multi_return_type 1 ct pn ex susp (Some "(") c)
      by (destruct Hs as [-> | ->]; reflexivity).
    rewrite H1, (go_skip_enclosed _ _ _ inner _ _ _ _ _ _ go_multi_return_type He).
    apply go_run_skipped. exact Hr.
  - exists State._expect_function_impl. split; [tauto|].
    replace ("interface" :: "{" :: inner ++ "}" :: rest)%list
      with (["interface"] ++ ("{" :: inner ++ ["}"]) ++ rest)%list
      by (cbn [app]; rewrite <- app_assoc; reflexivity).
    rewrite !GoClaims.feed_app, !last_delivered_app.
    assert (H1 : GoStates.feed ["interface"] (parser s 0 ct pn ex susp lt c)
                 = parser State._interface_return_type 0 ct pn ex susp (Some "interface") c)
      by (destruct Hs as [-> | ->]; reflexivity).
    rewrite H1.
    rewrite (go_skip_bracketed _ _ _ "{" "}" inner _ _ _ _ _ _
               go_interface_return_type eq_refl eq_refl He).
    rewrite (go_run_skipped rest _ _ _ _ _ _ Hr).
    rewrite last_delivered_bracketed. reflexivity.
  - exists State._expect_function_impl. split; [tauto|].
    replace ("func" :: "(" :: inner ++ ")" :: rest)%list
      with (["func"] ++ ("(" :: inner ++ [")"]) ++ rest)%list
      by (cbn [app]; rewrite <- app_assoc; reflexivity).
    rewrite !GoClaims.feed_app, !last_delivered_app.
    assert (H1 : GoStates.feed ["func"] (parser s 0 ct pn ex susp lt c)
                 = parser State._function_type 0 ct pn ex susp (Some "func") c)
      by (destruct Hs as [-> | ->]; reflexivity).
    rewrite H1.
    rewrite (go_skip_bracketed _ _ _ "(" ")" inner _ _ _ _ _ _
               go_function_type eq_refl eq_refl He).
    rewrite (go_run_skipped rest _ _ _ _ _ _ Hr).
    rewrite last_delivered_bracketed. reflexivity.
Qed.

End GoShapeFacts.

(** ** The Go grammar: whole declarations *)

Module GoDeclarations.
Import Engine Region Shape BracketFacts GoShapeFacts.

Lemma go_return_type_then_body ret s ct pn ex susp lt c :
  return_type ret ->
  s = State._after_parameters \/ s = State._read_return_type ->
  GoStates.feed (ret ++ ["{"]) (parser s 0 ct pn ex susp lt c)
  = mkParser fresh
      (mkMachine State._function_impl 0 ct pn
         (saved State._function_impl GoStates_callback ex) :: susp)
      (Some "{") c.
Proof.
  intros Hret Hs. rewrite GoClaims.feed_app.
  destruct (go_run_return_type ret Hret s ct pn ex susp lt c Hs) as (s' & Hs' & E).
  rewrite E. destruct Hs' as [-> | [-> | ->]]; reflexivity.
Qed.

(** X5.  A return type followed by an opening brace: the body is entered, with
    the machine of the function suspended under its closing callback, and
    nothing has been sent to the context. *)
Theorem return_type_then_body ret s ct pn ex susp lt c :
  return_type ret ->
  s = State._after_parameters \/ s = State._read_return_type ->
  GoStates.feed (ret ++ ["{"]) (parser s 0 ct pn ex susp lt c)
  = mkParser fresh
      (mkMachine State._function_impl 0 ct pn
         (saved State._function_impl GoStates_callback ex) :: susp)
      (Some "{") c.
Proof. exact (go_return_type_then_body ret s ct pn ex susp lt c). Qed.

Lemma return_type_then_body_witness :
  GoStates.feed
    (["["; "]"; "map"; "["; "string"; "]"; "func"; "("; "int"; ")"; "error"] ++ ["{"])
    (parser State._after_parameters 0 [] None no_exit [] None
       (Ctx.push_new_function "f" Ctx.init))
  = mkParser fresh
      [mkMachine State._function_impl 0 [] None
         (saved State._function_impl GoStates_callback no_exit)]
      (Some "{") (Ctx.push_new_function "f" Ctx.init).
Proof.
  apply (return_type_then_body
           ("[" :: [] ++ "]" :: "map" :: "[" :: ["string"] ++ "]"
              :: "func" :: "(" :: ["int"] ++ ")" :: ["error"])%list).
  - apply rt_array; [reflexivity|].
    apply rt_plain; [reflexivity|].
    apply rt_array; [reflexivity|].
    apply rt_function; reflexivity.
  - left. reflexivity.
Defined.

(** The body of a function or block: neutral tokens with balanced braces,
    read by a fresh machine, leave that machine fresh. *)
Lemma go_run_body body susp lt c :
  enclosed "{}" 1 body = true ->
  forallb neutral body = true ->
  GoStates.feed body (mkParser fresh susp lt c)
  = mkParser fresh susp (last_delivered body lt) c.
Proof.
  intros He Hn.
  exact (run_block GoStates.dispatch go_global_neutral body 0 susp lt c He Hn).
Qed.

(** X7.  A block of neutral tokens in braces, met in the global state, is
    transparent: the parser is left as it was, but for what the machine
    stored on entering the block (the global state, no callback). *)
Theorem neutral_block_is_transparent p body :
  _state (current p) = State._state_global ->
  enclosed "{}" 1 body = true ->
  forallb neutral body = true ->
  GoStates.feed ("{" :: body ++ ["}"]) p
  = set_last_token (Some "}") (set_saved State._state_global no_callback p).
Proof.
  intros Hs He Hn.
  change ("{" :: body ++ ["}"])%list with (["{"] ++ body ++ ["}"])%list.
  rewrite !GoClaims.feed_app.
  assert (H1 : GoStates.feed ["{"] p
               = mkParser fresh
                   (current (set_saved State._state_global no_callback p)
                      :: suspended p)
                   (Some "{") (context p)).
  { unfold GoStates.feed, run, advance. cbn [fold_left]. rewrite Hs.
    cbn [GoStates.dispatch]. unfold GoStates._state_global, sub_state.
    cbn [String.eqb Ascii.eqb Bool.eqb GoStates.FUNC_KEYWORD GoLikeStates.FUNC_KEYWORD].
    rewrite Hs. reflexivity. }
  rewrite H1, (go_run_body body _ _ _ He Hn).
  destruct p as [[st br ct pn ex] susp lt c]. cbn [current _state] in Hs. subst st.
  reflexivity.
Qed.

Lemma neutral_block_is_transparent_witness :
  GoStates.feed ("{" :: ["x"; ":="; "{"; "1"; "}"; "interface"; "("] ++ ["}"]) init
  = set_last_token (Some "}") (set_saved State._state_global no_callback init).
Proof.
  apply (neutral_block_is_transparent init
           ["x"; ":="; "{"; "1"; "}"; "interface"; "("]); reflexivity.
Defined.

(** X6.  A struct or interface declaration with any balanced body, keywords
    included, leaves the parser as it was, and so does a declaration of any
    other type after its third token. *)
Theorem type_declaration_opens_nothing p name kind body t :
  _state (current p) = State._state_global ->
  br_count (current p) = 0%Z ->
  kind = "struct" \/ kind = "interface" ->
  enclosed "{}" 1 body = true ->
  t <> "struct" -> t <> "interface" ->
  GoStates.feed ("type" :: name :: kind :: "{" :: body ++ ["}"]) p
  = set_last_token (Some "}") p
  /\ GoStates.feed ["type"; name; t] p = set_last_token (Some t) p.
Proof.
  intros Hs Hbr Hk He Ht1 Ht2.
  rewrite (parser_eta p), Hs, Hbr.
  set (ct := _collected_tokens (current p)).
  set (pn := _possible_function_name (current p)).
  set (ex := exit (current p)).
  split.
  - change ("type" :: name :: kind :: "{" :: body ++ ["}"])%list
      with (["type"; name; kind] ++ ("{" :: body ++ ["}"]))%list.
    rewrite GoClaims.feed_app.
    destruct Hk as [-> | ->].
    + change (GoStates.feed ["type"; name; "struct"] ?q)
        with (parser State._struct_definition 0 ct pn ex (suspended p)
                (Some "struct") (context p)).
      exact (go_skip_bracketed _ _ _ "{" "}" body _ _ _ _ _ _
               go_struct_definition eq_refl eq_refl He).
    + change (GoStates.feed ["type"; name; "interface"] ?q)
        with (parser State._interface_definition 0 ct pn ex (suspended p)
                (Some "interface") (context p)).
      exact (go_skip_bracketed _ _ _ "{" "}" body _ _ _ _ _ _
               go_interface_definition eq_refl eq_refl He).
  - apply String.eqb_neq in Ht1, Ht2.
    unfold GoStates.feed, run, advance, parser. cbn [fold_left current _state].
    cbn [GoStates.dispatch]. unfold GoStates._state_global.
    cbn [String.eqb Ascii.eqb Bool.eqb GoStates.FUNC_KEYWORD GoLikeStates.FUNC_KEYWORD].
    cbn [set_state set_last_token current with_current _state GoStates.dispatch
         br_count _collected_tokens _possible_function_name suspended context].
    unfold GoLikeStates._type_definition.
    cbn [set_state set_last_token current with_current _state GoStates.dispatch
         br_count _collected_tokens _possible_function_name suspended context].
    unfold GoLikeStates._after_type_name. rewrite Ht1, Ht2. reflexivity.
Qed.

Lemma type_declaration_opens_nothing_witness :
  GoStates.feed
    ("type" :: "T" :: "struct" :: "{" :: ["f"; "func"; "("; ")"; "{"; "}"] ++ ["}"]) init
  = set_last_token (Some "}") init
  /\ GoStates.feed ["type"; "T"; "func"] init = set_last_token (Some "func") init.
Proof.
  apply (type_declaration_opens_nothing init "T" "struct"
           ["f"; "func"; "("; ")"; "{"; "}"] "func");
    try reflexivity; try discriminate.
  left. reflexivity.
Defined.


(** C7.  A parser in the global state that is fed the struct declaration of
    scenario C comes back unchanged but for the last token: no event is
    sent, the state is the global one, no machine is left on the stack, and
    what follows is parsed as if the declaration had not been there.  The
    body is consumed wholesale: from the keyword [struct] to the last token
    before the closing brace the parser is the one it was, in the
    struct-definition state and with the braces counted, so that no machine
    is pushed for the body and nothing is sent to the context; and any body
    with balanced braces in the place of [X int], declarations included,
    is passed over in the same way. *)
Theorem scenario_C_struct_declaration p rest body :
  _state (current p) = State._state_global ->
  br_count (current p) = 0%Z ->
  enclosed "{}" 1 body = true ->
  GoStates.feed Scenario.C p = set_last_token (Some "}") p
  /\ context (GoStates.feed Scenario.C p) = context p
  /\ _state (current (GoStates.feed Scenario.C p)) = State._state_global
  /\ suspended (GoStates.feed Scenario.C p) = suspended p
  /\ GoStates.feed (Scenario.C ++ rest) p
     = GoStates.feed rest (set_last_token (Some "}") p)
  /\ (rest <> [] -> GoStates.feed (Scenario.C ++ rest) p = GoStates.feed rest p)
  /\ (forall k, 3 <= k <= 6 ->
        GoStates.feed (firstn k Scenario.C) p
        = set_last_token (nth_error Scenario.C (k - 1))
            (set_br_count (if (k =? 3)%nat then 0%Z else 1%Z)
               (set_state State._struct_definition p)))
  /\ GoStates.feed ("type" :: "Foo" :: "struct" :: "{" :: body ++ ["}"]) p
     = set_last_token (Some "}") p.
Proof.
  intros Hs Hbr He.
  assert (H : GoStates.feed Scenario.C p = set_last_token (Some "}") p).
  { destruct p as [[st br ct pn ex] susp lt c]. simpl in Hs, Hbr. subst. reflexivity. }
  rewrite GoClaims.feed_app, H.
  repeat match goal with |- _ /\ _ => split end; auto.
  - intros Hrest. apply GoClaims.feed_set_last_token; [|exact Hrest].
    rewrite Hs. reflexivity.
  - intros k Hk.
    destruct p as [[st br ct pn ex] susp lt c]. simpl in Hs, Hbr. subst.
    destruct k as [|[|[|[|[|[|[|k]]]]]]]; try lia; reflexivity.
  - rewrite (parser_eta p), Hs, Hbr.
    change ("type" :: "Foo" :: "struct" :: "{" :: body ++ ["}"])%list
      with (["type"; "Foo"; "struct"] ++ ("{" :: body ++ ["}"]))%list.
    rewrite GoClaims.feed_app.
    change (GoStates.feed ["type"; "Foo"; "struct"] ?q)
      with (parser State._struct_definition 0 (_collected_tokens (current p))
              (_possible_function_name (current p)) (exit (current p))
              (suspended p) (Some "struct") (context p)).
    exact (go_skip_bracketed _ _ _ "{" "}" body _ _ _ _ _ _
             go_struct_definition eq_refl eq_refl He).
Qed.

Lemma scenario_C_struct_declaration_witness :
  GoStates.feed Scenario.C init = set_last_token (Some "}") init
  /\ context (GoStates.feed Scenario.C init) = context init
  /\ _state (current (GoStates.feed Scenario.C init)) = State._state_global
  /\ suspended (GoStates.feed Scenario.C init) = suspended init
  /\ GoStates.feed (Scenario.C ++ ["func"; "main"; "("; ")"; "{"; "}"]) init
     = GoStates.feed ["func"; "main"; "("; ")"; "{"; "}"] (set_last_token (Some "}") init)
  /\ (["func"; "main"; "("; ")"; "{"; "}"] <> [] ->
      GoStates.feed (Scenario.C ++ ["func"; "main"; "("; ")"; "{"; "}"]) init
      = GoStates.feed ["func"; "main"; "("; ")"; "{"; "}"] init)
  /\ (forall k, 3 <= k <= 6 ->
        GoStates.feed (firstn k Scenario.C) init
        = set_last_token (nth_error Scenario.C (k - 1))
            (set_br_count (if (k =? 3)%nat then 0%Z else 1%Z)
               (set_state State._struct_definition init)))
  /\ GoStates.feed
       ("type" :: "Foo" :: "struct" :: "{" :: ["f"; "func"; "("; ")"; "{"; "}"] ++ ["}"])
       init
     = set_last_token (Some "}") init.
Proof.
  apply (scenario_C_struct_declaration init ["func"; "main"; "("; ")"; "{"; "}"]
           ["f"; "func"; "("; ")"; "{"; "}"]);
    reflexivity.
Defined.

(** Closing the body: the machine of the function resumes, the function is
    closed and the state is the global one. *)
Lemma go_close_body ct pn ex susp lt c :
  GoStates.feed ["}"]
    (mkParser fresh
       (mkMachine State._function_impl 0 ct pn
         (saved State._function_impl GoStates_callback ex) :: susp) lt c)
  = parser State._state_global 0 ct pn
      (saved State._function_impl GoStates_callback ex) susp (Some "}")
      (Ctx.end_of_function c).
Proof. reflexivity. Qed.

(** From the end of the parameter list to the end of the body. *)
Lemma go_signature_to_end ret body s ct pn ex susp lt c :
  return_type ret ->
  s = State._after_parameters \/ s = State._read_return_type ->
  enclosed "{}" 1 body = true ->
  forallb neutral body = true ->
  GoStates.feed (ret ++ ["{"] ++ body ++ ["}"]) (parser s 0 ct pn ex susp lt c)
  = parser State._state_global 0 ct pn
      (saved State._function_impl GoStates_callback ex) susp (Some "}")
      (Ctx.end_of_function c).
Proof.
  intros Hret Hs He Hn.
  rewrite app_assoc, GoClaims.feed_app, (go_return_type_then_body ret s _ _ _ _ _ _ Hret Hs).
  rewrite GoClaims.feed_app, (go_run_body body _ _ _ He Hn).
  apply go_close_body.
Qed.

(** The parameter list, read by [_function_dec] from depth 1. *)
Lemma go_run_parameters params ct pn ex susp lt c :
  enclosed "()" 1 params = true ->
  GoStates.feed (params ++ [")"]) (parser State._function_dec 1 ct pn ex susp lt c)
  = parser State._after_parameters 0 ct pn ex susp (Some ")")
      (fold_left (fun c t => Ctx.parameter t c)
         (filter (fun t => negb (Py.contains "()" t)) params) c).
Proof.
  intros He. rewrite GoClaims.feed_app, !feed_is_run.
  rewrite (run_enclosed GoStates.dispatch _ _ _ _ go_function_dec params 1 _ _ _ _ _ _ He).
  rewrite run_cons,
    (advance_reading GoStates.dispatch _ _ _ _ go_function_dec ")").
  rewrite GoLikeClaims.fold_record_parameter. reflexivity.
Qed.

(** X1.  A named function: [func name ( params ) ret { body }] opens one
    function called [name], records every token of the parameter list that
    is not a parenthesis, reads the return type in silence and closes the
    function at the end of the body; the machine is left as it was, but
    for what it stored on entering the body (its state and the closing
    callback). *)
Theorem named_function_declaration p name params ret body :
  _state (current p) = State._state_global ->
  br_count (current p) = 0%Z ->
  Py.member name ["{"; "("; ""] = false ->
  enclosed "()" 1 params = true ->
  return_type ret ->
  enclosed "{}" 1 body = true ->
  forallb neutral body = true ->
  GoStates.feed
    ("func" :: name :: "(" :: params ++ [")"] ++ ret ++ ["{"] ++ body ++ ["}"]) p
  = set_last_token (Some "}")
      (on_context
         (fun c =>
            Ctx.end_of_function
              (fold_left (fun c t => Ctx.parameter t c)
                 (filter (fun t => negb (Py.contains "()" t)) params)
                 (Ctx.set_long_name name (Ctx.push_new_function name c))))
         (set_saved State._function_impl GoStates_callback p)).
Proof.
  intros Hs Hbr Hname Hp Hret Hb Hn.
  rewrite (parser_eta p) at 1. rewrite Hs, Hbr.
  set (ct := _collected_tokens (current p)).
  set (pn := _possible_function_name (current p)).
  set (ex := exit (current p)).
  change ("func" :: name :: "(" :: params ++ [")"] ++ ret ++ ["{"] ++ body ++ ["}"])%list
    with (["func"; name; "("] ++ params ++ [")"] ++ ret ++ ["{"] ++ body ++ ["}"])%list.
  rewrite GoClaims.feed_app.
  assert (H1 : GoStates.feed ["func"; name; "("]
                 (parser State._state_global 0 ct pn ex (suspended p) (last_token p)
                    (context p))
               = parser State._function_dec 1 ct pn ex (suspended p) (Some "(")
                   (Ctx.set_long_name name (Ctx.push_new_function name (context p)))).
  { unfold GoStates.feed, run, advance, parser. cbn [fold_left current _state].
    cbn [GoStates.dispatch]. unfold GoStates._state_global.
    cbn [String.eqb Ascii.eqb Bool.eqb GoStates.FUNC_KEYWORD GoLikeStates.FUNC_KEYWORD].
    cbn [set_state set_last_token current with_current _state GoStates.dispatch].
    unfold GoStates._after_func. rewrite Hname.
    cbn [Py.member existsb] in Hname.
    apply orb_false_iff in Hname. destruct Hname as [_ Hname].
    apply orb_false_iff in Hname. destruct Hname as [Hname _].
    rewrite Hname. reflexivity. }
  rewrite H1, app_assoc, GoClaims.feed_app, (go_run_parameters params _ _ _ _ _ _ Hp).
  rewrite (go_signature_to_end ret body _ _ _ _ _ _ _ Hret (or_introl eq_refl) Hb Hn).
  subst ct pn ex. destruct p as [[st br ct pn ex] susp lt c].
  cbn [current _state br_count] in Hs, Hbr. subst st br. reflexivity.
Qed.

Lemma named_function_declaration_witness :
  GoStates.feed
    ("func" :: "Map" :: "(" :: ["f"; "func"; "("; "int"; ")"; "int"; ","; "xs"]
       ++ [")"] ++ ["int"] ++ ["{"] ++ ["return"; "{"; "}"] ++ ["}"])
    init
  = set_last_token (Some "}")
      (on_context
         (fun c =>
            Ctx.end_of_function
              (fold_left (fun c t => Ctx.parameter t c)
                 (filter (fun t => negb (Py.contains "()" t))
                    ["f"; "func"; "("; "int"; ")"; "int"; ","; "xs"])
                 (Ctx.set_long_name "Map" (Ctx.push_new_function "Map" c))))
         (set_saved State._function_impl GoStates_callback init)).
Proof.
  apply (named_function_declaration init "Map"
           ["f"; "func"; "("; "int"; ")"; "int"; ","; "xs"]
           ["int"] ["return"; "{"; "}"]);
    try reflexivity.
  apply rt_plain; [reflexivity | apply rt_nil].
Defined.


(** The tokens in the first parenthesis are appended to the buffer. *)
Lemma go_run_collect recv : forall br ct pn ex susp lt c,
  forallb (fun t => negb (t =? ")")) recv = true ->
  GoStates.feed recv
    (parser State._collect_receiver_or_parameters br ct pn ex susp lt c)
  = parser State._collect_receiver_or_parameters br (ct ++ recv) pn ex susp
      (last_delivered recv lt) c.
Proof.
  induction recv as [|t r IH]; intros br ct pn ex susp lt c H.
  - rewrite app_nil_r. reflexivity.
  - cbn [forallb] in H. apply andb_true_iff in H. destruct H as [Ht Hr].
    apply negb_true_iff in Ht.
    change (GoStates.feed (t :: r) ?q)
      with (GoStates.feed r (advance GoStates.dispatch t q)).
    unfold advance, parser. cbn [current _state GoStates.dispatch].
    unfold GoStates._collect_receiver_or_parameters. rewrite Ht.
    change (GoStates.feed r ?q)
      with (GoStates.feed r
              (parser State._collect_receiver_or_parameters br (ct ++ [t]) pn ex susp
                 (Some t) c)).
    rewrite (IH _ _ _ _ _ _ _ Hr), <- app_assoc. reflexivity.
Qed.

Lemma go_tentative_name name ct pn ex susp lt c :
  (name =? "`") = false ->
  Py.member name ["{"; "("; ")"; GoStates.FUNC_KEYWORD] = false ->
  advance GoStates.dispatch name
    (parser State._after_receiver_or_parameters 0 ct pn ex susp lt c)
  = parser State._check_for_parameters 0 ct (Some name) ex susp (Some name) c.
Proof.
  intros Hbt Hname. unfold advance, parser. cbn [current _state GoStates.dispatch].
  unfold GoStates._after_receiver_or_parameters. rewrite Hbt, Hname. reflexivity.
Qed.

Lemma go_confirmed_name name ct ex susp lt c :
  advance GoStates.dispatch "("
    (parser State._check_for_parameters 0 ct (Some name) ex susp lt c)
  = parser State._function_dec 1 ct (Some name) ex susp (Some "(")
      (Ctx.set_long_name
         (if Py.strip (Py.join " " ct) =? "" then name
          else "(" ++ Py.strip (Py.join " " ct) ++ ")" ++ name)
         (Ctx.push_new_function name c)).
Proof.
  cbv - [String.eqb Py.strip Py.join String.append Ctx.set_long_name
         Ctx.push_new_function].
  destruct (Py.strip (Py.join " " ct) =? ""); reflexivity.
Qed.

(** X2.  A method: [func ( recv ) name ( params ) ret { body }] opens one
    function called [name] whose long name carries the receiver, joined
    with spaces, in parentheses in front of the name (the name alone when
    no receiver token was read); the parameters, the return type and the
    body are read as for a named function.  The buffer of the machine then
    holds the receiver tokens of this declaration only, and the machine
    has stored its state and the closing callback on entering the body. *)
Theorem method_declaration p recv name params ret body :
  _state (current p) = State._state_global ->
  br_count (current p) = 0%Z ->
  forallb (fun t => negb (t =? ")")) recv = true ->
  name <> "`" ->
  Py.member name ["{"; "("; ")"; GoStates.FUNC_KEYWORD] = false ->
  enclosed "()" 1 params = true ->
  return_type ret ->
  enclosed "{}" 1 body = true ->
  forallb neutral body = true ->
  let receiver := Py.strip (Py.join " " recv) in
  GoStates.feed
    ("func" :: "(" :: recv ++ [")"; name; "("] ++ params ++ [")"] ++ ret
       ++ ["{"] ++ body ++ ["}"]) p
  = parser State._state_global 0 recv (Some name)
      (saved State._function_impl GoStates_callback (exit (current p)))
      (suspended p) (Some "}")
      (Ctx.end_of_function
         (fold_left (fun c t => Ctx.parameter t c)
            (filter (fun t => negb (Py.contains "()" t)) params)
            (Ctx.set_long_name
               (if receiver =? "" then name else "(" ++ receiver ++ ")" ++ name)
               (Ctx.push_new_function name (context p))))).
Proof.
  intros Hs Hbr Hrecv Hbt Hname Hp Hret Hb Hn receiver.
  apply String.eqb_neq in Hbt.
  rewrite (parser_eta p) at 1. rewrite Hs, Hbr.
  set (ct := _collected_tokens (current p)).
  set (pn := _possible_function_name (current p)).
  set (ex := exit (current p)).
  change ("func" :: "(" :: recv ++ [")"; name; "("] ++ params ++ [")"] ++ ret
            ++ ["{"] ++ body ++ ["}"])%list
    with (["func"; "("] ++ recv ++ [")"; name; "("] ++ params ++ [")"] ++ ret
            ++ ["{"] ++ body ++ ["}"])%list.
  rewrite GoClaims.feed_app.
  change (GoStates.feed ["func"; "("] (parser State._state_global 0 ct pn ex ?a ?b ?c))
    with (parser State._collect_receiver_or_parameters 0 [] pn ex a (Some "(") c).
  rewrite GoClaims.feed_app, (go_run_collect recv _ _ _ _ _ _ _ Hrecv).
  rewrite GoClaims.feed_app.
  assert (H1 : forall lt,
            GoStates.feed [")"; name; "("]
              (parser State._collect_receiver_or_parameters 0 recv pn ex (suspended p) lt
                 (context p))
            = parser State._function_dec 1 recv (Some name) ex (suspended p) (Some "(")
                (Ctx.set_long_name
                   (if receiver =? "" then name else "(" ++ receiver ++ ")" ++ name)
                   (Ctx.push_new_function name (context p)))).
  { intros lt. rewrite feed_is_run, !run_cons.
    change (advance GoStates.dispatch ")" (parser _ 0 recv pn ex ?a lt ?c))
      with (parser State._after_receiver_or_parameters 0 recv pn ex a (Some ")") c).
    rewrite (go_tentative_name name recv pn _ _ _ _ Hbt Hname).
    rewrite go_confirmed_name. reflexivity. }
  rewrite H1, app_assoc, GoClaims.feed_app, (go_run_parameters params _ _ _ _ _ _ Hp).
  exact (go_signature_to_end ret body _ _ _ _ _ _ _ Hret (or_introl eq_refl) Hb Hn).
Qed.

Lemma method_declaration_witness :
  let receiver := Py.strip (Py.join " " ["s"; "*"; "Stack"]) in
  GoStates.feed
    ("func" :: "(" :: ["s"; "*"; "Stack"] ++ [")"; "Push"; "("] ++ ["v"; "int"]
       ++ [")"] ++ ["error"] ++ ["{"] ++ ["return"; "nil"] ++ ["}"])
    (GoStates.feed Scenario.B init)
  = parser State._state_global 0 ["s"; "*"; "Stack"] (Some "Push")
      (saved State._function_impl GoStates_callback
         (exit (current (GoStates.feed Scenario.B init))))
      (suspended (GoStates.feed Scenario.B init)) (Some "}")
      (Ctx.end_of_function
         (fold_left (fun c t => Ctx.parameter t c)
            (filter (fun t => negb (Py.contains "()" t)) ["v"; "int"])
            (Ctx.set_long_name
               (if receiver =? "" then "Push" else "(" ++ receiver ++ ")" ++ "Push")
               (Ctx.push_new_function "Push"
                  (context (GoStates.feed Scenario.B init)))))).
Proof.
  apply (method_declaration (GoStates.feed Scenario.B init)
           ["s"; "*"; "Stack"] "Push" ["v"; "int"] ["error"] ["return"; "nil"]);
    try reflexivity; try discriminate.
  apply rt_plain; [reflexivity | apply rt_nil].
Defined.


(** The direct anonymous path hands its token to [_after_parameters]. *)
Lemma go_direct_anonymous u ct pn ex susp lt c :
  Py.member u ["{"; "("; ")"; GoStates.FUNC_KEYWORD] = true ->
  advance GoStates.dispatch u
    (parser State._after_receiver_or_parameters 0 ct pn ex susp lt c)
  = advance GoStates.dispatch u
      (parser State._after_parameters 0 ct pn ex susp lt
         (record_parameters (Py.strip (Py.join " " ct))
            (Ctx.push_new_function "(anonymous)" c))).
Proof.
  intros Hu. unfold advance, parser. cbn [current _state GoStates.dispatch].
  unfold GoStates._after_receiver_or_parameters.
  rewrite (ReceiverClaims.member_not_backtick u Hu), Hu.
  cbv zeta. cbn [negb]. unfold next, record_parameters.
  cbn [on_context current _collected_tokens context suspended last_token].
  destruct (Py.truthy _); reflexivity.
Qed.

(** The fallback hands its token to [_after_parameters], the buffer
    emptied. *)
Lemma go_fallback_anonymous u ct pn ex susp lt c :
  u <> "(" ->
  advance GoStates.dispatch u
    (parser State._check_for_parameters 0 ct pn ex susp lt c)
  = advance GoStates.dispatch u
      (parser State._after_parameters 0 [] pn ex susp lt
         (record_parameters (Py.strip (Py.join "" ct))
            (Ctx.set_long_name "(anonymous)"
               (Ctx.push_new_function "(anonymous)" c)))).
Proof.
  intros Hu. apply String.eqb_neq in Hu.
  unfold advance, parser. cbn [current _state GoStates.dispatch].
  unfold GoStates._check_for_parameters. rewrite Hu.
  cbv zeta. unfold next, record_parameters.
  cbn [on_context current _collected_tokens context suspended last_token].
  destruct (Py.truthy _); reflexivity.
Qed.

Lemma leading_cons ret tail :
  (ret ++ "{" :: tail)%list = (leading ret :: tl (ret ++ "{" :: tail))%list.
Proof. destruct ret; reflexivity. Qed.

(** X3.  An anonymous function whose parameter list is followed by the body, by
    a parenthesised list of results or by a function type:
    [func ( params ) ret { body }] opens one function called
    [(anonymous)] with the tokens of the first parenthesis, joined with
    spaces, as its one parameter (none when nothing is left of the join),
    and closes it at the end of the body. *)
Theorem anonymous_function_literal p params ret body :
  _state (current p) = State._state_global ->
  br_count (current p) = 0%Z ->
  forallb (fun t => negb (t =? ")")) params = true ->
  return_type ret ->
  Py.member (leading ret) ["{"; "("; GoStates.FUNC_KEYWORD] = true ->
  enclosed "{}" 1 body = true ->
  forallb neutral body = true ->
  GoStates.feed
    ("func" :: "(" :: params ++ [")"] ++ ret ++ ["{"] ++ body ++ ["}"]) p
  = parser State._state_global 0 params (_possible_function_name (current p))
      (saved State._function_impl GoStates_callback (exit (current p)))
      (suspended p) (Some "}")
      (Ctx.end_of_function
         (record_parameters (Py.strip (Py.join " " params))
            (Ctx.push_new_function "(anonymous)" (context p)))).
Proof.
  intros Hs Hbr Hpar Hret Hlead Hb Hn.
  rewrite (parser_eta p) at 1. rewrite Hs, Hbr.
  set (ct := _collected_tokens (current p)).
  set (pn := _possible_function_name (current p)).
  set (ex := exit (current p)).
  change ("func" :: "(" :: params ++ [")"] ++ ret ++ ["{"] ++ body ++ ["}"])%list
    with (["func"; "("] ++ params ++ [")"] ++ ret ++ ["{"] ++ body ++ ["}"])%list.
  rewrite GoClaims.feed_app.
  change (GoStates.feed ["func"; "("] (parser State._state_global 0 ct pn ex ?a ?b ?c))
    with (parser State._collect_receiver_or_parameters 0 [] pn ex a (Some "(") c).
  rewrite GoClaims.feed_app, (go_run_collect params _ _ _ _ _ _ _ Hpar).
  rewrite GoClaims.feed_app.
  change (GoStates.feed [")"] (parser _ 0 ([] ++ params) pn ex ?a ?b ?c))
    with (parser State._after_receiver_or_parameters 0 params pn ex a (Some ")") c).
  assert (Hu : Py.member (leading ret) ["{"; "("; ")"; GoStates.FUNC_KEYWORD] = true).
  { cbn [Py.member existsb] in Hlead |- *.
    destruct (leading ret =? "{"); [reflexivity|].
    destruct (leading ret =? "("); [reflexivity|].
    destruct (leading ret =? GoStates.FUNC_KEYWORD); [|discriminate Hlead].
    destruct (leading ret =? ")"); reflexivity. }
  pose proof (go_signature_to_end ret body State._after_parameters params pn ex
                (suspended p) (Some ")")
                (record_parameters (Py.strip (Py.join " " params))
                   (Ctx.push_new_function "(anonymous)" (context p)))
                Hret (or_introl eq_refl) Hb Hn) as E.
  cbn [app] in E |- *. rewrite leading_cons in E |- *.
  rewrite feed_is_run, run_cons in E |- *.
  rewrite (go_direct_anonymous _ _ _ _ _ _ _ Hu). exact E.
Qed.

Lemma anonymous_function_literal_witness :
  GoStates.feed
    ("func" :: "(" :: ["x"; "int"] ++ [")"] ++ [] ++ ["{"] ++ ["return"; "x"] ++ ["}"])
    init
  = parser State._state_global 0 ["x"; "int"] (_possible_function_name (current init))
      (saved State._function_impl GoStates_callback (exit (current init)))
      (suspended init) (Some "}")
      (Ctx.end_of_function
         (record_parameters (Py.strip (Py.join " " ["x"; "int"]))
            (Ctx.push_new_function "(anonymous)" (context init)))).
Proof.
  apply (anonymous_function_literal init ["x"; "int"] [] ["return"; "x"]);
    try reflexivity.
  apply rt_nil.
Defined.

(** X4.  An anonymous function with a named result type:
    [func ( params ) r ret { body }], where [r] is taken for a method name
    until the token after it turns out not to be an opening parenthesis.
    One function called [(anonymous)] is opened with the tokens of the
    first parenthesis, concatenated, as its one parameter, and closed at
    the end of the body; the buffer is left empty. *)
Theorem anonymous_function_with_result p params r ret body :
  _state (current p) = State._state_global ->
  br_count (current p) = 0%Z ->
  forallb (fun t => negb (t =? ")")) params = true ->
  r <> "`" ->
  Py.member r ["{"; "("; ")"; GoStates.FUNC_KEYWORD] = false ->
  return_type ret ->
  leading ret <> "(" ->
  enclosed "{}" 1 body = true ->
  forallb neutral body = true ->
  GoStates.feed
    ("func" :: "(" :: params ++ [")"; r] ++ ret ++ ["{"] ++ body ++ ["}"]) p
  = parser State._state_global 0 [] (Some r)
      (saved State._function_impl GoStates_callback (exit (current p)))
      (suspended p) (Some "}")
      (Ctx.end_of_function
         (record_parameters (Py.strip (Py.join "" params))
            (Ctx.set_long_name "(anonymous)"
               (Ctx.push_new_function "(anonymous)" (context p))))).
Proof.
  intros Hs Hbr Hpar Hbt Hr Hret Hlead Hb Hn.
  apply String.eqb_neq in Hbt.
  rewrite (parser_eta p) at 1. rewrite Hs, Hbr.
  set (ct := _collected_tokens (current p)).
  set (pn := _possible_function_name (current p)).
  set (ex := exit (current p)).
  change ("func" :: "(" :: params ++ [")"; r] ++ ret ++ ["{"] ++ body ++ ["}"])%list
    with (["func"; "("] ++ params ++ [")"; r] ++ ret ++ ["{"] ++ body ++ ["}"])%list.
  rewrite GoClaims.feed_app.
  change (GoStates.feed ["func"; "("] (parser State._state_global 0 ct pn ex ?a ?b ?c))
    with (parser State._collect_receiver_or_parameters 0 [] pn ex a (Some "(") c).
  rewrite GoClaims.feed_app, (go_run_collect params _ _ _ _ _ _ _ Hpar).
  rewrite GoClaims.feed_app.
  assert (H1 : forall lt,
            GoStates.feed [")"; r]
              (parser State._collect_receiver_or_parameters 0 ([] ++ params) pn ex
                 (suspended p) lt (context p))
            = parser State._check_for_parameters 0 params (Some r) ex (suspended p)
                (Some r) (context p)).
  { intros lt. rewrite feed_is_run, !run_cons.
    change (advance GoStates.dispatch ")" (parser _ 0 ([] ++ params) pn ex ?a lt ?c))
      with (parser State._after_receiver_or_parameters 0 params pn ex a (Some ")") c).
    rewrite (go_tentative_name r params pn _ _ _ _ Hbt Hr). reflexivity. }
  rewrite H1.
  pose proof (go_signature_to_end ret body State._after_parameters [] (Some r) ex
                (suspended p) (Some r)
                (record_parameters (Py.strip (Py.join "" params))
                   (Ctx.set_long_name "(anonymous)"
                      (Ctx.push_new_function "(anonymous)" (context p))))
                Hret (or_introl eq_refl) Hb Hn) as E.
  cbn [app] in E |- *. rewrite leading_cons in E |- *.
  rewrite feed_is_run, run_cons in E |- *.
  rewrite (go_fallback_anonymous _ _ _ _ _ _ _ Hlead). exact E.
Qed.

Lemma anonymous_function_with_result_witness :
  GoStates.feed
    ("func" :: "(" :: ["x"; "int"] ++ [")"; "int"] ++ [] ++ ["{"]
       ++ ["return"; "x"] ++ ["}"])
    init
  = parser State._state_global 0 [] (Some "int")
      (saved State._function_impl GoStates_callback (exit (current init)))
      (suspended init) (Some "}")
      (Ctx.end_of_function
         (record_parameters (Py.strip (Py.join "" ["x"; "int"]))
            (Ctx.set_long_name "(anonymous)"
               (Ctx.push_new_function "(anonymous)" (context init))))).
Proof.
  apply (anonymous_function_with_result init ["x"; "int"] "int" [] ["return"; "x"]);
    try reflexivity; try discriminate.
  apply rt_nil.
Defined.

End GoDeclarations.

(** ** The Go grammar: what holds of every reachable parser *)

Module GoReachable.
Import Engine Region Shape GoInvariant Reach.

Lemma last_of_cons {A} (l : list A) : forall x d, last (x :: l) d = last l x.
Proof.
  induction l as [|y l IH]; intros x d; [reflexivity|].
  change (last (x :: y :: l) d) with (last (y :: l) d).
  rewrite !IH. reflexivity.
Qed.

Lemma last_default {A} (l : list A) d d' : l <> [] -> last l d = last l d'.
Proof.
  destruct l as [|x l]; [congruence|]. intros _. rewrite !last_of_cons. reflexivity.
Qed.

Lemma Sound_push n c : Sound c -> Sound (Ctx.push_new_function n c).
Proof.
  intros [Hb Hc]. split.
  - unfold bottom in *. cbn [Ctx.push_new_function Ctx.stacked_functions
      Ctx.current_function]. rewrite last_of_cons. exact Hb.
  - simpl. rewrite Hc. lia.
Qed.

Lemma Sound_set_long_name s c :
  Ctx.stacked_functions c <> [] -> Sound c -> Sound (Ctx.set_long_name s c).
Proof.
  intros Hne [Hb Hc]. split; [|exact Hc].
  unfold bottom in *. simpl. rewrite <- Hb. apply last_default. exact Hne.
Qed.

Lemma Sound_parameter t c :
  Ctx.stacked_functions c <> [] -> Sound c -> Sound (Ctx.parameter t c).
Proof.
  intros Hne [Hb Hc]. split; [|exact Hc].
  unfold bottom in *. simpl. rewrite <- Hb. apply last_default. exact Hne.
Qed.

Lemma Sound_end c : Sound c -> Sound (Ctx.end_of_function c).
Proof.
  intros [Hb Hc]. unfold Ctx.end_of_function.
  destruct (Ctx.stacked_functions c) as [|g rest] eqn:E.
  - split; [unfold bottom in *; simpl; rewrite E in *; exact Hb|].
    simpl. rewrite E, Hc. reflexivity.
  - split.
    + unfold bottom in *. rewrite E in Hb. simpl.
      rewrite <- Hb, last_of_cons. reflexivity.
    + simpl. rewrite Hc, length_app. simpl. lia.
Qed.

Lemma stacked_after_push n c : Ctx.stacked_functions (Ctx.push_new_function n c) <> [].
Proof. discriminate. Qed.

Lemma stacked_after_set_long_name s c :
  Ctx.stacked_functions c <> [] -> Ctx.stacked_functions (Ctx.set_long_name s c) <> [].
Proof. auto. Qed.

Lemma stacked_after_parameter s c :
  Ctx.stacked_functions c <> [] -> Ctx.stacked_functions (Ctx.parameter s c) <> [].
Proof. auto. Qed.

Lemma stacked_of_length n c :
  length (Ctx.stacked_functions c) = S n -> Ctx.stacked_functions c <> [].
Proof. destruct (Ctx.stacked_functions c); [discriminate | discriminate]. Qed.

Ltac split_cases :=
  repeat (match goal with
    | |- context [String.eqb ?a ?b] => destruct (String.eqb a b)
    end; cbv beta iota);
  repeat (match goal with
    | |- context [Z.eqb ?a ?b] => destruct (Z.eqb_spec a b)
    | |- context [if ?b then _ else _] => destruct b
    end; cbv beta iota).

Ltac sound :=
  repeat first
    [ assumption
    | apply Sound_push
    | apply Sound_end
    | apply Sound_set_long_name
    | apply Sound_parameter
    | apply stacked_after_push
    | apply stacked_after_set_long_name
    | apply stacked_after_parameter
    | eapply stacked_of_length; eassumption ].

Lemma Sound_advance t p :
  Inv p -> Sound (context p) -> Sound (context (advance GoStates.dispatch t p)).
Proof.
  destruct p as [[st br ct pn ex] susp lt c].
  intros (Hg & Hfr & Hcons & Hlen) Hs.
  cbn [current _state context suspended] in *.
  destruct st; try discriminate Hg; cbn [pending Nat.add] in Hlen;
    cbv - [String.eqb Z.eqb Z.add Py.strip Py.join Py.contains Py.truthy Sound
           Ctx.push_new_function Ctx.parameter Ctx.set_long_name
           Ctx.end_of_function Ctx.add_to_function_name
           Ctx.add_to_long_function_name Ctx.enclosing_is_function];
    split_cases; sound;
    destruct susp as [|[ms mbr mct mpn [mte mss []]] rest]; cbv beta iota; sound.
Qed.


Ltac zero :=
  split;
    [ cbn [current _state br_count bracket_state]; intros;
      first [reflexivity | discriminate | assumption | lia]
    | cbn [suspended]; repeat constructor; first [assumption | reflexivity | lia | idtac] ].

Lemma Zero_advance t p :
  go_state (_state (current p)) = true ->
  Zero p -> Zero (advance GoStates.dispatch t p).
Proof.
  destruct p as [[st br ct pn ex] susp lt c].
  intros Hg [H0 Hsusp]. cbn [current _state br_count suspended] in *.
  destruct st; try discriminate Hg;
    cbn [bracket_state] in H0; try specialize (H0 eq_refl); try subst br;
    cbv - [String.eqb Z.eqb Z.add Py.strip Py.join Py.contains Py.truthy Zero
           Ctx.push_new_function Ctx.parameter Ctx.set_long_name
           Ctx.end_of_function Ctx.add_to_function_name
           Ctx.add_to_long_function_name Ctx.enclosing_is_function];
    split_cases; try solve [zero];
    destruct susp as [|[ms mbr mct mpn [mte mss []]] rest];
    try solve [zero];
    inversion Hsusp as [|? ? Hm Hrest]; subst; cbn [br_count] in Hm; subst;
    solve [zero].
Qed.

Lemma Zero_init : Zero init.
Proof. split; [reflexivity | constructor]. Qed.

Lemma Sound_init : Sound (context init).
Proof. split; reflexivity. Qed.

Lemma reachable tokens : forall p,
  Inv p -> Sound (context p) -> Zero p ->
  let q := GoStates.feed tokens p in
  Inv q /\ Sound (context q) /\ Zero q.
Proof.
  induction tokens as [|t r IH]; intros p Hi Hs Hz; [cbv zeta; auto|].
  change (GoStates.feed (t :: r) p)
    with (GoStates.feed r (advance GoStates.dispatch t p)).
  apply IH.
  - apply GoInvariantFacts.Inv_advance. exact Hi.
  - apply Sound_advance; assumption.
  - apply Zero_advance; [apply Hi | exact Hz].
Qed.

(** X8.  At every moment the functions open in the context are the ones some
    machine of the stack is waiting on: one for each suspended machine with
    a closing callback, and one more while the top machine is between the
    opening of a function and its body.  Every function ever opened is
    closed or still open. *)
Theorem open_functions_are_awaited tokens :
  let p := GoStates.feed tokens init in
  length (Ctx.stacked_functions (context p))
  = (if pending (_state (current p)) then 1 else 0)
    + length (filter awaiting (suspended p))
  /\ Ctx.created (context p)
     = length (Ctx.function_list (context p))
       + length (Ctx.stacked_functions (context p)).
Proof.
  destruct (reachable tokens init GoInvariantFacts.Inv_init Sound_init Zero_init)
    as ((_ & _ & _ & Hl) & (_ & Hc) & _).
  split; [exact Hl | exact Hc].
Qed.

(** X9.  When the base machine is back in a state without an open function,
    nothing is left open: the current function is the global sentinel,
    unchanged, and every function opened has been closed. *)
Theorem nothing_left_open_at_rest tokens :
  suspended (GoStates.feed tokens init) = [] ->
  pending (_state (current (GoStates.feed tokens init))) = false ->
  let c := context (GoStates.feed tokens init) in
  Ctx.stacked_functions c = []
  /\ Ctx.current_function c = Ctx.global_pseudo_function
  /\ length (Ctx.function_list c) = Ctx.created c.
Proof.
  intros Hsusp Hpend.
  destruct (reachable tokens init GoInvariantFacts.Inv_init Sound_init Zero_init)
    as ((_ & _ & _ & Hl) & (Hb & Hc) & _).
  rewrite Hsusp, Hpend in Hl. cbn [filter length Nat.add] in Hl.
  cbv zeta.
  destruct (Ctx.stacked_functions (context (GoStates.feed tokens init))) eqn:E;
    [|discriminate Hl].
  unfold bottom in Hb. rewrite ?E in Hb. cbn [last] in Hb.
  repeat split; auto. rewrite Hc. cbn [length]. lia.
Qed.

Lemma nothing_left_open_at_rest_witness :
  let c := context (GoStates.feed (Scenario.D ++ Scenario.B) init) in
  Ctx.stacked_functions c = []
  /\ Ctx.current_function c = Ctx.global_pseudo_function
  /\ length (Ctx.function_list c) = Ctx.created c.
Proof.
  apply (nothing_left_open_at_rest (Scenario.D ++ Scenario.B)); reflexivity.
Defined.

(** X10.  The global pseudo-function is never touched: whatever is fed, the
    record at the bottom of the function stack is the sentinel with its
    name, its long name and no parameter. *)
Theorem sentinel_is_never_touched tokens :
  bottom (context (GoStates.feed tokens init)) = Ctx.global_pseudo_function.
Proof.
  destruct (reachable tokens init GoInvariantFacts.Inv_init Sound_init Zero_init)
    as (_ & (Hb & _) & _).
  exact Hb.
Qed.

(** X11.  The depth counter is shared by all bracket readers of a machine and is
    zero whenever none of them is at work: on the top machine outside the
    bracket-reading states, and on every suspended machine. *)
Theorem depth_counter_is_zero_outside_brackets tokens :
  let p := GoStates.feed tokens init in
  (bracket_state (_state (current p)) || (br_count (current p) =? 0)%Z) = true
  /\ forallb (fun m => (br_count m =? 0)%Z) (suspended p) = true.
Proof.
  destruct (reachable tokens init GoInvariantFacts.Inv_init Sound_init Zero_init)
    as (_ & _ & (H0 & Hs)).
  cbv zeta. split.
  - destruct (bracket_state _); [reflexivity|].
    rewrite (H0 eq_refl). reflexivity.
  - apply forallb_forall. intros fr Hin.
    rewrite Forall_forall in Hs. rewrite (Hs fr Hin). reflexivity.
Qed.

End GoReachable.

(** ** The base grammar: whole declarations *)

Module GoLikeDeclarations.
Import Engine Region Shape BracketFacts.

Lemma golike_generalize t q :
  GoLikeStates.dispatch State._generalize t q
  = read_inside_brackets_then "<>" State._expect_function_dec
      (fun tok r => on_context ((fun _ c => c) tok) r) t q.
Proof. apply pass_body. Qed.

Lemma golike_run_type_parameters tps :
  type_parameters tps ->
  forall ct pn ex susp lt c,
    run GoLikeStates.dispatch tps (parser State._expect_function_dec 0 ct pn ex susp lt c)
    = parser State._expect_function_dec 0 ct pn ex susp (last_delivered tps lt) c.
Proof.
  induction 1 as [|inner rest He _ IH]; intros ct pn ex susp lt c; [reflexivity|].
  change ("<" :: inner ++ ">" :: rest)%list with (["<"] ++ inner ++ [">"] ++ rest)%list.
  rewrite !run_app, !last_delivered_app.
  change (run GoLikeStates.dispatch ["<"] (parser State._expect_function_dec 0 ct pn ex susp lt c))
    with (parser State._generalize 1 ct pn ex susp (Some "<") c).
  rewrite (run_enclosed GoLikeStates.dispatch _ _ _ _ golike_generalize inner 1
             _ _ _ _ _ _ He), fold_pass.
  rewrite run_cons,
    (advance_reading GoLikeStates.dispatch _ _ _ _ golike_generalize ">").
  exact (IH ct pn ex susp (Some ">") c).
Qed.

(** What the wait for the body passes over: everything but an opening
    brace. *)
Lemma golike_run_result ret : forall ct pn ex susp lt c,
  forallb (fun t => negb (t =? "{")) ret = true ->
  run GoLikeStates.dispatch ret (parser State._expect_function_impl 0 ct pn ex susp lt c)
  = parser State._expect_function_impl 0 ct pn ex susp (last_delivered ret lt) c.
Proof.
  induction ret as [|t r IH]; intros ct pn ex susp lt c H; [reflexivity|].
  cbn [forallb] in H. apply andb_true_iff in H. destruct H as [Ht Hr].
  apply negb_true_iff in Ht.
  rewrite run_cons.
  unfold advance, parser. cbn [current _state GoLikeStates.dispatch].
  unfold GoLikeStates._expect_function_impl. rewrite Ht. cbn [andb].
  exact (IH ct pn ex susp (Some t) c Hr).
Qed.

Lemma golike_run_body body susp lt c :
  enclosed "{}" 1 body = true ->
  forallb neutral body = true ->
  run GoLikeStates.dispatch body (mkParser fresh susp lt c)
  = mkParser fresh susp (last_delivered body lt) c.
Proof.
  intros He Hn.
  exact (run_block GoLikeStates.dispatch golike_global_neutral body 0 susp lt c He Hn).
Qed.

(** X13.  A function of the base grammar:
    [func name <type parameters> ( params ) result { body }] opens one
    function with the empty name, extends the name by [name], skips the
    type parameters, records every token of the parameter list that is not
    a parenthesis, skips the result type and closes the function at the
    end of the body; the machine is left as it was, but for what it
    stored on entering the body (its state and the closing callback). *)
Theorem golike_function_declaration p name tps params ret body :
  _state (current p) = State._state_global ->
  br_count (current p) = 0%Z ->
  Py.member name ["`"; "("; "{"] = false ->
  type_parameters tps ->
  enclosed "()" 1 params = true ->
  forallb (fun t => negb (t =? "{")) ret = true ->
  last_delivered ret (Some ")") <> Some "interface" ->
  enclosed "{}" 1 body = true ->
  forallb neutral body = true ->
  GoLikeStates.feed
    ("func" :: name :: tps ++ ["("] ++ params ++ [")"] ++ ret ++ ["{"] ++ body ++ ["}"])
    p
  = set_last_token (Some "}")
      (on_context
         (fun c =>
            Ctx.end_of_function
              (fold_left (fun c t => Ctx.parameter t c)
                 (filter (fun t => negb (Py.contains "()" t)) params)
                 (Ctx.add_to_function_name name (Ctx.push_new_function "" c))))
         (set_saved State._function_impl GoLikeStates_callback p)).
Proof.
  intros Hs Hbr Hname Htp Hp Hret Hlast Hb Hn.
  unfold GoLikeStates.feed.
  rewrite (parser_eta p) at 1. rewrite Hs, Hbr.
  set (ct := _collected_tokens (current p)).
  set (pn := _possible_function_name (current p)).
  set (ex := exit (current p)).
  change ("func" :: name :: tps ++ ["("] ++ params ++ [")"] ++ ret ++ ["{"]
            ++ body ++ ["}"])%list
    with (["func"; name] ++ tps ++ ["("] ++ params ++ [")"] ++ ret ++ ["{"]
            ++ body ++ ["}"])%list.
  rewrite run_app.
  assert (H1 : run GoLikeStates.dispatch ["func"; name]
                 (parser State._state_global 0 ct pn ex (suspended p) (last_token p)
                    (context p))
               = parser State._expect_function_dec 0 ct pn ex (suspended p) (Some name)
                   (Ctx.add_to_function_name name
                      (Ctx.push_new_function "" (context p)))).
  { change (run GoLikeStates.dispatch ["func"; name] ?q)
      with (advance GoLikeStates.dispatch name
              (advance GoLikeStates.dispatch "func" q)).
    change (advance GoLikeStates.dispatch "func"
              (parser State._state_global 0 ct pn ex ?a ?b ?c))
      with (parser State._function_name 0 ct pn ex a (Some "func")
              (Ctx.push_new_function "" c)).
    unfold advance, parser. cbn [current _state].
    rewrite (GoLikeClaims.function_name_token name _ Hname). reflexivity. }
  rewrite H1, run_app, (golike_run_type_parameters tps Htp).
  rewrite run_app.
  change (run GoLikeStates.dispatch ["("] (parser State._expect_function_dec 0 ct pn ex ?a ?b ?c))
    with (parser State._function_dec 1 ct pn ex a (Some "(") c).
  rewrite run_app.
  rewrite (run_enclosed GoLikeStates.dispatch _ _ _ _
             GoLikeClaims.dispatch_function_dec params 1 _ _ _ _ _ _ Hp).
  rewrite run_app, run_cons,
    (advance_reading GoLikeStates.dispatch _ _ _ _
       GoLikeClaims.dispatch_function_dec ")").
  change (bracket_delta "()" ")") with (-1)%Z. cbn [Z.add Z.pos_sub Z.eqb].
  change (record_parameter ")" ?c) with c.
  rewrite GoLikeClaims.fold_record_parameter.
  change (run GoLikeStates.dispatch [] ?q) with q.
  rewrite run_app, (golike_run_result ret _ _ _ _ _ _ Hret).
  rewrite run_app.
  match goal with
  | |- context [run GoLikeStates.dispatch ["{"] (parser _ 0 ct pn ex ?a ?l ?c)] =>
      assert (H2 : run GoLikeStates.dispatch ["{"] (parser State._expect_function_impl 0 ct pn ex a l c)
                   = mkParser fresh
                       (mkMachine State._function_impl 0 ct pn
                          (saved State._function_impl GoLikeStates_callback ex)
                          :: a) (Some "{") c)
  end.
  { unfold run, advance, parser. cbn [fold_left current _state].
    cbn [GoLikeStates.dispatch]. unfold GoLikeStates._expect_function_impl.
    cbn [last_token String.eqb Ascii.eqb Bool.eqb andb].
    destruct (last_delivered ret (Some ")")) as [l|] eqn:E; [|reflexivity].
    destruct (l =? "interface") eqn:El; [|reflexivity].
    apply String.eqb_eq in El. subst l. congruence. }
  rewrite H2, run_app, (golike_run_body body _ _ _ Hb Hn).
  change (run GoLikeStates.dispatch ["}"] (mkParser fresh (?m :: ?a) ?l ?c))
    with (parser State._state_global 0 ct pn
            (saved State._function_impl GoLikeStates_callback ex) a (Some "}")
            (Ctx.end_of_function c)).
  subst ct pn ex. destruct p as [[st br ct pn ex] susp lt c].
  cbn [current _state br_count] in Hs, Hbr. subst st br. reflexivity.
Qed.


Lemma golike_function_declaration_witness :
  GoLikeStates.feed
    ("func" :: "Max" :: ("<" :: ["T"; "<"; "U"; ">"] ++ ">" :: []) ++ ["("]
       ++ ["a"; "T"] ++ [")"] ++ ["T"] ++ ["{"] ++ ["return"; "a"] ++ ["}"])
    init
  = set_last_token (Some "}")
      (on_context
         (fun c =>
            Ctx.end_of_function
              (fold_left (fun c t => Ctx.parameter t c)
                 (filter (fun t => negb (Py.contains "()" t)) ["a"; "T"])
                 (Ctx.add_to_function_name "Max" (Ctx.push_new_function "" c))))
         (set_saved State._function_impl GoLikeStates_callback init)).
Proof.
  apply (golike_function_declaration init "Max"
           ("<" :: ["T"; "<"; "U"; ">"] ++ ">" :: [])%list
           ["a"; "T"] ["T"] ["return"; "a"]);
    try reflexivity; try discriminate.
  apply tp_group; [reflexivity | apply tp_nil].
Defined.

(** X14.  A declaration that is given up: when the token after the name is
    neither an opening parenthesis nor an opening angle bracket, the
    machine goes back to the global state and the function that was opened
    stays open in the context, with no close event sent for it. *)
Theorem golike_declaration_given_up p name t :
  _state (current p) = State._state_global ->
  Py.member name ["`"; "("; "{"] = false ->
  Py.member t ["("; "<"] = false ->
  GoLikeStates.feed ["func"; name; t] p
  = set_last_token (Some t)
      (on_context
         (fun c => Ctx.add_to_function_name name (Ctx.push_new_function "" c)) p)
  /\ Ctx.stacked_functions (context (GoLikeStates.feed ["func"; name; t] p))
     = Ctx.current_function (context p) :: Ctx.stacked_functions (context p).
Proof.
  intros Hs Hname Ht. pose proof Hname as Hname0.
  cbn [Py.member existsb] in Hname, Ht.
  apply orb_false_iff in Hname. destruct Hname as [N1 Hname].
  apply orb_false_iff in Hname. destruct Hname as [N2 Hname].
  apply orb_false_iff in Hname. destruct Hname as [N3 _].
  apply orb_false_iff in Ht. destruct Ht as [T1 Ht].
  apply orb_false_iff in Ht. destruct Ht as [T2 _].
  assert (E : GoLikeStates.feed ["func"; name; t] p
              = set_last_token (Some t)
                  (on_context
                     (fun c => Ctx.add_to_function_name name
                                 (Ctx.push_new_function "" c)) p)).
  { destruct p as [[st br ct pn ex] susp lt c]. cbn [current _state] in Hs. subst st.
    change (GoLikeStates.feed ["func"; name; t] ?q)
      with (advance GoLikeStates.dispatch t
              (advance GoLikeStates.dispatch name
                 (advance GoLikeStates.dispatch "func" q))).
    change (advance GoLikeStates.dispatch "func" (mkParser ?m ?a ?b c))
      with (parser State._function_name br ct pn ex a (Some "func")
              (Ctx.push_new_function "" c)).
    unfold advance at 2. unfold parser. cbn [current _state].
    rewrite (GoLikeClaims.function_name_token name _ Hname0).
    unfold advance. cbn [current _state set_state set_last_token on_context
                         with_current GoLikeStates.dispatch].
    unfold GoLikeStates._expect_function_dec. rewrite T1, T2. reflexivity. }
  split; [exact E|]. rewrite E. reflexivity.
Qed.

Lemma golike_declaration_given_up_witness :
  GoLikeStates.feed ["func"; "f"; "x"] init
  = set_last_token (Some "x")
      (on_context
         (fun c => Ctx.add_to_function_name "f" (Ctx.push_new_function "" c)) init)
  /\ Ctx.stacked_functions (context (GoLikeStates.feed ["func"; "f"; "x"] init))
     = Ctx.current_function (context init) :: Ctx.stacked_functions (context init).
Proof.
  apply (golike_declaration_given_up init "f" "x"); reflexivity.
Defined.

End GoLikeDeclarations.

(** ** The base grammar: what holds of every reachable parser *)

Module GoLikeReachable.
Import Engine Region Shape GoInvariant Reach.

Lemma Bal_of_balanced k c : Bal k c <-> exists n, balanced n c /\ k <= n.
Proof.
  split.
  - intros [Hc Hk]. exists (length (Ctx.stacked_functions c)). repeat split; auto.
  - intros (n & [Hc Hn] & Hk). split; [exact Hc | lia].
Qed.

Lemma Bal_weaken k k' c : k' <= k -> Bal k c -> Bal k' c.
Proof. intros Hle [Hc Hk]. split; [exact Hc | lia]. Qed.

Lemma Bal_push k n c : Bal k c -> Bal (S k) (Ctx.push_new_function n c).
Proof.
  intros H. apply Bal_of_balanced in H. destruct H as (m & Hb & Hk).
  apply Bal_of_balanced. exists (S m). split; [|lia].
  apply GoInvariantFacts.balanced_push. exact Hb.
Qed.

Lemma Bal_parameter k t c : Bal k c -> Bal k (Ctx.parameter t c).
Proof.
  intros H. apply Bal_of_balanced in H. destruct H as (m & Hb & Hk).
  apply Bal_of_balanced. exists m. split; [|lia].
  apply GoInvariantFacts.balanced_parameter. exact Hb.
Qed.

Lemma Bal_add_to_function_name k t c : Bal k c -> Bal k (Ctx.add_to_function_name t c).
Proof.
  intros [(ids & Hs & Hr) Hk]. split; [|exact Hk].
  exists ids. split; [exact Hs|].
  simpl. rewrite TraceFacts.replay_app, Hr. reflexivity.
Qed.

Lemma Bal_add_to_long_function_name k t c :
  Bal k c -> Bal k (Ctx.add_to_long_function_name t c).
Proof.
  intros [(ids & Hs & Hr) Hk]. split; [|exact Hk].
  exists ids. split; [exact Hs|].
  simpl. rewrite TraceFacts.replay_app, Hr. reflexivity.
Qed.

Lemma Bal_end k c : Bal (S k) c -> Bal k (Ctx.end_of_function c).
Proof.
  intros H. apply Bal_of_balanced in H. destruct H as (m & Hb & Hk).
  destruct m as [|m]; [lia|].
  apply Bal_of_balanced. exists m. split; [|lia].
  apply GoInvariantFacts.balanced_end. exact Hb.
Qed.

Ltac bal :=
  repeat first
    [ assumption
    | apply Bal_push
    | apply Bal_parameter
    | apply Bal_add_to_function_name
    | apply Bal_add_to_long_function_name
    | apply Bal_end
    | (eapply Bal_weaken; [|eassumption]; cbn [length]; lia) ].

Lemma frame_exit m m' :
  callback (exit m') = callback (exit m) ->
  saved_state (exit m') = saved_state (exit m) ->
  frame_ok_golike m -> frame_ok_golike m'.
Proof. unfold frame_ok_golike. intros -> ->. auto. Qed.

Ltac frames :=
  cbn [current suspended];
  repeat first
    [ assumption
    | apply Forall_nil
    | apply Forall_cons;
      [ first [ left; reflexivity
              | right; split; reflexivity
              | (eapply frame_exit; [| |eassumption]; reflexivity) ] |] ].

Lemma Open_InvL p : pending_golike (_state (current p)) = true -> Open p -> InvL p.
Proof. intros Hp [Hf Hb]. split; [exact Hf|]. rewrite Hp. exact Hb. Qed.

Lemma InvL_Open p : pending_golike (_state (current p)) = true -> InvL p -> Open p.
Proof. intros Hp [Hf Hb]. rewrite Hp in Hb. split; assumption. Qed.

(** A machine that resumes closes the function it holds, or gives it up. *)
Lemma Open_resume p : Open p -> InvL (resume p).
Proof.
  destruct p as [[st br ct pn [te ss cb]] susp lt c].
  intros [Hf Hb]. cbn [current suspended context] in Hf, Hb.
  inversion Hf as [|? ? Hc Hs]; subst.
  unfold resume. cbn [current exit callback saved_state] in *.
  destruct Hc as [Hc | [Hc Hg]]; cbn [exit callback saved_state] in Hc; subst cb.
  - split; [frames|]. cbn. bal.
  - cbn [exit callback saved_state] in Hg. subst ss.
    split; [frames|]. cbn. bal.
Qed.

Lemma Open_reader brs s e g t p :
  (forall k tok c, Bal k c -> Bal k (g tok c)) ->
  pending_golike s = true -> pending_golike e = true ->
  Open p ->
  let q := next (read_inside_brackets_then brs e
                   (fun tok r => on_context (g tok) r)) s t p in
  Open q /\ pending_golike (_state (current q)) = true
  /\ suspended q = suspended p.
Proof.
  intros Hg Hs He [Hf Hb]. unfold next, read_inside_brackets_then. cbv zeta.
  inversion Hf as [|? ? Hc Hsu]; subst.
  destruct (_ =? 0)%Z; (split; [split; [constructor; assumption | apply Hg; exact Hb]|]);
    split; first [exact He | exact Hs | reflexivity].
Qed.

(** The engine's handling of the value of [next] on a bracket reader. *)
Lemma InvL_next_value_reader h brs s e g t p :
  (forall tok r, h tok r
     = read_inside_brackets_then brs e (fun tok r => on_context (g tok) r) tok r) ->
  (forall k tok c, Bal k c -> Bal k (g tok c)) ->
  pending_golike s = true -> pending_golike e = true ->
  Open p ->
  InvL (let (q, r) := next_value h s t p in if r then resume (self p q) else q).
Proof.
  intros Hh Hg Hs He Ho. unfold next_value.
  assert (K : next h s t p
              = next (read_inside_brackets_then brs e
                        (fun tok r => on_context (g tok) r)) s t p).
  { unfold next. apply Hh. }
  rewrite K.
  destruct (Open_reader brs s e g t p Hg Hs He Ho) as (Hq & Hp & Hsu).
  cbv zeta in Hq, Hp, Hsu.
  rewrite (GoLikeClaims.self_same p _ Hsu).
  destruct (to_exit _); [apply Open_resume | apply Open_InvL]; assumption.
Qed.

Lemma InvL_function_name t p :
  _state (current p) = State._function_name ->
  InvL p -> InvL (GoLikeStates.dispatch State._function_name t p).
Proof.
  intros Hst Hi.
  assert (Ho : Open p) by (apply InvL_Open; [rewrite Hst; reflexivity | exact Hi]).
  cbn [GoLikeStates.dispatch].
  unfold called, GoLikeStates._function_name, GoLikeStates._function_name_of.
  destruct (negb (t =? "`")); [|exact Hi].
  destruct (t =? "(").
  - destruct (Ctx.enclosing_is_function (context p)).
    + apply (InvL_next_value_reader _ "()" _ State._expect_function_impl
               record_parameter);
        [ intros tok r; exact (GoLikeClaims.dispatch_function_dec tok r)
        | intros k tok c Hb; unfold record_parameter;
          destruct (negb _); [apply Bal_parameter|]; exact Hb
        | reflexivity | reflexivity | exact Ho ].
    + apply (InvL_next_value_reader _ "()" _ State._function_name
               Ctx.add_to_long_function_name);
        [ intros tok r; reflexivity
        | intros k tok c Hb; apply Bal_add_to_long_function_name; exact Hb
        | reflexivity | reflexivity | exact Ho ].
  - destruct (t =? "{") eqn:Et.
    + unfold next_value, next, GoLikeStates._expect_function_impl.
      rewrite Et. cbn [andb].
      destruct p as [[st br ct pn [te ss cb]] susp lt c].
      destruct Ho as [Hf Hb]. inversion Hf as [|? ? Hc Hsu]; subst.
      cbn [current suspended context last_token set_state with_current
           _state br_count _collected_tokens _possible_function_name exit] in *.
      destruct (negb _).
      * unfold GoLikeStates._function_impl, sub_state, set_saved, set_exit, saved.
        cbn [current suspended context last_token set_state with_current
             _state br_count _collected_tokens _possible_function_name exit
             to_exit].
        match goal with
        | |- context [self ?a ?b] =>
            rewrite (GoLikeClaims.self_pushed a b _ eq_refl)
        end.
        cbn [current suspended context last_token exit to_exit].
        destruct te.
        -- apply Open_resume. split; [frames|exact Hb].
        -- split; [frames|]. cbn. unfold awaiting at 1. cbn. exact Hb.
      * match goal with
        | |- context [self ?a ?b] =>
            rewrite (GoLikeClaims.self_same a b eq_refl)
        end.
        cbn [current exit to_exit].
        destruct te.
        -- apply Open_resume. split; [frames|exact Hb].
        -- split; [frames|exact Hb].
    + destruct Ho as [Hf Hb]. inversion Hf as [|? ? Hc Hsu]; subst.
      split; [constructor; assumption|].
      cbn. apply Bal_add_to_function_name. exact Hb.
Qed.

Lemma InvL_set_last_token x p : InvL p -> InvL (set_last_token x p).
Proof. intros H. exact H. Qed.

Lemma InvL_advance t p : InvL p -> InvL (advance GoLikeStates.dispatch t p).
Proof.
  intros Hi. unfold advance. apply InvL_set_last_token.
  destruct (State.eqb (_state (current p)) State._function_name) eqn:Efn.
  { assert (Hst : _state (current p) = State._function_name)
      by (destruct (_state (current p)); (reflexivity || discriminate Efn)).
    rewrite Hst. apply InvL_function_name; assumption. }
  revert Hi Efn. destruct p as [[st br ct pn [te ss cb]] susp lt c].
  intros [Hfr Hbal] Efn. cbn [current _state context suspended] in *.
  inversion Hfr as [|? ? Hcur Hsusp]; subst. clear Hfr.
  destruct st; try discriminate Efn; cbn [pending_golike Nat.add] in Hbal;
    cbv - [String.eqb Z.eqb Z.add Py.strip Py.join Py.contains Py.truthy InvL
           Ctx.push_new_function Ctx.parameter Ctx.set_long_name
           Ctx.end_of_function Ctx.add_to_function_name
           Ctx.add_to_long_function_name Ctx.enclosing_is_function];
    GoReachable.split_cases;
    try (destruct susp as [|[ms mbr mct mpn [mte mss mcb]] rest];
         [| inversion Hsusp as [|? ? Hm Hrest]; subst;
            destruct Hm as [Hm | [Hm Hms]];
            cbn [exit callback saved_state] in *; subst; cbv beta iota ]);
    (split;
     [ frames
     | cbn [current _state context suspended pending_golike filter awaiting
            exit callback length Nat.add] in *; bal ]).
Qed.


Lemma InvL_init : InvL init.
Proof.
  split.
  - constructor; [right; split; reflexivity | constructor].
  - split; [|cbn; lia]. exists []. split; reflexivity.
Qed.

Lemma InvL_feed tokens : forall p, InvL p -> InvL (GoLikeStates.feed tokens p).
Proof.
  induction tokens as [|t r IH]; intros p Hp; [exact Hp|].
  apply IH. apply InvL_advance. exact Hp.
Qed.

(** X15.  Whatever tokens the base grammar is fed, every close event closes the
    function opened last among those still open, never the global
    sentinel and never a function twice; and the context holds at least
    as many open functions as the machine stack is waiting on. *)
Theorem golike_close_events_are_lifo tokens :
  let p := GoLikeStates.feed tokens init in
  Trace.strict_lifo (Ctx.events (context p))
  /\ (if pending_golike (_state (current p)) then 1 else 0)
     + length (filter awaiting (suspended p))
     <= length (Ctx.stacked_functions (context p)).
Proof.
  destruct (InvL_feed tokens init InvL_init) as (_ & (ids & _ & Hr) & Hk).
  split; [|exact Hk].
  exact (TraceFacts.replay_strict_lifo _ _ _ Hr).
Qed.

End GoLikeReachable.

(** ** The Java grammar: runs of annotations *)

Module JavaAnnotations.
Import JavaStates Shape.

Section OverCLikeStates.

Variables (BaseState Base : Type).
Variables (g d2i : Handler BaseState Base).
Variable disp : BaseState -> Handler BaseState Base.

(** After a name part, a token that is not a dot is handled as in the
    global state. *)
Lemma advance_after_part u lt (b : Base) :
  u <> "." ->
  advance g d2i disp u (mkMachine JavaState._state_post_decorator lt b)
  = advance g d2i disp u (mkMachine JavaState._state_global lt b).
Proof.
  intros Hu. apply String.eqb_neq in Hu.
  unfold advance. cbn [_state dispatch]. unfold _state_post_decorator.
  rewrite Hu. reflexivity.
Qed.

Lemma feed_annotation first more lt (b : Base) :
  feed g d2i disp ("@" :: dotted first more)
    (mkMachine JavaState._state_global lt b)
  = mkMachine JavaState._state_post_decorator (Some (last more first)) b.
Proof.
  change (feed g d2i disp ("@" :: dotted first more) ?m)
    with (feed g d2i disp (dotted first more)
            (mkMachine JavaState._state_decorator (Some "@") b)).
  rewrite (JavaClaims.feed_dotted BaseState Base g d2i disp more first
             (mkMachine JavaState._state_decorator (Some "@") b) eq_refl).
  reflexivity.
Qed.

Lemma annotations_head names t :
  t <> "." ->
  exists u rest, (annotations names ++ [t])%list = u :: rest /\ u <> ".".
Proof.
  intros Ht. destruct names as [|[f more] r].
  - exists t, []. auto.
  - exists "@", (dotted f more ++ annotations r ++ [t])%list. split.
    + cbn [annotations app]. rewrite <- app_assoc. reflexivity.
    + discriminate.
Qed.

Lemma feed_annotations names t (b : Base) :
  t <> "." ->
  forall lt,
    feed g d2i disp (annotations names ++ [t])
      (mkMachine JavaState._state_global lt b)
    = advance g d2i disp t
        (mkMachine JavaState._state_global (last_annotation_token names lt) b).
Proof.
  intros Ht. induction names as [|[f more] r IH]; intros lt; [reflexivity|].
  replace (annotations ((f, more) :: r) ++ [t])%list
    with (("@" :: dotted f more) ++ (annotations r ++ [t]))%list
    by (cbn [annotations app]; rewrite <- app_assoc; reflexivity).
  rewrite JavaClaims.java_feed_app, feed_annotation.
  cbn [last_annotation_token]. rewrite <- IH.
  destruct (annotations_head r t Ht) as (u & rest & E & Hu).
  rewrite E.
  change (feed g d2i disp (u :: rest) ?m)
    with (feed g d2i disp rest (advance g d2i disp u m)).
  rewrite (advance_after_part u _ b Hu). reflexivity.
Qed.

(** X16.  Any number of annotations in a row, each a dotted name after an [@],
    are passed over: the token that follows them is handled by the
    global-state handler as if it had come first, and the data of the base
    grammar has not been touched. *)
Theorem annotations_are_passed_over (m : Machine BaseState Base) names t :
  _state m = JavaState._state_global ->
  t <> "." ->
  feed g d2i disp (annotations names ++ [t]) m
  = advance g d2i disp t
      (set_last_token (last_annotation_token names (last_token m)) m).
Proof.
  intros Hm Ht. destruct m as [s lt b]. cbn [_state] in Hm. subst s.
  exact (feed_annotations names t b Ht lt).
Qed.

End OverCLikeStates.

Lemma annotations_are_passed_over_witness :
  feed logging_global logging_global (fun _ _ m => m)
    (annotations [("Override", []); ("pkg", ["Name"])] ++ ["class"])
    (mkMachine JavaState._state_global None ["public"])
  = advance logging_global logging_global (fun _ _ m => m) "class"
      (set_last_token
         (last_annotation_token [("Override", []); ("pkg", ["Name"])]
            (last_token (mkMachine (BaseState:=unit) JavaState._state_global None ["public"])))
         (mkMachine JavaState._state_global None ["public"])).
Proof.
  apply (annotations_are_passed_over unit (list string) logging_global logging_global
           (fun _ _ m => m)
           (mkMachine JavaState._state_global None ["public"])
           [("Override", []); ("pkg", ["Name"])] "class").
  - reflexivity.
  - discriminate.
Defined.

End JavaAnnotations.

(** ** The Go grammar: nested declarations *)

Module NestingFacts.
Import Engine Region Shape BracketFacts GoShapeFacts GoDeclarations Nesting.












End NestingFacts.
